(** * LionTrade: risk gate, execution engine, strategies and stream routing

  A shallow embedding of the trading core of the repository
  (trading/risk_manager.py, trading/execution_engine.py,
  strategies/scalping_strategy.py, strategies/momentum_strategy.py,
  data/websocket_manager.py) together with the properties of its
  specification.

  Conventions of the embedding.
  - A Python float is an exact rational ([Q]); rounding, NaN and the
    infinities are outside the model.  Comparisons are the boolean ones
    the code branches on.
  - A Python object is a record of its attributes.  An attribute that a
    constructor never binds is an [option] field left at [None]; reading
    it raises [AttributeError], as [getattr] without a default does.
  - A method is a state transformer that either returns a value or raises;
    the state reached at the moment of a raise is kept, because Python
    does not roll mutations back.
  - Calls to [print] and to a bound logger only write text and are left
    out; the lookup of the logger attribute itself is modelled. *)

From Stdlib Require Import QArith Qminmax ZArith List String Ascii Bool Lia Lqa Arith.
Import ListNotations.

Set Implicit Arguments.

(** ** Python preliminaries *)

Module Py.

(** The exceptions the modelled code can raise. *)
Inductive exn : Type :=
| AttributeError
| KeyError
| IndexError
| TypeError
| ValueError
| ZeroDivisionError
| JSONDecodeError.

Inductive res (A : Type) : Type :=
| Ok (a : A)
| Raise (e : exn).
Arguments Ok {A} a.
Arguments Raise {A} e.

(** A method on an object of state [S]: the final state and the outcome. *)
Definition M (S A : Type) : Type := S -> S * res A.

Definition ret {S A} (a : A) : M S A := fun s => (s, Ok a).
Definition raise {S A} (e : exn) : M S A := fun s => (s, Raise e).
Definition bind {S A B} (c : M S A) (k : A -> M S B) : M S B :=
  fun s => match c s with
           | (s', Ok a) => k a s'
           | (s', Raise e) => (s', Raise e)
           end.
Definition get {S} : M S S := fun s => (s, Ok s).
Definition modify {S} (f : S -> S) : M S unit := fun s => (f s, Ok tt).

(** Running a method of a component inside a larger object. *)
Definition zoom {S T A} (proj : S -> T) (upd : T -> S -> S) (c : M T A) : M S A :=
  fun s => let (t', r) := c (proj s) in (upd t' s, r).

Declare Scope py_scope.
Delimit Scope py_scope with py.
Notation "x <- c ;; k" := (bind c (fun x => k))
  (at level 61, c at next level, right associativity) : py_scope.
Notation "c ;;; k" := (bind c (fun _ => k))
  (at level 61, right associativity) : py_scope.

(** Float comparisons. *)
Definition Qltb (x y : Q) : bool := negb (Qle_bool y x).
Definition Qleb (x y : Q) : bool := Qle_bool x y.
Definition Qgtb (x y : Q) : bool := Qltb y x.
Definition Qgeb (x y : Q) : bool := Qle_bool y x.

(** [max(a, b)] and [min(a, b)] of the builtins: the first argument is
    kept unless the second is strictly better. *)
Definition py_max (a b : Q) : Q := if Qgtb b a then b else a.
Definition py_min (a b : Q) : Q := if Qltb b a then b else a.

(** True division [x / y] on floats. *)
Definition truediv {S} (x y : Q) : M S Q :=
  if Qeq_bool y 0 then raise ZeroDivisionError else ret (x / y)%Q.

(** [str.lower()] on the ASCII range. *)
Definition lower_ascii (c : ascii) : ascii :=
  let n := nat_of_ascii c in
  if ((65 <=? n) && (n <=? 90))%nat then ascii_of_nat (n + 32) else c.

Fixpoint lower (s : string) : string :=
  match s with
  | EmptyString => EmptyString
  | String c s' => String (lower_ascii c) (lower s')
  end.

(** [s.startswith(p)]. *)
Definition startswith (p s : string) : bool := String.prefix p s.

(** Values read from a decoded JSON message, plus the pandas timestamp
    the replay driver puts into a tick ([PTime], milliseconds). *)
#[local] Unset Elimination Schemes.
Inductive pyval : Type :=
| PNone
| PBool (b : bool)
| PNum (q : Q)
| PStr (s : string)
| PTime (ms : Z)
| PList (l : list pyval)
| PDict (kv : list (string * pyval)).
#[local] Set Elimination Schemes.

(** A [dict] with string keys. *)
Definition dict : Type := list (string * pyval).

Fixpoint lookup (k : string) (d : dict) : option pyval :=
  match d with
  | [] => None
  | (k', v) :: d' => if String.eqb k k' then Some v else lookup k d'
  end.

Definition keys (d : dict) : list string := map fst d.

(** [d.get(k)] and [d.get(k, default)]. *)
Definition dict_get (k : string) (d : dict) : pyval :=
  match lookup k d with Some v => v | None => PNone end.
Definition dict_get_default (k : string) (default : pyval) (d : dict) : pyval :=
  match lookup k d with Some v => v | None => default end.

(** [k in d]. *)
Definition dict_mem (k : string) (d : dict) : bool :=
  match lookup k d with Some _ => true | None => false end.

(** [v.get(k)]: only a dict has the method. *)
Definition get_method {S} (v : pyval) (k : string) : M S pyval :=
  match v with
  | PDict d => ret (dict_get k d)
  | _ => raise AttributeError
  end.

(** Truth value of an object in a condition. *)
Definition truthy (v : pyval) : bool :=
  match v with
  | PNone => false
  | PBool b => b
  | PNum q => negb (Qeq_bool q 0)
  | PStr s => negb (String.eqb s EmptyString)
  | PTime _ => true
  | PList l => match l with [] => false | _ => true end
  | PDict d => match d with [] => false | _ => true end
  end.

(** The one-character strings a [for] loop over a string yields. *)
Fixpoint chars (s : string) : list pyval :=
  match s with
  | EmptyString => []
  | String c s' => PStr (String c EmptyString) :: chars s'
  end.

(** The items a [for] loop visits: the elements of a list, the keys of a
    dict, the characters of a string; nothing else is iterable. *)
Definition iter {S} (v : pyval) : M S (list pyval) :=
  match v with
  | PList l => ret l
  | PDict d => ret (map PStr (keys d))
  | PStr s => ret (chars s)
  | _ => raise TypeError
  end.

(** [v[0]]. *)
Definition index0 {S} (v : pyval) : M S pyval :=
  match v with
  | PList (x :: _) => ret x
  | PList [] => raise IndexError
  | PStr (String c _) => ret (PStr (String c EmptyString))
  | PStr EmptyString => raise IndexError
  | PDict _ => raise KeyError
  | _ => raise TypeError
  end.

(** [deque(maxlen=n).append(x)]: the leftmost item is dropped when the
    deque is full; a deque of capacity zero stays empty. *)
Definition deque_append {A} (maxlen : nat) (d : list A) (x : A) : list A :=
  if (maxlen =? 0)%nat then d
  else if (List.length d <? maxlen)%nat then (d ++ [x])%list
  else (tl d ++ [x])%list.

End Py.

Import Py.
Local Open Scope py_scope.

(** ** Configuration (the [Config] dataclass of crypto_com_momo_bot.py) *)

Module Config.

Record t : Type := mk {
  execution_mode : string;
  large_order_threshold_usdt : Q;
  throttle_window : nat;
  throttle_threshold_pct : Q;
  daily_drawdown_pct : Q;
  total_budget_usdt : Q;
  risk_per_trade_pct : Q;
  stop_loss_pct : Q;
  take_profit_pct : Q;
  ema_len : nat;
  zscore_len : nat;
  zscore_entry : Q;
  rsi_oversold : Q;
  rsi_overbought : Q;
  symbol_ccxt : string;
  cooldown_sec : Q
}.

(** The defaults of the dataclass. *)
Definition default : t := {|
  execution_mode := "auto";
  large_order_threshold_usdt := 500;
  throttle_window := 20;
  throttle_threshold_pct := 40 # 100;
  daily_drawdown_pct := 2 # 100;
  total_budget_usdt := 1000;
  risk_per_trade_pct := 1 # 100;
  stop_loss_pct := 4 # 1000;
  take_profit_pct := 1 # 100;
  ema_len := 12;
  zscore_len := 20;
  zscore_entry := 4 # 10;
  rsi_oversold := 45;
  rsi_overbought := 55;
  symbol_ccxt := "BTC/USDT";
  cooldown_sec := 10
|}.

End Config.

(** ** Signals, positions and trade records *)

(** A signal dict [{"action": ..., "price": ..., "reason": ...}]; the last
  two keys may be missing. *)
Record Signal : Type := mkSignal {
action : string;
price : option Q;
reason : option string
}.

(** What the callers hand over as [signal]: the replay driver passes a
  signal dict, the live router passes the boolean that
  [on_tick_update] returned. *)
Inductive SignalArg : Type :=
| SigBool (b : bool)
| SigDict (s : Signal).

(** The position dict [{"side": ..., "qty": ..., "entry": ...}]. *)
Record Position : Type := mkPosition {
side : string;
qty : Q;
entry : Q
}.

(** One call of the injected [log_trade] function. *)
Record TradeRecord : Type := mkTrade {
tr_symbol : string;
tr_action : string;
tr_side : string;
tr_price : Q;
tr_qty : Q;
tr_reason : string;
tr_pnl : option Q
}.

(** [logging.getLogger(name)]. *)
Inductive Logger : Type := getLogger (name : string).

(** ** The sentiment collaborator (trading/ai_analyzer.py) *)

Module AI_Analyzer.

Record t : Type := mk { sentiment : string }.

Definition get_current_sentiment (self : t) : string := sentiment self.

End AI_Analyzer.

(** ** The risk gate (trading/risk_manager.py) *)

Module RiskManager.

Record t : Type := mk {
  cfg : Config.t;
  starting_budget : Q;
  trading_paused_drawdown : bool;
  trade_history : list Z;
  trading_paused_throttle : bool;
  log : option Logger
}.

Definition set_trading_paused_drawdown (b : bool) (self : t) : t :=
  mk (cfg self) (starting_budget self) b (trade_history self)
     (trading_paused_throttle self) (log self).

Definition set_trading_paused_throttle (b : bool) (self : t) : t :=
  mk (cfg self) (starting_budget self) (trading_paused_drawdown self)
     (trade_history self) b (log self).

Definition set_trade_history (h : list Z) (self : t) : t :=
  mk (cfg self) (starting_budget self) (trading_paused_drawdown self)
     h (trading_paused_throttle self) (log self).

(** [__init__]: the attributes bound are [cfg], [ai_analyzer],
    [starting_budget], the two pause flags and the outcome deque.  No
    statement binds [log]. *)
Definition __init__ (c : Config.t) : t := {|
  cfg := c;
  starting_budget := Config.total_budget_usdt c;
  trading_paused_drawdown := false;
  trade_history := [];
  trading_paused_throttle := false;
  log := None
|}.

(** [self.log]: the attribute lookup in front of every logging call. *)
Definition getattr_log : M t Logger :=
  self <- get ;;
  match log self with
  | Some l => ret l
  | None => raise AttributeError
  end.

(** [signal.get('action')]. *)
Definition signal_get_action (signal : SignalArg) : M t string :=
  match signal with
  | SigDict s => ret (action s)
  | SigBool _ => raise AttributeError
  end.

(** [sum(self.trade_history) / len(self.trade_history)]. *)
Definition win_rate_of (h : list Z) : M t Q :=
  truediv (inject_Z (fold_right Z.add 0%Z h)) (inject_Z (Z.of_nat (List.length h))).

(** [approve_trade(signal, current_budget)]; [ai] is the analyzer object
    the manager holds a reference to, as it is at the time of the call. *)
Definition approve_trade (ai : AI_Analyzer.t) (signal : SignalArg)
    (current_budget : Q) : M t bool :=
  let current_sentiment := AI_Analyzer.get_current_sentiment ai in
  _ <- getattr_log ;;
  act <- signal_get_action signal ;;
  if (act =? "enter_long")%string && (current_sentiment =? "Bearish")%string
  then ret false
  else
    self <- get ;;
    drawdown_pct <- truediv (current_budget - starting_budget self)
                            (starting_budget self) ;;
    if Qltb drawdown_pct (- Config.daily_drawdown_pct (cfg self))
    then modify (set_trading_paused_drawdown true) ;;; ret false
    else if trading_paused_throttle self then ret false
    else if (List.length (trade_history self) =? Config.throttle_window (cfg self))%nat
    then
      win_rate <- win_rate_of (trade_history self) ;;
      if Qltb win_rate (Config.throttle_threshold_pct (cfg self))
      then modify (set_trading_paused_throttle true) ;;; ret false
      else ret true
    else ret true.

(** [update_trade_history(pnl)]. *)
Definition update_trade_history (pnl : Q) : M t unit :=
  modify (fun self =>
    set_trade_history
      (deque_append (Config.throttle_window (cfg self)) (trade_history self)
                    (if Qgtb pnl 0 then 1%Z else 0%Z)) self) ;;;
  self <- get ;;
  if trading_paused_throttle self then
    win_rate <- win_rate_of (trade_history self) ;;
    if Qgeb win_rate (Config.throttle_threshold_pct (cfg self))
    then modify (set_trading_paused_throttle false)
    else ret tt
  else ret tt.

(** The operations a session performs on the manager. *)
Inductive op : Type :=
| OpApprove (ai : AI_Analyzer.t) (signal : SignalArg) (current_budget : Q)
| OpUpdate (pnl : Q).

Definition run_op (o : op) (self : t) : t :=
  match o with
  | OpApprove ai s b => fst (approve_trade ai s b self)
  | OpUpdate pnl => fst (update_trade_history pnl self)
  end.

Definition run_ops (os : list op) (self : t) : t :=
  fold_left (fun s o => run_op o s) os self.

End RiskManager.

(** ** The scalping strategy (strategies/scalping_strategy.py) *)

Module ScalpingStrategy.

(** A row of the [candles] frame; [current_candle] is a dict of the same
    five keys. *)
Record Candle : Type := mkCandle {
  open : Q;
  high : Q;
  low : Q;
  close : Q;
  volume : Q
}.

(** [pos] is not bound by [__init__]: the execution engine binds it on the
    first entry.  [None] is the absent attribute, [Some None] is
    [pos = None]. *)
Record t : Type := mk {
  cfg : Config.t;
  candles : list (Z * Candle);
  current_candle : option Candle;
  last_candle_timestamp : option Z;
  latest_bid : option Q;
  latest_ask : option Q;
  pos : option (option Position)
}.

Definition __init__ (c : Config.t) : t := {|
  cfg := c;
  candles := [];
  current_candle := None;
  last_candle_timestamp := None;
  latest_bid := None;
  latest_ask := None;
  pos := None
|}.

Definition set_candles (cs : list (Z * Candle)) (self : t) : t :=
  mk (cfg self) cs (current_candle self) (last_candle_timestamp self)
     (latest_bid self) (latest_ask self) (pos self).
Definition set_current_candle (c : option Candle) (self : t) : t :=
  mk (cfg self) (candles self) c (last_candle_timestamp self)
     (latest_bid self) (latest_ask self) (pos self).
Definition set_last_candle_timestamp (ts : option Z) (self : t) : t :=
  mk (cfg self) (candles self) (current_candle self) ts
     (latest_bid self) (latest_ask self) (pos self).
Definition set_latest_bid (b : option Q) (self : t) : t :=
  mk (cfg self) (candles self) (current_candle self) (last_candle_timestamp self)
     b (latest_ask self) (pos self).
Definition set_latest_ask (a : option Q) (self : t) : t :=
  mk (cfg self) (candles self) (current_candle self) (last_candle_timestamp self)
     (latest_bid self) a (pos self).
Definition set_pos (p : option (option Position)) (self : t) : t :=
  mk (cfg self) (candles self) (current_candle self) (last_candle_timestamp self)
     (latest_bid self) (latest_ask self) p.

(** [timestamp.floor('1min')] on milliseconds. *)
Definition floor_1min (ms : Z) : Z := (60000 * (ms / 60000))%Z.

(** [frame.loc[ts] = row]: the row with that label is replaced, a new
    label is appended. *)
Fixpoint loc_assign (ts : Z) (row : Candle) (cs : list (Z * Candle)) : list (Z * Candle) :=
  match cs with
  | [] => [(ts, row)]
  | (ts', r) :: cs' =>
      if (ts' =? ts)%Z then (ts, row) :: cs' else (ts', r) :: loc_assign ts row cs'
  end.

(** [on_tick_update(tick_data)].  Past the guard the model follows a
    price that is a number and a pandas timestamp.  The source does not
    look at the type of the price and would store a value of another type
    in the candle as it is; a candle of numbers cannot hold it, the model
    ends such a call with [TypeError], and the properties of the candle
    builder are stated for prices that are numbers.  The two attributes [last_candle_timestamp] and
    [current_candle] are bound together, so the branch with the first bound
    and the second [None] is not reached; it is reported as [ValueError]. *)
Definition on_tick_update (tick_data : dict) : M t bool :=
  let price := dict_get "price" tick_data in
  let timestamp := dict_get "timestamp" tick_data in
  match price, timestamp with
  | PNone, _ => ret false
  | _, PNone => ret false
  | _, _ =>
    ts <- match timestamp with PTime ms => ret ms | _ => raise AttributeError end ;;
    px <- match price with PNum q => ret q | _ => raise TypeError end ;;
    let current_candle_ts := floor_1min ts in
    self <- get ;;
    candle_finalized <-
      match last_candle_timestamp self with
      | Some last =>
          if (last <? current_candle_ts)%Z then
            match current_candle self with
            | Some c =>
                modify (fun s => set_candles (loc_assign last c (candles s)) s) ;;;
                modify (fun s => if (100 <? List.length (candles s))%nat
                                 then set_candles (tl (candles s)) s else s) ;;;
                modify (set_current_candle None) ;;;
                ret true
            | None => raise ValueError
            end
          else ret false
      | None => ret false
      end ;;
    self <- get ;;
    match current_candle self with
    | None =>
        modify (set_current_candle (Some (mkCandle px px px px 0))) ;;;
        modify (set_last_candle_timestamp (Some current_candle_ts))
    | Some _ => ret tt
    end ;;;
    modify (fun s =>
      match current_candle s with
      | Some c =>
          set_current_candle
            (Some (mkCandle (open c) (py_max (high c) px) (py_min (low c) px) px (volume c))) s
      | None => s
      end) ;;;
    ret candle_finalized
  end.

Section External.

(** [float(s)] on a string is the parser of the runtime. *)
Variable float_of_str : string -> option Q.

(** The indicator columns of pandas_ta, one cell per row of the frame; a
    cell without a value (NaN) is [None]. *)
Variable ta_ema : nat -> list Q -> list (option Q).
Variable ta_rsi : nat -> list Q -> list (option Q).

Definition py_float (v : pyval) : M t Q :=
  match v with
  | PNum q => ret q
  | PBool b => ret (if b then 1 else 0)%Q
  | PStr s => match float_of_str s with Some q => ret q | None => raise ValueError end
  | _ => raise TypeError
  end.

(** [k in v]. *)
Definition contains (k : string) (v : pyval) : M t bool :=
  match v with
  | PDict d => ret (dict_mem k d)
  | PList l => ret (existsb (fun x => match x with PStr s => String.eqb s k | _ => false end) l)
  | PStr s => ret (match String.index 0 k s with Some _ => true | None => false end)
  | _ => raise TypeError
  end.

(** [v[k]] for a string key. *)
Definition getitem (k : string) (v : pyval) : M t pyval :=
  match v with
  | PDict d => match lookup k d with Some x => ret x | None => raise KeyError end
  | _ => raise TypeError
  end.

(** [float(order_book[k][0][0])] stored by [setter] when the key is
    present and its value is not empty. *)
Definition top_of_book (k : string) (setter : option Q -> t -> t) (order_book : pyval) : M t unit :=
  present <- contains k order_book ;;
  if present then
    levels <- getitem k order_book ;;
    if truthy levels then
      level <- index0 levels ;;
      px <- index0 level ;;
      q <- py_float px ;;
      modify (setter (Some q))
    else ret tt
  else ret tt.

Definition on_order_book_update (order_book : pyval) : M t unit :=
  top_of_book "bids" set_latest_bid order_book ;;;
  top_of_book "asks" set_latest_ask order_book.

(** A float comparison is false as soon as one side is NaN. *)
Definition flt (a b : option Q) : bool :=
  match a, b with Some x, Some y => Qltb x y | _, _ => false end.
Definition fgt (a b : option Q) : bool := flt b a.

(** A cell of an indicator column. *)
Definition cell (col : list (option Q)) (i : nat) : option Q :=
  match nth_error col i with Some v => v | None => None end.

(** [generate_signal()]: the indicator columns are recomputed from the
    close column at every call; nothing else of the state changes. *)
Definition generate_signal (self : t) : option Signal :=
  let n := List.length (candles self) in
  if (n <? 22)%nat then None
  else
    let closes := map (fun r => close (snd r)) (candles self) in
    let EMA_9 := ta_ema 9 closes in
    let EMA_21 := ta_ema 21 closes in
    let RSI_14 := ta_rsi 14 closes in
    let last_row := (n - 1)%nat in
    let prev_row := (n - 2)%nat in
    let ema_buy_signal :=
      flt (cell EMA_9 prev_row) (cell EMA_21 prev_row)
      && fgt (cell EMA_9 last_row) (cell EMA_21 last_row) in
    let rsi_buy_signal :=
      flt (cell RSI_14 last_row) (Some (Config.rsi_oversold (cfg self))) in
    let ema_sell_signal :=
      fgt (cell EMA_9 prev_row) (cell EMA_21 prev_row)
      && flt (cell EMA_9 last_row) (cell EMA_21 last_row) in
    let rsi_sell_signal :=
      fgt (cell RSI_14 last_row) (Some (Config.rsi_overbought (cfg self))) in
    let last_close := nth_error closes last_row in
    if ema_buy_signal || rsi_buy_signal
    then Some (mkSignal "enter_long" last_close None)
    else if ema_sell_signal || rsi_sell_signal
    then Some (mkSignal "exit" last_close None)
    else None.

End External.

End ScalpingStrategy.

(** ** The momentum strategy (strategies/momentum_strategy.py) *)

Module MomentumStrategy.

Record t : Type := mk {
  cfg : Config.t;
  last_signal_ts : Q;
  prices : list Q;
  _ema : option Q;
  pos : option Position;
  _tick : Z
}.

Definition __init__ (c : Config.t) : t := {|
  cfg := c;
  last_signal_ts := 0;
  prices := [];
  _ema := None;
  pos := None;
  _tick := 0
|}.

Definition set_last_signal_ts (x : Q) (self : t) : t :=
  mk (cfg self) x (prices self) (_ema self) (pos self) (_tick self).
Definition set_prices (ps : list Q) (self : t) : t :=
  mk (cfg self) (last_signal_ts self) ps (_ema self) (pos self) (_tick self).
Definition set__ema (e : option Q) (self : t) : t :=
  mk (cfg self) (last_signal_ts self) (prices self) e (pos self) (_tick self).
Definition set_pos (p : option Position) (self : t) : t :=
  mk (cfg self) (last_signal_ts self) (prices self) (_ema self) p (_tick self).

(** [ema(prev, x, alpha)]. *)
Definition ema (prev : option Q) (x alpha : Q) : Q :=
  match prev with
  | Some p => alpha * x + (1 - alpha) * p
  | None => x
  end.

(** The capacity of the price deque. *)
Definition prices_maxlen (c : Config.t) : nat :=
  (Nat.max (Config.ema_len c) (Config.zscore_len c) * 3)%nat.

Section External.

(** [arr.mean()] and [arr.std(ddof=1)] of numpy. *)
Variable np_mean : list Q -> Q.
Variable np_std : list Q -> Q.

(** [arr[-window:]]; [arr[-0:]] is the whole array. *)
Definition last_window (window : nat) (series : list Q) : list Q :=
  if (window =? 0)%nat then series
  else skipn (List.length series - window) series.

(** [zscore(series, window)]. *)
Definition zscore (series : list Q) (window : nat) : M t Q :=
  if (List.length series <? window)%nat then ret 0
  else
    let arr := last_window window series in
    let mu := np_mean arr in
    let sd := np_std arr in
    let sd := if Qltb sd (1 # 1000000000000) then 1 else sd in
    match List.last (map Some arr) None with
    | Some x => ret ((x - mu) / sd)
    | None => raise IndexError
    end.

(** [_cooldown()]; [now] is the reading of [time.time()]. *)
Definition _cooldown (now : Q) (self : t) : bool :=
  Qltb (now - last_signal_ts self) (Config.cooldown_sec (cfg self)).

(** [on_price(px)].  The clock is read at most twice in a call; both
    readings are [now]. *)
Definition on_price (now : Q) (px : option Q) : M t (option Signal) :=
  match px with
  | None => ret None
  | Some px =>
    if Qleb px 0 then ret None
    else
      self <- get ;;
      let alpha := 2 / inject_Z (Z.of_nat (Config.ema_len (cfg self) + 1)) in
      modify (set__ema (Some (ema (_ema self) px alpha))) ;;;
      modify (fun s => set_prices (deque_append (prices_maxlen (cfg s)) (prices s) px) s) ;;;
      self <- get ;;
      entry_signal <-
        match pos self with
        | None =>
            if (Config.zscore_len (cfg self) <=? List.length (prices self))%nat then
              let e := match _ema self with
                       | Some e => if Qeq_bool e 0 then px else e
                       | None => px
                       end in
              let momentum := px - e in
              zs <- zscore (prices self) (Config.zscore_len (cfg self)) ;;
              if Qgtb momentum 0 && Qgtb zs (Config.zscore_entry (cfg self))
                 && negb (_cooldown now self)
              then modify (set_last_signal_ts now) ;;; ret true
              else ret false
            else ret false
        | Some _ => ret false
        end ;;
      if (entry_signal : bool) then ret (Some (mkSignal "enter_long" (Some px) None))
      else
        match pos self with
        | Some p =>
            let tp := entry p * (1 + Config.take_profit_pct (cfg self)) in
            let sl := entry p * (1 + Config.stop_loss_pct (cfg self)) in
            if Qgeb px tp then ret (Some (mkSignal "exit" (Some px) (Some "tp"%string)))
            else if Qleb px sl then ret (Some (mkSignal "exit" (Some px) (Some "sl"%string)))
            else ret None
        | None => ret None
        end
  end.

End External.

End MomentumStrategy.

(** ** The strategy object the engine and the router hold *)

Module Strategy.

Inductive t : Type :=
| Scalping (s : ScalpingStrategy.t)
| Momentum (m : MomentumStrategy.t).

(** [getattr(strat, 'pos', None)]. *)
Definition getattr_pos (st : t) : option Position :=
  match st with
  | Scalping s => match ScalpingStrategy.pos s with Some p => p | None => None end
  | Momentum m => MomentumStrategy.pos m
  end.

(** [getattr(strat, 'latest_ask', default)]: the default is taken only
    when the object has no such attribute. *)
Definition getattr_latest_ask (default : option Q) (st : t) : option Q :=
  match st with
  | Scalping s => ScalpingStrategy.latest_ask s
  | Momentum _ => default
  end.

(** [getattr(strat, 'latest_bid', default)]. *)
Definition getattr_latest_bid (default : option Q) (st : t) : option Q :=
  match st with
  | Scalping s => ScalpingStrategy.latest_bid s
  | Momentum _ => default
  end.

(** [strat.pos = p]. *)
Definition setattr_pos (p : option Position) (st : t) : t :=
  match st with
  | Scalping s => Scalping (ScalpingStrategy.set_pos (Some p) s)
  | Momentum m => Momentum (MomentumStrategy.set_pos p m)
  end.

End Strategy.

(** ** The execution engine (trading/execution_engine.py) *)

Module ExecutionEngine.

(** The engine holds references to the strategy and to the risk manager;
    both objects are reached only through the engine here, so that every
    holder sees the same state.  [trades] collects the calls of the
    injected [log_trade] function. *)
Record t : Type := mk {
  cfg : Config.t;
  strat : Strategy.t;
  risk_manager : RiskManager.t;
  budget : Q;
  trades : list TradeRecord
}.

Definition __init__ (c : Config.t) (st : Strategy.t) (rm : RiskManager.t) : t := {|
  cfg := c;
  strat := st;
  risk_manager := rm;
  budget := Config.total_budget_usdt c;
  trades := []
|}.

Definition set_strat (st : Strategy.t) (self : t) : t :=
  mk (cfg self) st (risk_manager self) (budget self) (trades self).
Definition set_risk_manager (rm : RiskManager.t) (self : t) : t :=
  mk (cfg self) (strat self) rm (budget self) (trades self).
Definition set_budget (b : Q) (self : t) : t :=
  mk (cfg self) (strat self) (risk_manager self) b (trades self).

(** [self.log_trade(...)]. *)
Definition log_trade (r : TradeRecord) (self : t) : t :=
  mk (cfg self) (strat self) (risk_manager self) (budget self) (trades self ++ [r])%list.

(** [_order_size(price)]. *)
Definition _order_size (price : option Q) (self : t) : Q :=
  match price with
  | None => 0
  | Some p =>
      if Qleb p 0 then 0
      else
        let notional_to_risk := budget self * Config.risk_per_trade_pct (cfg self) in
        py_max (notional_to_risk / p) 0
  end.

(** [decision.get('reason', '')]. *)
Definition reason_or_empty (d : Signal) : string :=
  match reason d with Some r => r | None => EmptyString end.

Definition exit_branch (d : Signal) : M t unit :=
  self <- get ;;
  match Strategy.getattr_pos (strat self) with
  | None => ret tt
  | Some pos =>
    match Strategy.getattr_latest_ask (price d) (strat self) with
    | None => ret tt
    | Some exit_price =>
      let entry := entry pos in
      let qty := qty pos in
      if Qleb entry 0 || Qleb qty 0
      then modify (fun s => set_strat (Strategy.setattr_pos None (strat s)) s)
      else
        let pnl := (exit_price - entry) * qty in
        modify (fun s => set_budget (budget s + pnl) s) ;;;
        zoom risk_manager set_risk_manager (RiskManager.update_trade_history pnl) ;;;
        modify (fun s =>
          log_trade (mkTrade (Config.symbol_ccxt (cfg s)) "EXIT" (side pos)
                             exit_price qty (reason_or_empty d) (Some pnl)) s) ;;;
        modify (fun s => set_strat (Strategy.setattr_pos None (strat s)) s)
    end
  end.

Definition enter_long_branch (d : Signal) : M t unit :=
  self <- get ;;
  match Strategy.getattr_pos (strat self) with
  | Some _ => ret tt
  | None =>
    match Strategy.getattr_latest_bid (price d) (strat self) with
    | None => ret tt
    | Some price =>
      let qty := _order_size (Some price) self in
      let notional_value := qty * price in
      let mode := lower (Config.execution_mode (cfg self)) in
      let '(entry_price, reason) :=
        if (mode =? "auto")%string
             && Qgtb notional_value (Config.large_order_threshold_usdt (cfg self))
           || (mode =? "twap")%string
        then (price, "twap_entry"%string)
        else (price, "smart_limit_entry"%string) in
      if Qleb qty 0 then ret tt
      else
        modify (log_trade (mkTrade (Config.symbol_ccxt (cfg self)) "ENTER" "LONG"
                                   entry_price qty reason None)) ;;;
        modify (fun s =>
          set_strat (Strategy.setattr_pos
                       (Some (mkPosition "LONG" qty entry_price)) (strat s)) s)
    end
  end.

(** [act(decision)]. *)
Definition act (decision : SignalArg) : M t unit :=
  match decision with
  | SigBool false => ret tt
  | SigBool true => raise TypeError
  | SigDict d =>
      if (action d =? "exit")%string then exit_branch d
      else if (action d =? "enter_long")%string then enter_long_branch d
      else ret tt
  end.

End ExecutionEngine.

(** ** The stream (data/websocket_manager.py) *)

Module WebSocketManager.

(** The calls the router and the receive loop make on their
    collaborators, in program order.  The strategy entry points are
    [on_tick_update], [on_order_book_update] and [generate_signal]. *)
Inductive event : Type :=
| EvRefreshSentiment
| EvSend (frame : pyval)
| EvOnTickUpdate (tick_data : dict)
| EvOnOrderBookUpdate (order_book : pyval)
| EvGenerateSignal
| EvApproveTrade (signal : SignalArg) (current_budget : Q)
| EvAct (signal : SignalArg).

(** [self.strategy] and [self.risk_manager] are the objects the engine
    holds ([main] passes the same references), so they are read through
    [engine]. *)
Record t : Type := mk {
  engine : ExecutionEngine.t;
  ai_analyzer : AI_Analyzer.t;
  trace : list event
}.

Definition set_engine (e : ExecutionEngine.t) (self : t) : t :=
  mk e (ai_analyzer self) (trace self).
Definition set_ai_analyzer (a : AI_Analyzer.t) (self : t) : t :=
  mk (engine self) a (trace self).
Definition emit_on (e : event) (self : t) : t :=
  mk (engine self) (ai_analyzer self) (trace self ++ [e])%list.
Definition emit (e : event) : M t unit := modify (emit_on e).

Definition strategy (self : t) : Strategy.t := ExecutionEngine.strat (engine self).
Definition risk_manager (self : t) : RiskManager.t := ExecutionEngine.risk_manager (engine self).
Definition set_strategy (st : Strategy.t) (self : t) : t :=
  set_engine (ExecutionEngine.set_strat st (engine self)) self.
Definition set_risk_manager (rm : RiskManager.t) (self : t) : t :=
  set_engine (ExecutionEngine.set_risk_manager rm (engine self)) self.

(** A frame as [json.loads] sees it. *)
Inductive message : Type :=
| Malformed (raw : string)
| Json (data : pyval).

Definition json_loads (m : message) : M t pyval :=
  match m with
  | Malformed _ => raise JSONDecodeError
  | Json data => ret data
  end.

Fixpoint for_each {A} (l : list A) (body : A -> M t unit) : M t unit :=
  match l with
  | [] => ret tt
  | x :: l' => body x ;;; for_each l' body
  end.

Section External.

Variable float_of_str : string -> option Q.

(** [AI_Analyzer.refresh_sentiment]: clock, news and the language model
    are outside the program. *)
Variable refresh_sentiment : AI_Analyzer.t -> AI_Analyzer.t.

Definition call_refresh_sentiment : M t unit :=
  emit EvRefreshSentiment ;;;
  modify (fun s => set_ai_analyzer (refresh_sentiment (ai_analyzer s)) s).

(** [self.strategy.on_tick_update(tick_data)]: the momentum class has no
    such method.  The call is recorded, then run on the strategy object and
    its result written back. *)
Definition strategy_on_tick_update (tick_data : dict) : M t bool :=
  self <- get ;;
  match strategy self with
  | Strategy.Momentum _ => raise AttributeError
  | Strategy.Scalping sc =>
      emit (EvOnTickUpdate tick_data) ;;;
      zoom (fun _ => sc)
           (fun sc' s => set_strategy (Strategy.Scalping sc') s)
           (ScalpingStrategy.on_tick_update tick_data)
  end.

(** [self.strategy.on_order_book_update(order_book)]. *)
Definition strategy_on_order_book_update (order_book : pyval) : M t unit :=
  self <- get ;;
  match strategy self with
  | Strategy.Momentum _ => raise AttributeError
  | Strategy.Scalping sc =>
      emit (EvOnOrderBookUpdate order_book) ;;;
      zoom (fun _ => sc)
           (fun sc' s => set_strategy (Strategy.Scalping sc') s)
           (ScalpingStrategy.on_order_book_update float_of_str order_book)
  end.

(** The dict built for one element of a ticker payload. *)
Definition make_tick_data (tick : pyval) : M t dict :=
  i <- get_method tick "i" ;;
  a <- get_method tick "a" ;;
  v <- get_method tick "v" ;;
  ret [("symbol"%string, i); ("price"%string, a); ("volume"%string, v)].

(** The body of the loop over a ticker payload. *)
Definition route_tick (tick : pyval) : M t unit :=
  tick_data <- make_tick_data tick ;;
  signal <- strategy_on_tick_update tick_data ;;
  if (signal : bool) then
    self <- get ;;
    let current_budget := ExecutionEngine.budget (engine self) in
    emit (EvApproveTrade (SigBool signal) current_budget) ;;;
    approved <- zoom risk_manager set_risk_manager
                  (RiskManager.approve_trade (ai_analyzer self) (SigBool signal) current_budget) ;;
    if (approved : bool) then
      emit (EvAct (SigBool signal)) ;;;
      zoom engine set_engine (ExecutionEngine.act (SigBool signal))
    else ret tt
  else ret tt.

(** [channel.startswith(p)]. *)
Definition channel_startswith (p : string) (channel : pyval) : M t bool :=
  match channel with
  | PStr s => ret (startswith p s)
  | _ => raise AttributeError
  end.

(** [_route_data(data)]. *)
Definition _route_data (data : pyval) : M t unit :=
  match data with
  | PDict d =>
    match dict_get_default "result" (PDict []) d with
    | PDict result =>
        let channel := dict_get_default "channel" (PStr EmptyString) result in
        if negb (truthy (PDict result)) || negb (dict_mem "data" result) then ret tt
        else
          is_ticker <- channel_startswith "ticker." channel ;;
          if (is_ticker : bool) then
            ticks <- iter (dict_get "data" result) ;;
            for_each ticks route_tick
          else
            is_book <- channel_startswith "book." channel ;;
            if (is_book : bool) then
              order_book_data <- index0 (dict_get "data" result) ;;
              strategy_on_order_book_update order_book_data
            else ret tt
    | _ => raise AttributeError
    end
  | _ => raise AttributeError
  end.

(** The answer to a heartbeat request. *)
Definition respond_heartbeat (d : dict) : pyval :=
  PDict [("id"%string, dict_get "id" d);
         ("method"%string, PStr "public/respond-heartbeat")].

(** [data.get("method") == "public/heartbeat"]. *)
Definition is_heartbeat (d : dict) : bool :=
  match dict_get "method" d with
  | PStr s => (s =? "public/heartbeat")%string
  | _ => false
  end.

(** One turn of the receive loop. *)
Definition listen_step (m : message) : M t unit :=
  data <- json_loads m ;;
  match data with
  | PDict d =>
      if is_heartbeat d then emit (EvSend (respond_heartbeat d))
      else call_refresh_sentiment ;;; _route_data data
  | _ => raise AttributeError
  end.

(** [listen()] over the frames the connection delivers. *)
Definition listen (frames : list message) : M t unit :=
  call_refresh_sentiment ;;;
  for_each frames listen_step.

End External.

End WebSocketManager.

(** ** Vocabulary of the properties and sample objects *)

(** The sentiment veto of [approve_trade]. *)
Definition sentiment_veto (ai : AI_Analyzer.t) (s : Signal) : bool :=
  (action s =? "enter_long")%string
  && (AI_Analyzer.get_current_sentiment ai =? "Bearish")%string.

(** The mean of an outcome window. *)
Definition mean_outcome (h : list Z) : Q :=
  inject_Z (fold_right Z.add 0%Z h) / inject_Z (Z.of_nat (List.length h)).

(** A manager as [__init__] leaves it. *)
Definition sample_manager : RiskManager.t := RiskManager.__init__ Config.default.

Definition neutral : AI_Analyzer.t := AI_Analyzer.mk "Neutral".
Definition bearish : AI_Analyzer.t := AI_Analyzer.mk "Bearish".

Definition enter_long_at (p : Q) : Signal := mkSignal "enter_long" (Some p) None.
Definition exit_at (p : Q) : Signal := mkSignal "exit" (Some p) None.

(** A configuration with a window of two outcomes and a threshold of one
    half. *)
Definition small_window_cfg : Config.t :=
  Config.mk "auto" 500 2 (1 # 2) (2 # 100) 1000 (1 # 100) (4 # 1000) (1 # 100)
            12 20 (4 # 10) 45 55 "BTC/USDT" 10.

(** The manager of that configuration after two losing trades. *)
Definition manager_after_two_losses : RiskManager.t :=
  RiskManager.run_ops [RiskManager.OpUpdate (-1); RiskManager.OpUpdate (-1)]
    (RiskManager.__init__ small_window_cfg).

(** A scalping strategy that has seen bids but no ask, holding a long
    position of 1/10 entered at 100. *)
Definition scalper_without_ask : ScalpingStrategy.t :=
  ScalpingStrategy.set_pos (Some (Some (mkPosition "LONG" (1 # 10) 100)))
    (ScalpingStrategy.set_latest_bid (Some 100)
       (ScalpingStrategy.__init__ Config.default)).

(** The same strategy once an ask of 110 has been observed. *)
Definition scalper_with_ask : ScalpingStrategy.t :=
  ScalpingStrategy.set_latest_ask (Some 110) scalper_without_ask.

Definition engine_of (c : Config.t) (st : Strategy.t) : ExecutionEngine.t :=
  ExecutionEngine.__init__ c st (RiskManager.__init__ c).

(** A configuration whose execution mode is neither "auto" nor "twap",
    with a budget large enough for an order above the threshold. *)
Definition limit_mode_cfg : Config.t :=
  Config.mk "limit" 500 20 (40 # 100) (2 # 100) 100000 (1 # 100) (4 # 1000) (1 # 100)
            12 20 (4 # 10) 45 55 "BTC/USDT" 10.

(** An engine whose budget has gone negative. *)
Definition engine_in_debt : ExecutionEngine.t :=
  ExecutionEngine.set_budget (-1000)
    (engine_of Config.default
       (Strategy.Momentum (MomentumStrategy.__init__ Config.default))).

(** The route label of an entry. *)
Definition route_reason (c : Config.t) (notional_value : Q) : string :=
  let mode := lower (Config.execution_mode c) in
  if (mode =? "twap")%string
     || ((mode =? "auto")%string
         && Qgtb notional_value (Config.large_order_threshold_usdt c))
  then "twap_entry"%string else "smart_limit_entry"%string.

(** The exit price [act] works with: the [latest_ask] attribute of a
    strategy that has one, the price of the signal otherwise. *)
Definition exit_price_of (st : Strategy.t) (d : Signal) : option Q :=
  match st with
  | Strategy.Scalping sc => ScalpingStrategy.latest_ask sc
  | Strategy.Momentum _ => price d
  end.

(** A momentum strategy holding a long position entered at 100. *)
Definition momentum_long : MomentumStrategy.t :=
  MomentumStrategy.set_pos (Some (mkPosition "LONG" (1 # 10) 100))
    (MomentumStrategy.__init__ Config.default).

(** Stand-ins for numpy in the examples; none of them reaches the z-score. *)
Definition mean_of (l : list Q) : Q :=
  fold_right Qplus 0 l / inject_Z (Z.of_nat (List.length l)).
Definition unit_std (l : list Q) : Q := 1.

(** The signals of the exit check. *)
Definition exit_tp (px : Q) : Signal := mkSignal "exit" (Some px) (Some "tp"%string).
Definition exit_sl (px : Q) : Signal := mkSignal "exit" (Some px) (Some "sl"%string).

(** An indicator cell holds a value below another one (false for NaN). *)
Definition cell_lt (a b : list (option Q)) (i : nat) : Prop :=
  exists x y, ScalpingStrategy.cell a i = Some x
              /\ ScalpingStrategy.cell b i = Some y /\ x < y.

(** An indicator cell holds a value below a bound. *)
Definition cell_below (a : list (option Q)) (i : nat) (bound : Q) : Prop :=
  exists x, ScalpingStrategy.cell a i = Some x /\ x < bound.

(** The close column of the candle frame. *)
Definition closes_of (self : ScalpingStrategy.t) : list Q :=
  map (fun r => ScalpingStrategy.close (snd r)) (ScalpingStrategy.candles self).

(** Sample indicator columns for the examples: a running average built
    from the repository's [ema] helper with alpha = 2/(n+1), seeded by the
    first close and without a value on the first n-1 rows, and a relative
    strength index over the last n changes. *)
Fixpoint ema_run (alpha : Q) (prev : option Q) (xs : list Q) : list Q :=
  match xs with
  | [] => []
  | x :: xs' =>
      let e := Qred (MomentumStrategy.ema prev x alpha) in
      e :: ema_run alpha (Some e) xs'
  end.

Fixpoint mask_first (k : nat) (col : list Q) : list (option Q) :=
  match col with
  | [] => []
  | x :: col' =>
      match k with
      | O => Some x :: mask_first O col'
      | S k' => None :: mask_first k' col'
      end
  end.

Definition sample_ema (n : nat) (closes : list Q) : list (option Q) :=
  mask_first (n - 1) (ema_run (2 / inject_Z (Z.of_nat (n + 1))) None closes).

Fixpoint changes (xs : list Q) : list Q :=
  match xs with
  | x :: (y :: _) as t => (y - x) :: changes t
  | _ => []
  end.

Definition sample_rsi_at (n : nat) (closes : list Q) (i : nat) : option Q :=
  if (i <? n)%nat then None
  else
    let window := firstn n (skipn (i - n) (changes closes)) in
    let gain := fold_right (fun d acc => py_max d 0 + acc) 0 window in
    let loss := fold_right (fun d acc => py_max (- d) 0 + acc) 0 window in
    if Qeq_bool (gain + loss) 0 then Some 50
    else Some (Qred (100 * gain / (gain + loss))).

Definition sample_rsi (n : nat) (closes : list Q) : list (option Q) :=
  map (sample_rsi_at n closes) (seq 0 (List.length closes)).

(** A flat candle at minute [i]. *)
Definition flat_candle (i : nat) (px : Q) : Z * ScalpingStrategy.Candle :=
  ((60000 * Z.of_nat i)%Z, ScalpingStrategy.mkCandle px px px px 0).

(** Twenty candles at 100, one at 90 and one at 200: the fast average
    dips below the slow one and then crosses above it. *)
Definition crossing_candles : list (Z * ScalpingStrategy.Candle) :=
  (map (fun i => flat_candle i 100) (seq 0 20)
   ++ [flat_candle 20 90; flat_candle 21 200])%list.

Definition scalper_after_cross : ScalpingStrategy.t :=
  ScalpingStrategy.set_candles crossing_candles
    (ScalpingStrategy.__init__ Config.default).

(** The same strategy one candle earlier. *)
Definition scalper_before_cross : ScalpingStrategy.t :=
  ScalpingStrategy.set_candles (removelast crossing_candles)
    (ScalpingStrategy.__init__ Config.default).

(** The frames sent on the connection, in order. *)
Fixpoint sends (tr : list WebSocketManager.event) : list pyval :=
  match tr with
  | [] => []
  | WebSocketManager.EvSend f :: tr' => f :: sends tr'
  | _ :: tr' => sends tr'
  end.

(** The calls that can lead to a trade. *)
Definition is_trade_call (e : WebSocketManager.event) : bool :=
  match e with
  | WebSocketManager.EvApproveTrade _ _ => true
  | WebSocketManager.EvAct _ => true
  | WebSocketManager.EvGenerateSignal => true
  | _ => false
  end.

(** The keys of the dict the router builds for a tick. *)
Definition tick_keys : list string := ["symbol"; "price"; "volume"]%string.

(** A state with further events in its trace and nothing else changed. *)
Definition with_events (evs : list WebSocketManager.event)
    (s : WebSocketManager.t) : WebSocketManager.t :=
  WebSocketManager.mk (WebSocketManager.engine s) (WebSocketManager.ai_analyzer s)
                      (WebSocketManager.trace s ++ evs)%list.

(** A frame that decodes to a heartbeat request. *)
Definition is_heartbeat_message (m : WebSocketManager.message) : bool :=
  match m with
  | WebSocketManager.Json (PDict d) => WebSocketManager.is_heartbeat d
  | _ => false
  end.

(** A computation that sends nothing on the connection. *)
Definition keeps_sends {A} (c : M WebSocketManager.t A) : Prop :=
  forall s, sends (WebSocketManager.trace (fst (c s))) = sends (WebSocketManager.trace s).

(** The manager of a fresh bot around a strategy. *)
Definition manager_of (st : Strategy.t) : WebSocketManager.t :=
  WebSocketManager.mk (engine_of Config.default st) neutral [].

(** A ticker payload with one tick, and a heartbeat request. *)
Definition ticker_frame : dict :=
  [("id"%string, PNum (-1));
   ("method"%string, PStr "subscribe");
   ("result"%string,
    PDict [("channel"%string, PStr "ticker.BTC_USDT");
           ("data"%string,
            PList [PDict [("i"%string, PStr "BTC_USDT");
                          ("a"%string, PStr "50000.5");
                          ("v"%string, PStr "12.5")]])])].

Definition heartbeat_frame : dict :=
  [("id"%string, PNum 1587523073344); ("method"%string, PStr "public/heartbeat")].

(** No string is parsed in the examples. *)
Definition no_float (s : string) : option Q := None.
Definition same_sentiment (a : AI_Analyzer.t) : AI_Analyzer.t := a.

(** What the router can pass to [on_tick_update]: a dict with the three
    keys, on which the scalping strategy returns False and keeps its
    state. *)
Definition routed_tick (td : dict) : Prop :=
  keys td = tick_keys
  /\ forall sc, ScalpingStrategy.on_tick_update td sc = (sc, Ok false).

(** An order book with the best bid at 100 and the best ask at 110. *)
Definition book_100_110 : pyval :=
  PDict [("bids"%string, PList [PList [PNum 100; PNum 1]]);
         ("asks"%string, PList [PList [PNum 110; PNum 1]])].

(** A fresh scalping bot after that order book: an entry, then an exit. *)
Definition round_trip : ExecutionEngine.t :=
  let sc := fst (ScalpingStrategy.on_order_book_update no_float book_100_110
                   (ScalpingStrategy.__init__ Config.default)) in
  let e0 := engine_of Config.default (Strategy.Scalping sc) in
  let e1 := fst (ExecutionEngine.act (SigDict (enter_long_at 100)) e0) in
  fst (ExecutionEngine.act (SigDict (exit_at 110)) e1).

(** * Sessions and further components *)

From Stdlib Require Import Sorted.

(** ** Sessions: sequences of calls on one component *)

(** The last [n] items of a list. *)
Definition lastn {A} (n : nat) (l : list A) : list A :=
  skipn (List.length l - n) l.

(** The outcome [update_trade_history] appends for a trade. *)
Definition outcome_of (pnl : Q) : Z := if Qgtb pnl 0 then 1%Z else 0%Z.

(** The outcomes of the trades reported in a session, in order. *)
Definition outcomes_of_ops (os : list RiskManager.op) : list Z :=
  flat_map (fun o => match o with
                     | RiskManager.OpUpdate pnl => [outcome_of pnl]
                     | RiskManager.OpApprove _ _ _ => []
                     end) os.

(** A sequence of decisions handed to [act], exceptions left aside as a
    caller that catches them would. *)
Definition run_acts (ds : list SignalArg) (e : ExecutionEngine.t) : ExecutionEngine.t :=
  fold_left (fun e d => fst (ExecutionEngine.act d e)) ds e.

(** Reading a trade log from its start: an ENTER is expected when flat, an
    EXIT when a position is open.  The result is whether a position is open
    at the end, or [None] for a log that breaks the pattern. *)
Definition ledger_step (st : option bool) (a : string) : option bool :=
  match st with
  | Some false => if (a =? "ENTER")%string then Some true else None
  | Some true => if (a =? "EXIT")%string then Some false else None
  | None => None
  end.

Definition ledger_state (acts : list string) : option bool :=
  fold_left ledger_step acts (Some false).

Definition is_open (p : option Position) : bool :=
  match p with Some _ => true | None => false end.

(** The sum of the pnl column of a trade log. *)
Definition realized_pnl (trs : list TradeRecord) : Q :=
  fold_right (fun r acc => match tr_pnl r with Some x => x + acc | None => acc end) 0 trs.

(** The trade log tells whether a position is open, and an open position
    has a positive entry price and quantity. *)
Definition ledger_consistent (e : ExecutionEngine.t) : Prop :=
  ledger_state (map tr_action (ExecutionEngine.trades e))
  = Some (is_open (Strategy.getattr_pos (ExecutionEngine.strat e)))
  /\ forall p, Strategy.getattr_pos (ExecutionEngine.strat e) = Some p ->
               0 < entry p /\ 0 < qty p.

(** [update_trade_history] cannot divide by zero on this manager. *)
Definition mean_defined (rm : RiskManager.t) : Prop :=
  RiskManager.trading_paused_throttle rm = false
  \/ (1 <= Config.throttle_window (RiskManager.cfg rm))%nat.

(** What one call of [act] does to the trade log, the position, the budget
    and the risk manager. *)
Inductive act_effect (e e' : ExecutionEngine.t) : Prop :=
| effect_none :
    ExecutionEngine.trades e' = ExecutionEngine.trades e -> ExecutionEngine.budget e' = ExecutionEngine.budget e ->
    ExecutionEngine.risk_manager e' = ExecutionEngine.risk_manager e ->
    Strategy.getattr_pos (ExecutionEngine.strat e') = Strategy.getattr_pos (ExecutionEngine.strat e) ->
    act_effect e e'
| effect_cleared :
    forall pos,
    Strategy.getattr_pos (ExecutionEngine.strat e) = Some pos ->
    (entry pos <= 0 \/ qty pos <= 0) ->
    ExecutionEngine.trades e' = ExecutionEngine.trades e -> ExecutionEngine.budget e' = ExecutionEngine.budget e ->
    ExecutionEngine.risk_manager e' = ExecutionEngine.risk_manager e ->
    Strategy.getattr_pos (ExecutionEngine.strat e') = None ->
    act_effect e e'
| effect_exit :
    forall pos x r,
    Strategy.getattr_pos (ExecutionEngine.strat e) = Some pos ->
    tr_action r = "EXIT"%string ->
    tr_pnl r = Some ((x - entry pos) * qty pos) ->
    ExecutionEngine.trades e' = (ExecutionEngine.trades e ++ [r])%list ->
    ExecutionEngine.budget e' = ExecutionEngine.budget e + (x - entry pos) * qty pos ->
    ExecutionEngine.risk_manager e'
    = fst (RiskManager.update_trade_history ((x - entry pos) * qty pos) (ExecutionEngine.risk_manager e)) ->
    Strategy.getattr_pos (ExecutionEngine.strat e') = None ->
    act_effect e e'
| effect_exit_raised :
    forall pos x,
    Strategy.getattr_pos (ExecutionEngine.strat e) = Some pos ->
    snd (RiskManager.update_trade_history ((x - entry pos) * qty pos) (ExecutionEngine.risk_manager e))
    <> Ok tt ->
    ExecutionEngine.trades e' = ExecutionEngine.trades e ->
    Strategy.getattr_pos (ExecutionEngine.strat e') = Strategy.getattr_pos (ExecutionEngine.strat e) ->
    act_effect e e'
| effect_enter :
    forall p r,
    Strategy.getattr_pos (ExecutionEngine.strat e) = None ->
    0 < p -> 0 < ExecutionEngine._order_size (Some p) e ->
    tr_action r = "ENTER"%string -> tr_pnl r = None ->
    ExecutionEngine.trades e' = (ExecutionEngine.trades e ++ [r])%list ->
    ExecutionEngine.budget e' = ExecutionEngine.budget e ->
    ExecutionEngine.risk_manager e' = ExecutionEngine.risk_manager e ->
    Strategy.getattr_pos (ExecutionEngine.strat e')
    = Some (mkPosition "LONG" (ExecutionEngine._order_size (Some p) e) p) ->
    act_effect e e'.

(** A sequence of ticks handed to [on_tick_update]. *)
Definition run_ticks (tds : list dict) (s : ScalpingStrategy.t) : ScalpingStrategy.t :=
  fold_left (fun s td => fst (ScalpingStrategy.on_tick_update td s)) tds s.

(** A tick whose price is a number, or is missing or None. *)
Definition numeric_price (td : dict) : Prop :=
  match dict_get "price" td with
  | PNone | PNum _ => True
  | _ => False
  end.

(** The tick dict of the replay driver. *)
Definition replay_tick (px : Q) (ms : Z) : dict :=
  [("price"%string, PNum px); ("timestamp"%string, PTime ms)].

(** A candle whose open and close lie between its low and its high. *)
Definition candle_ok (c : ScalpingStrategy.Candle) : Prop :=
  ScalpingStrategy.low c <= ScalpingStrategy.open c
  /\ ScalpingStrategy.open c <= ScalpingStrategy.high c
  /\ ScalpingStrategy.low c <= ScalpingStrategy.close c
  /\ ScalpingStrategy.close c <= ScalpingStrategy.high c.

(** The candle frame after a finalized candle has been stored: appended
    under its bucket time, the oldest row dropped beyond 100 rows. *)
Definition store_candle (ts : Z) (c : ScalpingStrategy.Candle)
    (cs : list (Z * ScalpingStrategy.Candle)) : list (Z * ScalpingStrategy.Candle) :=
  let cs' := (cs ++ [(ts, c)])%list in
  if (100 <? List.length cs')%nat then tl cs' else cs'.

(** The state of the candle builder as a session from [__init__] keeps it:
    nothing stored before the first tick; afterwards an open candle with
    its bucket time, the stored rows in strictly increasing bucket order
    below that time, at most 100 of them, each of them and the open candle
    consistent. *)
Definition candles_wf (s : ScalpingStrategy.t) : Prop :=
  (List.length (ScalpingStrategy.candles s) <= 100)%nat
  /\ Forall candle_ok (map snd (ScalpingStrategy.candles s))
  /\ StronglySorted Z.lt (map fst (ScalpingStrategy.candles s))
  /\ match ScalpingStrategy.last_candle_timestamp s, ScalpingStrategy.current_candle s with
     | None, None => ScalpingStrategy.candles s = []
     | Some l, Some c =>
         candle_ok c /\ Forall (fun t => (t < l)%Z) (map fst (ScalpingStrategy.candles s))
     | _, _ => False
     end.

(** A sequence of prices handed to [on_price], each with the reading of
    the clock at the call. *)
Definition run_prices (np_mean np_std : list Q -> Q) (calls : list (Q * option Q))
    (s : MomentumStrategy.t) : MomentumStrategy.t :=
  fold_left (fun s c => fst (MomentumStrategy.on_price np_mean np_std (fst c) (snd c) s))
            calls s.

(** The prices of a sequence of calls that pass the guard of [on_price]. *)
Definition accepted_prices (calls : list (Q * option Q)) : list Q :=
  flat_map (fun c => match snd c with
                     | Some px => if Qleb px 0 then [] else [px]
                     | None => []
                     end) calls.

(** An indicator cell holds a value above a bound. *)
Definition cell_above (a : list (option Q)) (i : nat) (bound : Q) : Prop :=
  exists x, ScalpingStrategy.cell a i = Some x /\ bound < x.

(** The buy and the sell condition of [generate_signal] on the last two
    rows of the indicator columns. *)
Definition buy_condition (ema9 ema21 rsi : list (option Q)) (n : nat) (oversold : Q) : Prop :=
  (cell_lt ema9 ema21 (n - 2) /\ cell_lt ema21 ema9 (n - 1))
  \/ cell_below rsi (n - 1) oversold.

Definition sell_condition (ema9 ema21 rsi : list (option Q)) (n : nat) (overbought : Q) : Prop :=
  (cell_lt ema21 ema9 (n - 2) /\ cell_lt ema9 ema21 (n - 1))
  \/ cell_above rsi (n - 1) overbought.

(** An order book whose two sides are lists of levels, the first level of
    each side starting with a number. *)
Definition numeric_book (b a : Q) (bids asks : list pyval) (rest_b rest_a : list pyval) : pyval :=
  PDict [("bids"%string, PList (PList (PNum b :: rest_b) :: bids));
         ("asks"%string, PList (PList (PNum a :: rest_a) :: asks))].

(** A side of an order book that is missing or empty. *)
Definition side_absent (k : string) (d : dict) : Prop :=
  lookup k d = None \/ exists v, lookup k d = Some v /\ truthy v = false.

(** Twenty-two candles rising by one from 100 to 121. *)
Definition rising_candles : list (Z * ScalpingStrategy.Candle) :=
  map (fun i => flat_candle i (100 + inject_Z (Z.of_nat i))) (seq 0 22).

Definition scalper_after_rise : ScalpingStrategy.t :=
  ScalpingStrategy.set_candles rising_candles
    (ScalpingStrategy.__init__ Config.default).

(** The state [on_price] reaches once a price has passed its guard: the
    running average and the price deque are updated first. *)
Definition price_recorded (px : Q) (self : MomentumStrategy.t) : MomentumStrategy.t :=
  MomentumStrategy.set_prices
    (deque_append (MomentumStrategy.prices_maxlen (MomentumStrategy.cfg self))
                  (MomentumStrategy.prices self) px)
    (MomentumStrategy.set__ema
       (Some (MomentumStrategy.ema (MomentumStrategy._ema self) px
                (2 / inject_Z (Z.of_nat (Config.ema_len (MomentumStrategy.cfg self) + 1)))))
       self).

(** A computation that leaves an observation of the state as it was. *)
Definition preserves {S X A} (f : S -> X) (c : M S A) : Prop :=
  forall s, f (fst (c s)) = f s.

(** What a trade would change: budget, trade log, risk manager, position,
    and the trade calls of the trace. *)
Definition ledger_view (s : WebSocketManager.t)
    : Q * list TradeRecord * RiskManager.t * option Position * list WebSocketManager.event :=
  (ExecutionEngine.budget (WebSocketManager.engine s),
   ExecutionEngine.trades (WebSocketManager.engine s),
   ExecutionEngine.risk_manager (WebSocketManager.engine s),
   Strategy.getattr_pos (WebSocketManager.strategy s),
   filter is_trade_call (WebSocketManager.trace s)).

(** The answers owed to the heartbeat requests among some frames. *)
Definition heartbeat_answers (frames : list WebSocketManager.message) : list pyval :=
  flat_map (fun m => match m with
                     | WebSocketManager.Json (PDict d) =>
                         if WebSocketManager.is_heartbeat d
                         then [WebSocketManager.respond_heartbeat d] else []
                     | _ => []
                     end) frames.

(** ** Subscription and reconnect loop (data/websocket_manager.py) *)

Module Connection.

(** [int(x)] of a float: truncation toward zero. *)
Definition py_int (x : Q) : Z := Z.quot (Qnum x) (Zpos (Qden x)).

Definition symbols : list string := ["BTC_USDT"; "ETH_USDT"]%string.

Definition ticker_channels : list string :=
  map (fun symbol => ("ticker." ++ symbol)%string) symbols.

Definition book_channels : list string :=
  map (fun symbol => ("book." ++ symbol ++ ".10")%string) symbols.

(** The request of [subscribe]; [t_id] and [t_nonce] are the two readings
    of [time.time()]. *)
Definition subscription_request (t_id t_nonce : Q) : pyval :=
  PDict [("id"%string, PNum (inject_Z (py_int t_id)));
         ("method"%string, PStr "subscribe");
         ("params"%string,
          PDict [("channels"%string,
                  PList (map PStr (ticker_channels ++ book_channels)))]);
         ("nonce"%string, PNum (inject_Z (py_int (t_nonce * 1000))))].

(** [subscribe()]. *)
Definition subscribe (t_id t_nonce : Q) : M WebSocketManager.t unit :=
  WebSocketManager.emit (WebSocketManager.EvSend (subscription_request t_id t_nonce)).

(** One established connection: the clock readings of its subscription
    and the frames it delivers before it closes.  Sends on it go through;
    an attempt that is refused sends nothing and is not listed. *)
Record connection : Type := mkConnection {
  t_id : Q;
  t_nonce : Q;
  frames : list WebSocketManager.message
}.

(** [try: ... except Exception: ...]: the exception is printed and the
    loop goes on from the state reached. *)
Definition catch_all (c : M WebSocketManager.t unit) : M WebSocketManager.t unit :=
  fun s => (fst (c s), Ok tt).

Section External.

Variable float_of_str : string -> option Q.
Variable refresh_sentiment : AI_Analyzer.t -> AI_Analyzer.t.

(** The body of the [while True] loop of [connect] for one connection. *)
Definition connect_once (c : connection) : M WebSocketManager.t unit :=
  catch_all (subscribe (t_id c) (t_nonce c) ;;;
             WebSocketManager.listen float_of_str refresh_sentiment (frames c)).

(** [connect()] over the connections the transport establishes, one after
    the other; the pause between two of them has no effect on the state. *)
Definition connect (connections : list connection) : M WebSocketManager.t unit :=
  WebSocketManager.for_each connections connect_once.

End External.

End Connection.

(** A frame that is a subscription request. *)
Definition is_subscription (v : pyval) : bool :=
  match v with
  | PDict d => match dict_get "method" d with
               | PStr s => (s =? "subscribe")%string
               | _ => false
               end
  | _ => false
  end.

(** What a connection sends when it gets through its first [k] frames. *)
Definition connection_sends (c : Connection.connection) (k : nat) : list pyval :=
  Connection.subscription_request (Connection.t_id c) (Connection.t_nonce c)
  :: heartbeat_answers (firstn k (Connection.frames c)).

(** ** The replay driver (backtest.py) *)

Module Backtest.

(** A row of a trade file: price, timestamp in milliseconds, and the
    reading of the clock while the row is processed. *)
Record row : Type := mkRow {
  row_price : Q;
  row_timestamp : Z;
  row_clock : Q
}.

Fixpoint for_each {A} (l : list A) (body : A -> M ExecutionEngine.t unit)
    : M ExecutionEngine.t unit :=
  match l with
  | [] => ret tt
  | x :: l' => body x ;;; for_each l' body
  end.

(** The order book the driver fabricates around a price. *)
Definition fabricated_book (p : Q) : pyval :=
  PDict [("bids"%string, PList [PList [PNum p; PNum 1]]);
         ("asks"%string, PList [PList [PNum (p * (10001 # 10000)); PNum 1]])].

Section External.

Variable float_of_str : string -> option Q.
Variable ta_ema : nat -> list Q -> list (option Q).
Variable ta_rsi : nat -> list Q -> list (option Q).
Variable np_mean : list Q -> Q.
Variable np_std : list Q -> Q.

(** The signal of one row, by the class of the strategy. *)
Definition row_signal (r : row) : M ExecutionEngine.t (option Signal) :=
  self <- get ;;
  match ExecutionEngine.strat self with
  | Strategy.Momentum m =>
      zoom (fun _ => m)
           (fun m' s => ExecutionEngine.set_strat (Strategy.Momentum m') s)
           (MomentumStrategy.on_price np_mean np_std (row_clock r) (Some (row_price r)))
  | Strategy.Scalping sc =>
      zoom (fun _ => sc)
           (fun sc' s => ExecutionEngine.set_strat (Strategy.Scalping sc') s)
           (ScalpingStrategy.on_order_book_update float_of_str
              (fabricated_book (row_price r)) ;;;
            candle_finalized <-
              ScalpingStrategy.on_tick_update
                (replay_tick (row_price r) (row_timestamp r)) ;;
            if (candle_finalized : bool) then
              self <- get ;;
              ret (ScalpingStrategy.generate_signal ta_ema ta_rsi self)
            else ret None)
  end.

(** The body of the loop over the rows; [ai] is the mock analyzer. *)
Definition process_row (ai : AI_Analyzer.t) (r : row) : M ExecutionEngine.t unit :=
  signal <- row_signal r ;;
  match signal with
  | Some sg =>
      self <- get ;;
      approved <- zoom ExecutionEngine.risk_manager ExecutionEngine.set_risk_manager
                    (RiskManager.approve_trade ai (SigDict sg) (ExecutionEngine.budget self)) ;;
      if (approved : bool) then ExecutionEngine.act (SigDict sg) else ret tt
  | None => ret tt
  end.

(** [run_backtest] over the rows of the files. *)
Definition run_backtest (ai : AI_Analyzer.t) (files : list (list row))
    : M ExecutionEngine.t unit :=
  for_each files (fun rows => for_each rows (process_row ai)).

End External.

End Backtest.

(** What a trade would change on the engine. *)
Definition engine_books (e : ExecutionEngine.t)
    : Q * list TradeRecord * RiskManager.t * option Position :=
  (ExecutionEngine.budget e, ExecutionEngine.trades e, ExecutionEngine.risk_manager e,
   Strategy.getattr_pos (ExecutionEngine.strat e)).

(** ** The sentiment cache (trading/ai_analyzer.py) *)

Module SentimentCache.

(** The analyzer with the attributes [refresh_sentiment] works on, all
    bound, as after an [__init__] whose [try] block ran through; [client]
    tells whether [self.client] is set. *)
Record t : Type := mk {
  analyzer : AI_Analyzer.t;
  client : bool;
  last_analysis_time : Q;
  cache_duration : Q
}.

(** [__init__] when the client is created. *)
Definition __init__ : t := {|
  analyzer := AI_Analyzer.mk "Neutral";
  client := true;
  last_analysis_time := 0;
  cache_duration := 60 * 15
|}.

(** [sentiment in ["Bullish", "Bearish", "Neutral"]]. *)
Definition known_label (s : string) : bool :=
  (s =? "Bullish")%string || (s =? "Bearish")%string || (s =? "Neutral")%string.

(** [_get_sentiment_from_ai(headlines)]; [reply] is the stripped content
    of the first choice of the answer, [None] when the request raises. *)
Definition _get_sentiment_from_ai (reply : option string) (self : t) : string :=
  if negb (client self) then "Neutral"%string
  else match reply with
       | Some sentiment => if known_label sentiment then sentiment else "Neutral"%string
       | None => "Neutral"%string
       end.

(** [refresh_sentiment()] at clock reading [current_time]; the status file
    it writes is outside the model. *)
Definition refresh_sentiment (current_time : Q) (reply : option string) (self : t) : t :=
  if Qltb (current_time - last_analysis_time self) (cache_duration self) then self
  else mk (AI_Analyzer.mk (_get_sentiment_from_ai reply self)) (client self)
          current_time (cache_duration self).

(** A sequence of refresh calls, each with its clock reading and the
    reply the service would give. *)
Definition run_refreshes (calls : list (Q * option string)) (self : t) : t :=
  fold_left (fun s c => refresh_sentiment (fst c) (snd c) s) calls self.

End SentimentCache.

(** * Properties *)

Unset Implicit Arguments.

(** ** Float comparisons *)

Lemma Qltb_true (x y : Q) : Qltb x y = true <-> x < y.
Proof.
  unfold Qltb. rewrite negb_true_iff, <- not_true_iff_false, Qle_bool_iff.
  split; [apply Qnot_le_lt | apply Qlt_not_le].
Qed.

Lemma Qltb_false (x y : Q) : Qltb x y = false <-> y <= x.
Proof.
  unfold Qltb. rewrite negb_false_iff, Qle_bool_iff. reflexivity.
Qed.

Lemma Qleb_true (x y : Q) : Qleb x y = true <-> x <= y.
Proof. apply Qle_bool_iff. Qed.

Lemma Qleb_false (x y : Q) : Qleb x y = false <-> y < x.
Proof.
  unfold Qleb. rewrite <- not_true_iff_false, Qle_bool_iff.
  split; [apply Qnot_le_lt | apply Qlt_not_le].
Qed.

Lemma Qgeb_true (x y : Q) : Qgeb x y = true <-> y <= x.
Proof. apply Qle_bool_iff. Qed.

Lemma Qgeb_false (x y : Q) : Qgeb x y = false <-> x < y.
Proof. unfold Qgeb. apply (Qleb_false y x). Qed.

Lemma Qgtb_true (x y : Q) : Qgtb x y = true <-> y < x.
Proof. apply Qltb_true. Qed.

Lemma Qgtb_false (x y : Q) : Qgtb x y = false <-> x <= y.
Proof. apply Qltb_false. Qed.

Lemma Qeq_bool_false (x y : Q) : Qeq_bool x y = false <-> ~ x == y.
Proof.
  rewrite <- not_true_iff_false, Qeq_bool_iff. reflexivity.
Qed.

(** The drawdown test of the code against the budget it stands for. *)
Lemma drawdown_test_iff (B cb d : Q) :
  0 < B -> ((cb - B) / B < - d <-> cb < B * (1 - d)).
Proof.
  intros HB. split; intros H.
  - assert (H1 : (cb - B) / B * B < - d * B)
      by (apply Qmult_lt_compat_r; assumption).
    assert (H2 : (cb - B) / B * B == cb - B)
      by (field; intros E; rewrite E in HB; discriminate).
    rewrite H2 in H1. lra.
  - apply Qlt_shift_div_r; [assumption | lra].
Qed.

(** ** The risk gate *)

Section RiskGate.

Import RiskManager.


(** [approve_trade] on a manager whose logger is bound, one case per
    return statement of the method. *)
Lemma approve_trade_cases (rm : t) (lg : Logger) (ai : AI_Analyzer.t)
    (s : Signal) (cb : Q) :
  log rm = Some lg ->
  approve_trade ai (SigDict s) cb rm =
    if sentiment_veto ai s then (rm, Ok false)
    else if Qeq_bool (starting_budget rm) 0 then (rm, Raise ZeroDivisionError)
    else if Qltb ((cb - starting_budget rm) / starting_budget rm)
                 (- Config.daily_drawdown_pct (cfg rm))
    then (set_trading_paused_drawdown true rm, Ok false)
    else if trading_paused_throttle rm then (rm, Ok false)
    else if (List.length (trade_history rm) =? Config.throttle_window (cfg rm))%nat
    then
      if Qeq_bool (inject_Z (Z.of_nat (List.length (trade_history rm)))) 0
      then (rm, Raise ZeroDivisionError)
      else if Qltb (inject_Z (fold_right Z.add 0%Z (trade_history rm))
                    / inject_Z (Z.of_nat (List.length (trade_history rm))))
                   (Config.throttle_threshold_pct (cfg rm))
      then (set_trading_paused_throttle true rm, Ok false)
      else (rm, Ok true)
    else (rm, Ok true).
Proof.
  intros Hlog.
  unfold approve_trade, sentiment_veto, getattr_log, signal_get_action,
    win_rate_of, truediv, bind, get, ret, raise, modify.
  rewrite Hlog. cbn.
  destruct ((action s =? "enter_long")%string
            && (AI_Analyzer.get_current_sentiment ai =? "Bearish")%string);
    [reflexivity|].
  destruct (Qeq_bool (starting_budget rm) 0); [reflexivity|].
  destruct (Qltb _ (- Config.daily_drawdown_pct (cfg rm))); [reflexivity|].
  destruct (trading_paused_throttle rm); [reflexivity|].
  destruct (List.length (trade_history rm) =? Config.throttle_window (cfg rm))%nat;
    [|reflexivity].
  destruct (Qeq_bool (inject_Z (Z.of_nat (List.length (trade_history rm)))) 0);
    [reflexivity|].
  destruct (Qltb _ (Config.throttle_threshold_pct (cfg rm))); reflexivity.
Qed.

(** Without a bound logger the first statement of the method raises,
    whatever the arguments, and nothing is changed. *)
Lemma approve_trade_unbound_logger (rm : t) (ai : AI_Analyzer.t)
    (signal : SignalArg) (cb : Q) :
  log rm = None ->
  approve_trade ai signal cb rm = (rm, Raise AttributeError).
Proof.
  intros Hlog.
  unfold approve_trade, getattr_log, bind, get, raise. rewrite Hlog. reflexivity.
Qed.

(** [update_trade_history] reads and writes the outcome window and the
    throttle flag only. *)
Lemma update_trade_history_frame (pnl : Q) (rm : t) :
  let rm' := fst (update_trade_history pnl rm) in
  cfg rm' = cfg rm /\ starting_budget rm' = starting_budget rm
  /\ trading_paused_drawdown rm' = trading_paused_drawdown rm
  /\ log rm' = log rm.
Proof.
  unfold update_trade_history, win_rate_of, truediv, bind, get, ret, raise, modify.
  cbn.
  destruct (trading_paused_throttle rm); cbn; [|tauto].
  destruct (Qeq_bool _ 0); cbn; [tauto|].
  destruct (Qgeb _ _); cbn; tauto.
Qed.

(** [approve_trade] never changes anything but the two pause flags, and
    only ever raises them. *)
Lemma approve_trade_frame (ai : AI_Analyzer.t) (signal : SignalArg) (cb : Q) (rm : t) :
  let rm' := fst (approve_trade ai signal cb rm) in
  cfg rm' = cfg rm /\ starting_budget rm' = starting_budget rm
  /\ trade_history rm' = trade_history rm /\ log rm' = log rm
  /\ (trading_paused_drawdown rm = true -> trading_paused_drawdown rm' = true)
  /\ (trading_paused_throttle rm = true -> trading_paused_throttle rm' = true).
Proof.
  destruct (log rm) as [lg|] eqn:Hlog.
  - destruct signal as [b|s].
    + unfold approve_trade, getattr_log, signal_get_action, bind, get, ret, raise.
      rewrite Hlog. cbn. tauto.
    + rewrite (approve_trade_cases rm lg ai s cb Hlog).
      repeat match goal with
             | |- context [if ?b then _ else _] => destruct b eqn:?
             end; cbn; intuition congruence.
  - rewrite (approve_trade_unbound_logger rm ai signal cb Hlog). cbn. tauto.
Qed.

(** The drawdown flag survives every operation of the manager. *)
Lemma drawdown_flag_latched (os : list op) (rm : t) :
  trading_paused_drawdown rm = true ->
  trading_paused_drawdown (run_ops os rm) = true.
Proof.
  revert rm. induction os as [|o os IH]; intros rm H; cbn; [assumption|].
  apply IH. destruct o as [ai s b|pnl]; cbn.
  - apply (approve_trade_frame ai s b rm). assumption.
  - destruct (update_trade_history_frame pnl rm) as (_ & _ & Hd & _).
    cbn in Hd. rewrite Hd. assumption.
Qed.

(** No operation binds the logger. *)
Lemma logger_unchanged (os : list op) (rm : t) :
  log (run_ops os rm) = log rm.
Proof.
  revert rm. induction os as [|o os IH]; intros rm; cbn; [reflexivity|].
  rewrite IH. destruct o as [ai s b|pnl]; cbn.
  - apply (approve_trade_frame ai s b rm).
  - apply (update_trade_history_frame pnl rm).
Qed.

End RiskGate.

Section RiskGateClaims.

Import RiskManager.

(** *** The checks of [approve_trade] on a manager with a bound logger *)

(** An entry is rejected while the sentiment is Bearish. *)
Lemma sentiment_veto_rejects_entries (rm : t) (lg : Logger) (ai : AI_Analyzer.t)
    (s : Signal) (cb : Q) :
  log rm = Some lg ->
  action s = "enter_long"%string ->
  AI_Analyzer.get_current_sentiment ai = "Bearish"%string ->
  approve_trade ai (SigDict s) cb rm = (rm, Ok false).
Proof.
  intros Hlog Ha Hs. rewrite (approve_trade_cases rm lg ai s cb Hlog).
  unfold sentiment_veto. rewrite Ha, Hs. reflexivity.
Qed.

(** For any other action the sentiment label is not looked at. *)
Lemma sentiment_ignored_for_other_actions (rm : t) (ai1 ai2 : AI_Analyzer.t)
    (s : Signal) (cb : Q) :
  action s <> "enter_long"%string ->
  approve_trade ai1 (SigDict s) cb rm = approve_trade ai2 (SigDict s) cb rm.
Proof.
  intros Ha. destruct (log rm) as [lg|] eqn:Hlog.
  - rewrite (approve_trade_cases rm lg ai1 s cb Hlog),
            (approve_trade_cases rm lg ai2 s cb Hlog).
    unfold sentiment_veto.
    destruct (String.eqb_spec (action s) "enter_long"); [contradiction|reflexivity].
  - rewrite !approve_trade_unbound_logger by assumption. reflexivity.
Qed.

(** A full window with a mean below the threshold trips the throttle. *)
Lemma throttle_trips_when_window_full (rm : t) (lg : Logger) (ai : AI_Analyzer.t)
    (s : Signal) (cb : Q) :
  log rm = Some lg ->
  sentiment_veto ai s = false ->
  ~ starting_budget rm == 0 ->
  - Config.daily_drawdown_pct (cfg rm)
    <= (cb - starting_budget rm) / starting_budget rm ->
  trading_paused_throttle rm = false ->
  (1 <= Config.throttle_window (cfg rm))%nat ->
  List.length (trade_history rm) = Config.throttle_window (cfg rm) ->
  mean_outcome (trade_history rm) < Config.throttle_threshold_pct (cfg rm) ->
  approve_trade ai (SigDict s) cb rm = (set_trading_paused_throttle true rm, Ok false).
Proof.
  intros Hlog Hveto HB Hdd Hth HW Hlen Hmean.
  rewrite (approve_trade_cases rm lg ai s cb Hlog), Hveto.
  apply Qeq_bool_false in HB. rewrite HB.
  apply Qltb_false in Hdd. rewrite Hdd, Hth.
  rewrite Hlen, Nat.eqb_refl.
  replace (Qeq_bool (inject_Z (Z.of_nat (Config.throttle_window (cfg rm)))) 0) with false.
  - rewrite <- Hlen. fold (mean_outcome (trade_history rm)).
    apply Qltb_true in Hmean. rewrite Hmean. reflexivity.
  - symmetry. apply Qeq_bool_false. unfold Qeq. cbn. lia.
Qed.

(** While the throttle flag is set every call that returns rejects. *)
Lemma throttle_rejects_while_paused (rm : t) (lg : Logger) (ai : AI_Analyzer.t)
    (s : Signal) (cb : Q) :
  log rm = Some lg ->
  ~ starting_budget rm == 0 ->
  trading_paused_throttle rm = true ->
  snd (approve_trade ai (SigDict s) cb rm) = Ok false
  /\ trading_paused_throttle (fst (approve_trade ai (SigDict s) cb rm)) = true.
Proof.
  intros Hlog HB Hth.
  rewrite (approve_trade_cases rm lg ai s cb Hlog).
  apply Qeq_bool_false in HB. rewrite HB, Hth.
  destruct (sentiment_veto ai s); [split; [reflexivity|assumption]|].
  destruct (Qltb _ _); split; try reflexivity; assumption.
Qed.

(** [update_trade_history] appends the outcome to the bounded window. *)
Lemma update_trade_history_window (pnl : Q) (rm : t) :
  trade_history (fst (update_trade_history pnl rm)) =
  deque_append (Config.throttle_window (cfg rm)) (trade_history rm)
               (if Qgtb pnl 0 then 1%Z else 0%Z).
Proof.
  unfold update_trade_history, win_rate_of, truediv, bind, get, ret, raise, modify.
  cbn. destruct (trading_paused_throttle rm); cbn; [|reflexivity].
  destruct (Qeq_bool _ 0); cbn; [reflexivity|].
  destruct (Qgeb _ _); reflexivity.
Qed.

(** A window of capacity at least one is not empty after an append. *)
Lemma deque_append_nonempty (W : nat) (h : list Z) (x : Z) :
  (1 <= W)%nat -> (1 <= List.length (deque_append W h x))%nat.
Proof.
  intros HW. unfold deque_append.
  destruct (Nat.eqb_spec W 0); [lia|].
  destruct (List.length h <? W)%nat; rewrite length_app; cbn; lia.
Qed.

(** The throttle flag after [update_trade_history]: cleared exactly when
    it was set and the new mean reaches the threshold. *)
Lemma update_trade_history_throttle (pnl : Q) (rm : t) :
  (1 <= Config.throttle_window (cfg rm))%nat ->
  let h' := deque_append (Config.throttle_window (cfg rm)) (trade_history rm)
                         (if Qgtb pnl 0 then 1%Z else 0%Z) in
  snd (update_trade_history pnl rm) = Ok tt
  /\ trading_paused_throttle (fst (update_trade_history pnl rm)) =
     trading_paused_throttle rm
     && negb (Qgeb (mean_outcome h') (Config.throttle_threshold_pct (cfg rm))).
Proof.
  intros HW h'.
  pose proof (deque_append_nonempty (Config.throttle_window (cfg rm))
                (trade_history rm) (if Qgtb pnl 0 then 1%Z else 0%Z) HW) as Hne.
  fold h' in Hne.
  assert (Hz : Qeq_bool (inject_Z (Z.of_nat (List.length h'))) 0 = false).
  { apply Qeq_bool_false. unfold Qeq. cbn. lia. }
  unfold update_trade_history, win_rate_of, truediv, bind, get, ret, raise, modify.
  cbn. fold h'.
  destruct (trading_paused_throttle rm) eqn:Ht; cbn.
  - rewrite Hz. cbn. fold (mean_outcome h').
    destruct (Qgeb (mean_outcome h') _); cbn; rewrite ?Ht; split; reflexivity.
  - rewrite Ht. split; reflexivity.
Qed.

(** *** The manager as constructed *)

(** In a session that starts from [__init__] the logger stays unbound and
    both flags stay down. *)
Lemma session_invariant (c : Config.t) (os : list op) :
  log (run_ops os (__init__ c)) = None
  /\ trading_paused_drawdown (run_ops os (__init__ c)) = false
  /\ trading_paused_throttle (run_ops os (__init__ c)) = false.
Proof.
  assert (G : forall rm,
             log rm = None /\ trading_paused_drawdown rm = false
             /\ trading_paused_throttle rm = false ->
             log (run_ops os rm) = None
             /\ trading_paused_drawdown (run_ops os rm) = false
             /\ trading_paused_throttle (run_ops os rm) = false).
  { induction os as [|o os IH]; intros rm H; cbn; [assumption|].
    apply IH. destruct H as (Hl & Hd & Ht). destruct o as [ai s b|pnl]; cbn.
    - rewrite (approve_trade_unbound_logger rm ai s b Hl). cbn. tauto.
    - unfold update_trade_history, bind, get, ret, modify. cbn.
      rewrite Ht. cbn. tauto. }
  apply G. cbn. tauto.
Qed.

(** C7.  The claim is that [approve_trade] returns False for an entry while
    the sentiment is Bearish.  In every session that starts from [__init__]
    the call raises AttributeError at [self.log] before the veto is
    evaluated, for every signal, budget and sentiment, and leaves the
    manager unchanged. *)
Theorem approve_trade_raises_in_every_session
    (c : Config.t) (os : list op) (ai : AI_Analyzer.t) (signal : SignalArg) (cb : Q) :
  approve_trade ai signal cb (run_ops os (__init__ c))
  = (run_ops os (__init__ c), Raise AttributeError).
Proof.
  apply approve_trade_unbound_logger. apply session_invariant.
Qed.

(** The starting budget of a session is the configured total budget. *)
Lemma session_starting_budget (c : Config.t) (os : list op) :
  starting_budget (run_ops os (__init__ c)) = Config.total_budget_usdt c.
Proof.
  assert (G : forall rm, starting_budget (run_ops os rm) = starting_budget rm).
  { induction os as [|o os IH]; intros rm; cbn; [reflexivity|].
    rewrite IH. destruct o as [ai s b|pnl]; cbn.
    - apply (approve_trade_frame ai s b rm).
    - apply (update_trade_history_frame pnl rm). }
  rewrite G. reflexivity.
Qed.

(** C2.  The claim is that a current budget at or below
    B*(1 - daily_drawdown_pct) makes [approve_trade] return False and set
    the drawdown-paused flag.  In every session that starts from
    [__init__] the starting budget B is total_budget_usdt, and for such a
    budget, whatever the signal and the sentiment, the call raises
    AttributeError at [self.log] before the drawdown is computed: it does
    not return False, the manager is unchanged and the flag is still down
    after the call. *)
Theorem drawdown_breaker_never_trips_after_init
    (c : Config.t) (os : list op) (ai : AI_Analyzer.t) (signal : SignalArg) (cb : Q) :
  cb <= Config.total_budget_usdt c * (1 - Config.daily_drawdown_pct c) ->
  starting_budget (run_ops os (__init__ c)) = Config.total_budget_usdt c
  /\ approve_trade ai signal cb (run_ops os (__init__ c))
     = (run_ops os (__init__ c), Raise AttributeError)
  /\ snd (approve_trade ai signal cb (run_ops os (__init__ c))) <> Ok false
  /\ trading_paused_drawdown (fst (approve_trade ai signal cb (run_ops os (__init__ c))))
     = false.
Proof.
  intros _.
  destruct (session_invariant c os) as (Hlog & Hdd & _).
  pose proof (approve_trade_unbound_logger (run_ops os (__init__ c)) ai signal cb Hlog)
    as Hraise.
  split; [apply session_starting_budget|].
  split; [exact Hraise|].
  rewrite Hraise. cbn [fst snd]. split; [discriminate|exact Hdd].
Qed.

(** The default budget of 1000 with a limit of 2 percent: the bound is 980,
    and at a budget of 900 the call on the manager as built raises. *)
Lemma drawdown_breaker_never_trips_after_init_witness :
  900 <= Config.total_budget_usdt Config.default
         * (1 - Config.daily_drawdown_pct Config.default)
  /\ approve_trade neutral (SigDict (exit_at 100)) 900 sample_manager
     = (sample_manager, Raise AttributeError)
  /\ trading_paused_drawdown
       (fst (approve_trade neutral (SigDict (exit_at 100)) 900 sample_manager)) = false.
Proof.
  assert (H : 900 <= Config.total_budget_usdt Config.default
                     * (1 - Config.daily_drawdown_pct Config.default))
    by (vm_compute; discriminate).
  split; [exact H|].
  destruct (drawdown_breaker_never_trips_after_init Config.default []
              neutral (SigDict (exit_at 100)) 900 H) as (_ & Hraise & _ & Hflag).
  split; [exact Hraise|exact Hflag].
Defined.

End RiskGateClaims.

(** ** The execution engine *)

Section EngineClaims.

Import ExecutionEngine.

(** C3 (amended).  [_order_size] returns 0 when the price is missing or
    not positive; for a positive price it returns
    (budget * risk_per_trade_pct) / price exactly when that notional is not
    negative, and 0 when it is negative (the quotient is floored at 0). *)
Theorem order_size_floored_at_zero (self : t) (p : Q) :
  _order_size None self = 0
  /\ (p <= 0 -> _order_size (Some p) self = 0)
  /\ (0 < p -> 0 <= budget self * Config.risk_per_trade_pct (cfg self) ->
        _order_size (Some p) self
        = budget self * Config.risk_per_trade_pct (cfg self) / p)
  /\ (0 < p -> budget self * Config.risk_per_trade_pct (cfg self) < 0 ->
        _order_size (Some p) self = 0).
Proof.
  unfold _order_size, py_max.
  split; [reflexivity|]. split; [|split].
  - intros Hp. apply Qleb_true in Hp. rewrite Hp. reflexivity.
  - intros Hp Hn. apply Qleb_false in Hp. rewrite Hp.
    replace (Qgtb 0 (budget self * Config.risk_per_trade_pct (cfg self) / p)) with false;
      [reflexivity|].
    symmetry. apply Qgtb_false. apply Qleb_false in Hp.
    apply Qle_shift_div_l; [assumption|]. lra.
  - intros Hp Hn. apply Qleb_false in Hp. rewrite Hp.
    replace (Qgtb 0 (budget self * Config.risk_per_trade_pct (cfg self) / p)) with true;
      [reflexivity|].
    symmetry. apply Qgtb_true. apply Qleb_false in Hp.
    apply Qlt_shift_div_r; [assumption|]. lra.
Qed.

(** Budget 1000, risk 1 percent, price 100: the size is the plain quotient. *)
Lemma order_size_floored_at_zero_witness :
  let e := engine_of Config.default
             (Strategy.Momentum (MomentumStrategy.__init__ Config.default)) in
  0 < 100
  /\ 0 <= budget e * Config.risk_per_trade_pct (cfg e)
  /\ _order_size (Some 100) e = budget e * Config.risk_per_trade_pct (cfg e) / 100.
Proof.
  intros e.
  assert (H1 : 0 < 100) by reflexivity.
  assert (H2 : 0 <= budget e * Config.risk_per_trade_pct (cfg e))
    by (vm_compute; discriminate).
  split; [exact H1|]. split; [exact H2|].
  exact (proj1 (proj2 (proj2 (order_size_floored_at_zero e 100))) H1 H2).
Defined.

(** C3 (as stated) fails.  With a budget of -1000, risk 1 percent and price 100
    the quotient is -1/10 and the size returned is 0. *)
Lemma order_size_negative_budget :
  0 < 100
  /\ _order_size (Some 100) engine_in_debt = 0
  /\ ~ (_order_size (Some 100) engine_in_debt
        == budget engine_in_debt * Config.risk_per_trade_pct (cfg engine_in_debt) / 100).
Proof.
  split; [reflexivity|]. split; [vm_compute; reflexivity|].
  vm_compute. discriminate.
Qed.

(** An exit with a position of positive entry and quantity, once an exit
    price is known. *)
Lemma exit_branch_fill (self : t) (d : Signal) (pos : Position) (p : Q) :
  Strategy.getattr_pos (strat self) = Some pos ->
  Strategy.getattr_latest_ask (price d) (strat self) = Some p ->
  0 < entry pos -> 0 < qty pos ->
  (1 <= Config.throttle_window (RiskManager.cfg (risk_manager self)))%nat ->
  exit_branch d self =
    (let pnl := (p - entry pos) * qty pos in
     mk (cfg self) (Strategy.setattr_pos None (strat self))
        (fst (RiskManager.update_trade_history pnl (risk_manager self)))
        (budget self + pnl)
        (trades self ++ [mkTrade (Config.symbol_ccxt (cfg self)) "EXIT" (side pos) p
                                 (qty pos) (reason_or_empty d) (Some pnl)])%list,
     Ok tt).
Proof.
  intros Hpos Hask He Hq HW.
  unfold exit_branch, bind, get. rewrite Hpos, Hask.
  apply Qleb_false in He. apply Qleb_false in Hq. rewrite He, Hq. cbn [orb].
  unfold modify, zoom, ret. cbn -[RiskManager.update_trade_history].
  destruct (update_trade_history_throttle ((p - entry pos) * qty pos) (risk_manager self) HW)
    as [Hok _].
  destruct (RiskManager.update_trade_history ((p - entry pos) * qty pos) (risk_manager self))
    as [rm' r]. cbn in Hok. subst r. reflexivity.
Qed.

(** C4 (amended).  For an exit signal processed by [act] while a position
    with positive entry and positive quantity is open (throttle window of
    at least one outcome): the exit price is the [latest_ask] attribute of
    a strategy that has one (the scalping strategy) and the price carried
    by the signal only for a strategy without that attribute (the momentum
    strategy).  When that price is None, [act] returns without any change.
    Otherwise pnl = (exit_price - entry) * qty is added to the budget, the
    outcome is passed to [update_trade_history], exactly one EXIT record is
    appended and the position is cleared. *)
Theorem exit_uses_strategy_ask (self : t) (d : Signal) (pos : Position) :
  action d = "exit"%string ->
  Strategy.getattr_pos (strat self) = Some pos ->
  0 < entry pos -> 0 < qty pos ->
  (1 <= Config.throttle_window (RiskManager.cfg (risk_manager self)))%nat ->
  match exit_price_of (strat self) d with
  | None => act (SigDict d) self = (self, Ok tt)
  | Some p =>
      let pnl := (p - entry pos) * qty pos in
      act (SigDict d) self =
        (mk (cfg self) (Strategy.setattr_pos None (strat self))
            (fst (RiskManager.update_trade_history pnl (risk_manager self)))
            (budget self + pnl)
            (trades self ++ [mkTrade (Config.symbol_ccxt (cfg self)) "EXIT" (side pos) p
                                     (qty pos) (reason_or_empty d) (Some pnl)])%list,
         Ok tt)
  end.
Proof.
  intros Ha Hpos He Hq HW.
  assert (Hask : Strategy.getattr_latest_ask (price d) (strat self)
                 = exit_price_of (strat self) d)
    by (destruct (strat self); reflexivity).
  cbn [act]. rewrite Ha. cbn [String.eqb Ascii.eqb Bool.eqb].
  destruct (exit_price_of (strat self) d) as [p|] eqn:Hp.
  - apply (exit_branch_fill self d pos p Hpos Hask He Hq HW).
  - unfold exit_branch, bind, get. rewrite Hpos, Hask. reflexivity.
Qed.

(** A scalping strategy with an ask of 110 and a position of 1/10 at 100:
    the exit fills at 110. *)
Lemma exit_uses_strategy_ask_witness :
  let e := engine_of Config.default (Strategy.Scalping scalper_with_ask) in
  let pnl := (110 - 100) * (1 # 10) in
  act (SigDict (exit_at 105)) e =
    (mk (cfg e) (Strategy.setattr_pos None (strat e))
        (fst (RiskManager.update_trade_history pnl (risk_manager e)))
        (budget e + pnl)
        [mkTrade "BTC/USDT" "EXIT" "LONG" 110 (1 # 10) EmptyString (Some pnl)],
     Ok tt).
Proof.
  intros e.
  assert (HW : (1 <= Config.throttle_window (RiskManager.cfg (risk_manager e)))%nat)
    by (vm_compute; lia).
  exact (exit_uses_strategy_ask e (exit_at 105) (mkPosition "LONG" (1 # 10) 100)
           eq_refl eq_refl eq_refl eq_refl HW).
Defined.

(** C4 (as stated) fails.  A scalping strategy that has not observed an
    ask holds a position of 1/10 entered at 100; the exit signal carries
    the price 110.  [act] returns without a fill: the budget is still 1000,
    no record is written and the position stays open. *)
Lemma exit_without_ask_is_dropped :
  let e := engine_of Config.default (Strategy.Scalping scalper_without_ask) in
  Strategy.getattr_pos (strat e) = Some (mkPosition "LONG" (1 # 10) 100)
  /\ ScalpingStrategy.latest_ask scalper_without_ask = None
  /\ price (exit_at 110) = Some 110
  /\ act (SigDict (exit_at 110)) e = (e, Ok tt)
  /\ budget (fst (act (SigDict (exit_at 110)) e)) = 1000
  /\ trades (fst (act (SigDict (exit_at 110)) e)) = []
  /\ Strategy.getattr_pos (strat (fst (act (SigDict (exit_at 110)) e)))
     = Some (mkPosition "LONG" (1 # 10) 100).
Proof.
  repeat split; vm_compute; reflexivity.
Qed.

(** C5 (amended).  For an enter_long signal executed by [act] with no open
    position and a positive computed quantity, the recorded reason is
    "twap_entry" exactly when the lower-cased execution mode is "twap", or
    is "auto" with a notional (qty * entry price) above
    large_order_threshold_usdt, and "smart_limit_entry" in every other
    case; whatever the route, one ENTER record is written and the position
    opened with the same quantity at the same entry price. *)
Theorem entry_route_reason (self : t) (d : Signal) (p : Q) :
  action d = "enter_long"%string ->
  Strategy.getattr_pos (strat self) = None ->
  Strategy.getattr_latest_bid (price d) (strat self) = Some p ->
  0 < _order_size (Some p) self ->
  let qty := _order_size (Some p) self in
  act (SigDict d) self =
    (mk (cfg self)
        (Strategy.setattr_pos (Some (mkPosition "LONG" qty p)) (strat self))
        (risk_manager self) (budget self)
        (trades self ++ [mkTrade (Config.symbol_ccxt (cfg self)) "ENTER" "LONG" p qty
                                 (route_reason (cfg self) (qty * p)) None])%list,
     Ok tt).
Proof.
  intros Ha Hpos Hbid Hq qty.
  cbn [act]. rewrite Ha. cbn [String.eqb Ascii.eqb Bool.eqb].
  unfold enter_long_branch, bind, get. rewrite Hpos, Hbid.
  fold qty. apply Qleb_false in Hq. fold qty in Hq.
  unfold route_reason.
  rewrite (orb_comm (lower (Config.execution_mode (cfg self)) =? "twap")%string).
  destruct (((lower (Config.execution_mode (cfg self)) =? "auto")%string
             && Qgtb (qty * p) (Config.large_order_threshold_usdt (cfg self)))
            || (lower (Config.execution_mode (cfg self)) =? "twap")%string);
    rewrite Hq; reflexivity.
Qed.

(** Default configuration (mode "auto", threshold 500), budget 1000 and a
    signal at 100: quantity 1/10, notional 10, immediate route. *)
Lemma entry_route_reason_witness :
  let e := engine_of Config.default
             (Strategy.Momentum (MomentumStrategy.__init__ Config.default)) in
  0 < _order_size (Some 100) e
  /\ trades (fst (act (SigDict (enter_long_at 100)) e))
     = [mkTrade "BTC/USDT" "ENTER" "LONG" 100 (_order_size (Some 100) e)
                "smart_limit_entry" None].
Proof.
  intros e.
  assert (Hq : 0 < _order_size (Some 100) e) by (vm_compute; reflexivity).
  split; [exact Hq|].
  rewrite (entry_route_reason e (enter_long_at 100) 100 eq_refl eq_refl eq_refl Hq).
  reflexivity.
Defined.

(** C5 (as stated) fails.  With execution mode "limit", budget 100000 and
    a signal at 100 the quantity is 10 and the notional 1000 exceeds the
    threshold 500, yet the recorded reason is "smart_limit_entry". *)
Lemma large_order_in_limit_mode :
  let e := engine_of limit_mode_cfg
             (Strategy.Momentum (MomentumStrategy.__init__ limit_mode_cfg)) in
  Strategy.getattr_pos (strat e) = None
  /\ 0 < _order_size (Some 100) e
  /\ Config.large_order_threshold_usdt (cfg e) < _order_size (Some 100) e * 100
  /\ map tr_reason (trades (fst (act (SigDict (enter_long_at 100)) e)))
     = ["smart_limit_entry"%string].
Proof.
  repeat split; vm_compute; reflexivity.
Qed.

(** The scenario of the specification: budget 1000, risk 1 percent, entry
    at 100 and exit at an ask of 110 give a quantity of 1/10, a profit of 1,
    a budget of 1001, one ENTER and one EXIT record and no open position. *)
Example paper_trade_round_trip :
  budget round_trip == 1001
  /\ map tr_action (trades round_trip) = ["ENTER"; "EXIT"]%string
  /\ Forall (fun r => tr_qty r == 1 # 10) (trades round_trip)
  /\ Strategy.getattr_pos (strat round_trip) = None
  /\ RiskManager.trade_history (risk_manager round_trip) = [1%Z].
Proof.
  split; [vm_compute; reflexivity|]. split; [vm_compute; reflexivity|].
  split; [|split; vm_compute; reflexivity].
  repeat constructor; vm_compute; reflexivity.
Qed.

End EngineClaims.

(** ** The momentum strategy *)

Section MomentumClaims.

Import MomentumStrategy.

Variable np_mean : list Q -> Q.
Variable np_std : list Q -> Q.

(** With a position open the entry check is skipped and the call ends in
    the exit check. *)
Lemma on_price_with_position (now px : Q) (self : t) (p : Position) :
  pos self = Some p -> 0 < px ->
  snd (on_price np_mean np_std now (Some px) self) =
    Ok (if Qgeb px (entry p * (1 + Config.take_profit_pct (cfg self)))
        then Some (exit_tp px)
        else if Qleb px (entry p * (1 + Config.stop_loss_pct (cfg self)))
        then Some (exit_sl px)
        else None).
Proof.
  intros Hpos Hpx. apply Qleb_false in Hpx.
  unfold on_price. rewrite Hpx. clear Hpx.
  unfold bind, get, modify, ret. cbn. rewrite Hpos. cbn.
  destruct (Qgeb px (entry p * (1 + Config.take_profit_pct (cfg self))));
    [reflexivity|].
  destruct (Qleb px (entry p * (1 + Config.stop_loss_pct (cfg self))));
    reflexivity.
Qed.

(** C6.  For an [on_price(px)] call with a position open at entry e and a
    price px > 0 (one that passes the guard at the head of the method):
    both thresholds are e*(1 + pct), the call returns the exit signal
    priced at px with reason "tp" when px >= e*(1 + take_profit_pct),
    otherwise the exit signal priced at px with reason "sl" when
    px <= e*(1 + stop_loss_pct), and otherwise no signal. *)
Theorem momentum_exit_thresholds (now px : Q) (self : t) (p : Position) :
  pos self = Some p ->
  0 < px ->
  let tp := entry p * (1 + Config.take_profit_pct (cfg self)) in
  let sl := entry p * (1 + Config.stop_loss_pct (cfg self)) in
  (tp <= px ->
     snd (on_price np_mean np_std now (Some px) self) = Ok (Some (exit_tp px)))
  /\ (px < tp -> px <= sl ->
        snd (on_price np_mean np_std now (Some px) self) = Ok (Some (exit_sl px)))
  /\ (px < tp -> sl < px ->
        snd (on_price np_mean np_std now (Some px) self) = Ok None).
Proof.
  intros Hpos Hpx tp sl.
  rewrite (on_price_with_position now px self p Hpos Hpx). fold tp sl.
  repeat split.
  - intros Htp. apply Qgeb_true in Htp. rewrite Htp. reflexivity.
  - intros Htp Hsl. apply Qgeb_false in Htp. apply Qleb_true in Hsl.
    rewrite Htp, Hsl. reflexivity.
  - intros Htp Hsl. apply Qgeb_false in Htp. apply Qleb_false in Hsl.
    rewrite Htp, Hsl. reflexivity.
Qed.

End MomentumClaims.

(** Entry 100 with the default 1 percent and 0.4 percent offsets: 101 is a
    take-profit exit, 100.2 a stop-loss exit. *)
Lemma momentum_exit_thresholds_witness :
  snd (MomentumStrategy.on_price mean_of unit_std 0 (Some 101) momentum_long)
  = Ok (Some (exit_tp 101))
  /\ snd (MomentumStrategy.on_price mean_of unit_std 0 (Some (1002 # 10)) momentum_long)
     = Ok (Some (exit_sl (1002 # 10))).
Proof.
  pose proof (momentum_exit_thresholds mean_of unit_std 0 101 momentum_long
                (mkPosition "LONG" (1 # 10) 100) eq_refl eq_refl) as H1.
  pose proof (momentum_exit_thresholds mean_of unit_std 0 (1002 # 10) momentum_long
                (mkPosition "LONG" (1 # 10) 100) eq_refl eq_refl) as H2.
  split.
  - apply (proj1 H1). vm_compute. discriminate.
  - apply (proj1 (proj2 H2)); [reflexivity | vm_compute; discriminate].
Defined.

(** ** The scalping strategy *)

Section ScalpingClaims.

Import ScalpingStrategy.

Variable ta_ema : nat -> list Q -> list (option Q).
Variable ta_rsi : nat -> list Q -> list (option Q).

Lemma flt_true (a b : option Q) :
  flt a b = true <-> exists x y, a = Some x /\ b = Some y /\ x < y.
Proof.
  unfold flt. split.
  - destruct a as [x|], b as [y|]; try discriminate.
    intros H. exists x, y. apply Qltb_true in H. auto.
  - intros (x & y & -> & -> & H). apply Qltb_true. assumption.
Qed.

(** C9.  [generate_signal] returns no signal while fewer than 22 finalized
    candles exist.  With at least 22 candles, if the 9-period EMA is below
    the 21-period EMA on the previous candle and above it on the latest
    one, or the RSI of the latest candle is below the oversold threshold,
    it returns the enter_long signal priced at the close of the latest
    finalized candle; nothing is asked of the sell condition, which is
    looked at only after the buy condition has failed, and the result is a
    single optional signal. *)
Theorem generate_signal_buy_first (self : t) :
  let n := List.length (candles self) in
  let closes := closes_of self in
  ((n < 22)%nat -> generate_signal ta_ema ta_rsi self = None)
  /\ ((22 <= n)%nat ->
      (cell_lt (ta_ema 9 closes) (ta_ema 21 closes) (n - 2)
       /\ cell_lt (ta_ema 21 closes) (ta_ema 9 closes) (n - 1))
      \/ cell_below (ta_rsi 14 closes) (n - 1) (Config.rsi_oversold (cfg self)) ->
      forall c, nth_error (candles self) (n - 1) = Some c ->
      generate_signal ta_ema ta_rsi self
      = Some (mkSignal "enter_long" (Some (close (snd c))) None)).
Proof.
  intros n closes. unfold generate_signal. fold n. split.
  - intros Hn. apply Nat.ltb_lt in Hn. rewrite Hn. reflexivity.
  - intros Hn Hbuy c Hc.
    assert (Hn' : (n <? 22)%nat = false) by (apply Nat.ltb_ge; assumption).
    rewrite Hn'. fold (closes_of self). fold closes.
    assert (Hclose : nth_error closes (n - 1) = Some (close (snd c))).
    { unfold closes, closes_of. rewrite nth_error_map, Hc. reflexivity. }
    rewrite Hclose.
    assert (Hb : flt (cell (ta_ema 9 closes) (n - 2)) (cell (ta_ema 21 closes) (n - 2))
                 && fgt (cell (ta_ema 9 closes) (n - 1)) (cell (ta_ema 21 closes) (n - 1))
                 || flt (cell (ta_rsi 14 closes) (n - 1)) (Some (Config.rsi_oversold (cfg self)))
                 = true).
    { destruct Hbuy as [[H1 H2]|H3].
      - apply orb_true_intro. left. apply andb_true_intro. split.
        + apply flt_true. exact H1.
        + unfold fgt. apply flt_true. exact H2.
      - apply orb_true_intro. right. apply flt_true.
        destruct H3 as (x & Hx & Hlt). exists x, (Config.rsi_oversold (cfg self)). auto. }
    rewrite Hb. reflexivity.
Qed.

End ScalpingClaims.

(** Twenty-one candles give no signal; the twenty-second, on which the
    fast average crosses above the slow one, gives the entry at its close
    of 200. *)
Lemma generate_signal_buy_first_witness :
  ScalpingStrategy.generate_signal sample_ema sample_rsi scalper_before_cross = None
  /\ ScalpingStrategy.generate_signal sample_ema sample_rsi scalper_after_cross
     = Some (mkSignal "enter_long" (Some 200) None).
Proof.
  split.
  - apply (proj1 (generate_signal_buy_first sample_ema sample_rsi scalper_before_cross)).
    vm_compute. lia.
  - apply (proj2 (generate_signal_buy_first sample_ema sample_rsi scalper_after_cross))
      with (c := flat_candle 21 200).
    + vm_compute. lia.
    + left. split.
      * eexists. eexists. split; [vm_compute; reflexivity|].
        split; [vm_compute; reflexivity|]. vm_compute. reflexivity.
      * eexists. eexists. split; [vm_compute; reflexivity|].
        split; [vm_compute; reflexivity|]. vm_compute. reflexivity.
    + reflexivity.
Defined.

(** ** The stream *)

Section StreamClaims.

Import WebSocketManager.

Variable float_of_str : string -> option Q.
Variable refresh_sentiment : AI_Analyzer.t -> AI_Analyzer.t.

Lemma with_events_nil (s : t) : with_events [] s = s.
Proof. destruct s. unfold with_events. cbn. rewrite app_nil_r. reflexivity. Qed.

Lemma with_events_app (a b : list event) (s : t) :
  with_events b (with_events a s) = with_events (a ++ b) s.
Proof. unfold with_events. cbn. rewrite app_assoc. reflexivity. Qed.

Lemma set_strategy_same (s : t) (st : Strategy.t) :
  strategy s = st -> set_strategy st s = s.
Proof.
  destruct s as [[c st' rm b tr] ai trc]. cbn. intros ->. reflexivity.
Qed.

(** A tick dict built by the router has exactly the keys symbol, price and
    volume. *)
Lemma make_tick_data_keys (tick : pyval) (s : t) :
  match make_tick_data tick s with
  | (s', Ok td) => s' = s /\ keys td = tick_keys /\ lookup "timestamp" td = None
  | (s', Raise e) => s' = s
  end.
Proof.
  destruct tick; cbn; auto.
Qed.

(** Without a timestamp the scalping strategy returns False and keeps its
    state. *)
Lemma on_tick_update_without_timestamp (td : dict) (sc : ScalpingStrategy.t) :
  lookup "timestamp" td = None ->
  ScalpingStrategy.on_tick_update td sc = (sc, Ok false).
Proof.
  intros H. unfold ScalpingStrategy.on_tick_update, dict_get. rewrite H.
  destruct (lookup "price" td) as [[]|]; reflexivity.
Qed.

(** One tick of a ticker payload: at most a call of [on_tick_update]. *)
Lemma route_tick_calls (tick : pyval) (s : t) :
  exists tds,
    fst (route_tick tick s) = with_events (map EvOnTickUpdate tds) s
    /\ Forall routed_tick tds
    /\ (forall m, strategy s = Strategy.Momentum m -> tds = []).
Proof.
  unfold route_tick, bind.
  pose proof (make_tick_data_keys tick s) as Hmk.
  destruct (make_tick_data tick s) as [s' [td|e]].
  - destruct Hmk as (-> & Hk & Hts).
    unfold strategy_on_tick_update, bind, get.
    destruct (strategy s) as [sc|m] eqn:Hst.
    + exists [td]. unfold emit, modify, zoom. cbn.
      rewrite (on_tick_update_without_timestamp td sc Hts). cbn.
      split; [|split].
      * fold (emit_on (EvOnTickUpdate td) s).
        apply set_strategy_same. exact Hst.
      * constructor; [|constructor]. split; [exact Hk|].
        intros sc'. apply on_tick_update_without_timestamp. exact Hts.
      * intros m Hm. discriminate.
    + exists []. cbn. split; [symmetry; apply with_events_nil|].
      split; [constructor|reflexivity].
  - subst s'. exists []. cbn. split; [symmetry; apply with_events_nil|].
    split; [constructor|reflexivity].
Qed.

Lemma strategy_with_events (evs : list event) (s : t) :
  strategy (with_events evs s) = strategy s.
Proof. reflexivity. Qed.

(** A whole ticker payload. *)
Lemma for_each_route_tick_calls (ticks : list pyval) (s : t) :
  exists tds,
    fst (for_each ticks route_tick s) = with_events (map EvOnTickUpdate tds) s
    /\ Forall routed_tick tds
    /\ (forall m, strategy s = Strategy.Momentum m -> tds = []).
Proof.
  revert s. induction ticks as [|tick ticks IH]; intros s.
  - exists []. cbn. split; [symmetry; apply with_events_nil|].
    split; [constructor|reflexivity].
  - cbn [for_each]. unfold bind.
    destruct (route_tick_calls tick s) as (tds1 & H1 & F1 & M1).
    destruct (route_tick tick s) as [s1 [[]|e]]; cbn in H1; subst s1.
    + destruct (IH (with_events (map EvOnTickUpdate tds1) s)) as (tds2 & H2 & F2 & M2).
      exists (tds1 ++ tds2)%list. split; [|split].
      * rewrite H2, with_events_app, map_app. reflexivity.
      * apply Forall_app. split; assumption.
      * intros m Hm. rewrite (M1 m Hm).
        rewrite strategy_with_events in M2. rewrite (M2 m Hm). reflexivity.
    + exists tds1. cbn. auto.
Qed.

Lemma existsb_trade_call_ticks (tds : list dict) :
  existsb is_trade_call (map EvOnTickUpdate tds) = false.
Proof. induction tds; cbn; auto. Qed.

(** C1.  A ticker-channel payload never produces a trade.  The router
    leaves the engine (budget, position, trade records, risk manager) and
    the analyzer untouched; the only calls it makes are [on_tick_update]
    calls, so [approve_trade], [act] and [generate_signal] are not called;
    every tick dict it passes has exactly the keys symbol, price and volume,
    and on such a dict the scalping strategy returns False without a change
    of state; with the momentum strategy, which has no [on_tick_update], not
    even that call is made. *)
Theorem ticker_payload_never_trades (d result : dict) (ch : string) (s : t) :
  lookup "result" d = Some (PDict result) ->
  lookup "channel" result = Some (PStr ch) ->
  startswith "ticker." ch = true ->
  exists tds,
    fst (_route_data float_of_str (PDict d) s) = with_events (map EvOnTickUpdate tds) s
    /\ Forall routed_tick tds
    /\ (forall m, strategy s = Strategy.Momentum m ->
          tds = []
          /\ forall td, strategy_on_tick_update td s = (s, Raise AttributeError))
    /\ existsb is_trade_call (map EvOnTickUpdate tds) = false.
Proof.
  intros Hres Hch Hpre.
  assert (G : exists tds,
    fst (_route_data float_of_str (PDict d) s) = with_events (map EvOnTickUpdate tds) s
    /\ Forall routed_tick tds
    /\ (forall m, strategy s = Strategy.Momentum m -> tds = [])).
  { unfold _route_data, dict_get_default. rewrite Hres, Hch.
    assert (Hne : truthy (PDict result) = true)
      by (destruct result; [discriminate|reflexivity]).
    rewrite Hne. cbn [negb orb].
    destruct (dict_mem "data" result); cbn [negb].
    - unfold bind at 1. cbn [channel_startswith]. unfold ret at 1. rewrite Hpre.
      unfold bind at 1.
      destruct (dict_get "data" result) as [| | | str | | l | kv]; cbn [iter];
        try (exists []; cbn; split; [symmetry; apply with_events_nil|];
             split; [constructor|reflexivity]).
      + apply for_each_route_tick_calls.
      + apply for_each_route_tick_calls.
      + apply for_each_route_tick_calls.
    - exists []. cbn. split; [symmetry; apply with_events_nil|].
      split; [constructor|reflexivity]. }
  destruct G as (tds & H1 & H2 & H3).
  exists tds. split; [exact H1|]. split; [exact H2|]. split.
  - intros m Hm. split; [apply (H3 m Hm)|].
    intros td. unfold strategy_on_tick_update, bind, get. rewrite Hm. reflexivity.
  - apply existsb_trade_call_ticks.
Qed.

(** *** Nothing but the heartbeat answer is sent *)

Lemma sends_app (a b : list event) : sends (a ++ b) = (sends a ++ sends b)%list.
Proof.
  induction a as [|e a IH]; cbn; [reflexivity|].
  destruct e; cbn; rewrite IH; reflexivity.
Qed.

Lemma keeps_ret {A} (a : A) : keeps_sends (ret a).
Proof. intros s. reflexivity. Qed.

Lemma keeps_raise {A} (e : exn) : keeps_sends (@raise t A e).
Proof. intros s. reflexivity. Qed.

Lemma keeps_get : keeps_sends (@get t).
Proof. intros s. reflexivity. Qed.

Lemma keeps_bind {A B} (c : M t A) (k : A -> M t B) :
  keeps_sends c -> (forall a, keeps_sends (k a)) -> keeps_sends (bind c k).
Proof.
  intros Hc Hk s. unfold bind. specialize (Hc s).
  destruct (c s) as [s' [a|e]]; cbn in *.
  - rewrite (Hk a s'). exact Hc.
  - exact Hc.
Qed.

Lemma keeps_modify (f : t -> t) :
  (forall s, trace (f s) = trace s) -> keeps_sends (modify f).
Proof. intros H s. cbn. rewrite H. reflexivity. Qed.

Lemma keeps_emit (e : event) :
  (forall f, e <> EvSend f) -> keeps_sends (emit e).
Proof.
  intros H s. cbn. rewrite sends_app. destruct e; cbn; try apply app_nil_r.
  exfalso. apply (H frame). reflexivity.
Qed.

Lemma keeps_zoom {T A} (proj : t -> T) (upd : T -> t -> t) (c : M T A) :
  (forall x s, trace (upd x s) = trace s) -> keeps_sends (zoom proj upd c).
Proof.
  intros H s. unfold zoom. destruct (c (proj s)) as [x r]. cbn. rewrite H. reflexivity.
Qed.

Lemma keeps_for_each {A} (l : list A) (body : A -> M t unit) :
  (forall x, keeps_sends (body x)) -> keeps_sends (for_each l body).
Proof.
  intros H. induction l as [|x l IH]; cbn [for_each].
  - apply keeps_ret.
  - apply keeps_bind; [apply H|intros _; exact IH].
Qed.

Ltac keeps_step :=
  first
    [ apply keeps_ret
    | apply keeps_raise
    | apply keeps_get
    | apply keeps_emit; intros ? ?; discriminate
    | apply keeps_modify; intros ?; reflexivity
    | apply keeps_zoom; intros ? ?; reflexivity
    | apply keeps_bind; [|intros ?]
    | match goal with
      | |- keeps_sends (if ?b then _ else _) => destruct b
      | |- keeps_sends (match ?x with _ => _ end) => destruct x
      end ].

Lemma keeps_get_method (v : pyval) (k : string) : keeps_sends (@get_method t v k).
Proof. destruct v; cbn; repeat keeps_step. Qed.

Lemma keeps_route_tick (tick : pyval) : keeps_sends (route_tick tick).
Proof.
  unfold route_tick, make_tick_data, strategy_on_tick_update.
  repeat first [apply keeps_get_method | keeps_step].
Qed.

Lemma keeps_route_data (data : pyval) : keeps_sends (_route_data float_of_str data).
Proof.
  unfold _route_data, channel_startswith, strategy_on_order_book_update, iter, index0.
  repeat first [apply keeps_for_each; intros ?; apply keeps_route_tick | keeps_step].
Qed.

Lemma keeps_refresh : keeps_sends (call_refresh_sentiment refresh_sentiment).
Proof. unfold call_refresh_sentiment. repeat keeps_step. Qed.

(** A frame that is not a heartbeat request gets no answer. *)
Lemma listen_step_sends_nothing (m : message) (s : t) :
  is_heartbeat_message m = false ->
  sends (trace (fst (listen_step float_of_str refresh_sentiment m s))) = sends (trace s).
Proof.
  intros H. unfold listen_step, json_loads.
  destruct m as [raw|data]; [reflexivity|].
  unfold bind at 1, ret at 1.
  destruct data as [| | | | | |d]; try reflexivity.
  cbn in H. rewrite H.
  apply (keeps_bind (call_refresh_sentiment refresh_sentiment)
           (fun _ => _route_data float_of_str (PDict d))).
  - apply keeps_refresh.
  - intros _. apply keeps_route_data.
Qed.

(** A heartbeat request is answered, and that is all the turn does. *)
Lemma listen_step_heartbeat (d : dict) (s : t) :
  is_heartbeat d = true ->
  listen_step float_of_str refresh_sentiment (Json (PDict d)) s
  = (emit_on (EvSend (respond_heartbeat d)) s, Ok tt).
Proof.
  intros H. unfold listen_step, json_loads, bind, ret. rewrite H. reflexivity.
Qed.

Lemma for_each_app {A} (a b : list A) (body : A -> M t unit) (s : t) :
  for_each (a ++ b) body s =
  match for_each a body s with
  | (s', Ok _) => for_each b body s'
  | (s', Raise e) => (s', Raise e)
  end.
Proof.
  revert s. induction a as [|x a IH]; intros s; cbn [for_each app].
  - reflexivity.
  - unfold bind. destruct (body x s) as [s1 [[]|e]]; [apply IH|reflexivity].
Qed.

(** C10.  For a heartbeat frame reached by the receive loop (the frames
    before it were processed without an exception): the turn for that
    frame sends exactly one response, which echoes the id of the request
    under the method public/respond-heartbeat, and does nothing else - no
    sentiment refresh, no routing, no change of any component; the frames
    after it are processed from the state in which the response has been
    sent; and a turn for a frame that is not a heartbeat request sends
    nothing. *)
Theorem heartbeat_answered_once (pre post : list message) (d : dict) (s : t) :
  is_heartbeat d = true ->
  snd (listen float_of_str refresh_sentiment pre s) = Ok tt ->
  let s1 := fst (listen float_of_str refresh_sentiment pre s) in
  let answer := PDict [("id"%string, dict_get "id" d);
                       ("method"%string, PStr "public/respond-heartbeat")] in
  listen_step float_of_str refresh_sentiment (Json (PDict d)) s1
  = (with_events [EvSend answer] s1, Ok tt)
  /\ listen float_of_str refresh_sentiment (pre ++ Json (PDict d) :: post) s
     = for_each post (listen_step float_of_str refresh_sentiment)
         (with_events [EvSend answer] s1)
  /\ sends (trace (with_events [EvSend answer] s1)) = (sends (trace s1) ++ [answer])%list
  /\ (forall m s', is_heartbeat_message m = false ->
        sends (trace (fst (listen_step float_of_str refresh_sentiment m s')))
        = sends (trace s')).
Proof.
  intros Hhb Hpre s1 answer.
  assert (Hstep : listen_step float_of_str refresh_sentiment (Json (PDict d)) s1
                  = (with_events [EvSend answer] s1, Ok tt))
    by (apply listen_step_heartbeat; exact Hhb).
  split; [exact Hstep|]. split; [|split].
  - unfold listen in *. unfold bind in *. subst s1.
    destruct (call_refresh_sentiment refresh_sentiment s) as [s0 [[]|e]];
      [|cbn in Hpre; discriminate].
    rewrite for_each_app.
    destruct (for_each pre (listen_step float_of_str refresh_sentiment) s0)
      as [s1 [[]|e]]; [|cbn in Hpre; discriminate].
    cbn [fst] in Hstep. cbn [for_each fst]. unfold bind. rewrite Hstep. reflexivity.
  - cbn. rewrite sends_app. reflexivity.
  - intros m s' Hm. apply listen_step_sends_nothing. exact Hm.
Qed.

End StreamClaims.

(** A ticker payload with one tick on a fresh scalping bot: one
    [on_tick_update] call and no other effect. *)
Lemma ticker_payload_never_trades_witness :
  let m := manager_of (Strategy.Scalping (ScalpingStrategy.__init__ Config.default)) in
  exists tds,
    fst (WebSocketManager._route_data no_float (PDict ticker_frame) m)
    = with_events (map WebSocketManager.EvOnTickUpdate tds) m
    /\ Forall routed_tick tds
    /\ (forall mo, WebSocketManager.strategy m = Strategy.Momentum mo ->
          tds = []
          /\ forall td, WebSocketManager.strategy_on_tick_update td m
                        = (m, Raise AttributeError))
    /\ existsb is_trade_call (map WebSocketManager.EvOnTickUpdate tds) = false.
Proof.
  intros m.
  exact (ticker_payload_never_trades no_float ticker_frame
           [("channel"%string, PStr "ticker.BTC_USDT");
            ("data"%string,
             PList [PDict [("i"%string, PStr "BTC_USDT");
                           ("a"%string, PStr "50000.5");
                           ("v"%string, PStr "12.5")]])]
           "ticker.BTC_USDT" m eq_refl eq_refl eq_refl).
Defined.

(** A ticker payload, then a heartbeat request, then another ticker
    payload: the single frame sent is the answer with the id of the
    request. *)
Lemma heartbeat_answered_once_witness :
  let m := manager_of (Strategy.Scalping (ScalpingStrategy.__init__ Config.default)) in
  sends (WebSocketManager.trace
           (fst (WebSocketManager.listen no_float same_sentiment
                   [WebSocketManager.Json (PDict ticker_frame);
                    WebSocketManager.Json (PDict heartbeat_frame);
                    WebSocketManager.Json (PDict ticker_frame)] m)))
  = [PDict [("id"%string, PNum 1587523073344);
            ("method"%string, PStr "public/respond-heartbeat")]].
Proof.
  intros m.
  pose proof (heartbeat_answered_once no_float same_sentiment
                [WebSocketManager.Json (PDict ticker_frame)]
                [WebSocketManager.Json (PDict ticker_frame)]
                heartbeat_frame m eq_refl eq_refl) as H.
  cbv zeta in H. destruct H as (_ & H & _).
  cbn [app] in H. rewrite H. vm_compute. reflexivity.
Defined.

(** * Further properties of the components *)

(** ** Bounded windows *)

Lemma tl_skipn {A} (n : nat) (l : list A) : tl (skipn n l) = skipn (S n) l.
Proof.
  revert l. induction n as [|n IH]; intros l.
  - destruct l; reflexivity.
  - destruct l as [|x l]; [reflexivity|]. cbn [skipn]. rewrite IH.
    destruct l; reflexivity.
Qed.

Lemma lastn_length {A} (n : nat) (l : list A) : (List.length (lastn n l) <= n)%nat.
Proof. unfold lastn. rewrite length_skipn. lia. Qed.

Lemma Forall_lastn {A} (P : A -> Prop) (n : nat) (l : list A) :
  Forall P l -> Forall P (lastn n l).
Proof.
  intros H. unfold lastn.
  rewrite <- (firstn_skipn (List.length l - n) l) in H.
  apply Forall_app in H. apply H.
Qed.

(** Appending to a bounded deque that holds the last items of a list gives
    the last items of the longer list. *)
Lemma deque_append_lastn {A} (W : nat) (l : list A) (x : A) :
  deque_append W (lastn W l) x = lastn W (l ++ [x]).
Proof.
  unfold deque_append, lastn. rewrite length_app, length_skipn. cbn [List.length].
  destruct (Nat.eqb_spec W 0) as [->|HW].
  - rewrite !Nat.sub_0_r.
    rewrite skipn_all2 by lia.
    symmetry. apply skipn_all2. rewrite length_app. cbn. lia.
  - destruct (Nat.ltb_spec (List.length l - (List.length l - W)) W) as [Hlt|Hge].
    + assert (E : (List.length l - W = 0)%nat) by lia. rewrite E. cbn [skipn].
      replace (List.length l + 1 - W)%nat with 0%nat by lia. reflexivity.
    + rewrite tl_skipn.
      replace (List.length l + 1 - W)%nat with (S (List.length l - W)) by lia.
      rewrite skipn_app.
      replace (S (List.length l - W) - List.length l)%nat with 0%nat by lia.
      reflexivity.
Qed.

(** ** The risk gate over a session *)

Section RiskGateSessions.

Import RiskManager.

Lemma run_ops_cfg (os : list op) (rm : t) : cfg (run_ops os rm) = cfg rm.
Proof.
  revert rm. induction os as [|o os IH]; intros rm; cbn; [reflexivity|].
  rewrite IH. destruct o as [ai s b|pnl]; cbn.
  - apply (approve_trade_frame ai s b rm).
  - apply (update_trade_history_frame pnl rm).
Qed.

Lemma run_ops_window (os : list op) (rm : t) (l : list Z) :
  trade_history rm = lastn (Config.throttle_window (cfg rm)) l ->
  trade_history (run_ops os rm)
  = lastn (Config.throttle_window (cfg rm)) (l ++ outcomes_of_ops os).
Proof.
  revert rm l. induction os as [|o os IH]; intros rm l H.
  - cbn. rewrite app_nil_r. exact H.
  - destruct o as [ai s b|pnl].
    + change (run_ops (OpApprove ai s b :: os) rm)
        with (run_ops os (fst (approve_trade ai s b rm))).
      change (outcomes_of_ops (OpApprove ai s b :: os)) with (outcomes_of_ops os).
      destruct (approve_trade_frame ai s b rm) as (Hc & _ & Hh & _).
      cbv zeta in Hc, Hh. rewrite <- Hc. apply IH. rewrite Hc, Hh. exact H.
    + change (run_ops (OpUpdate pnl :: os) rm)
        with (run_ops os (fst (update_trade_history pnl rm))).
      change (outcomes_of_ops (OpUpdate pnl :: os))
        with ([outcome_of pnl] ++ outcomes_of_ops os)%list.
      destruct (update_trade_history_frame pnl rm) as (Hc & _).
      cbv zeta in Hc. rewrite <- Hc, app_assoc.
      apply IH. rewrite Hc, update_trade_history_window, H.
      apply deque_append_lastn.
Qed.

Lemma outcomes_of_ops_binary (os : list op) :
  Forall (fun x => x = 0%Z \/ x = 1%Z) (outcomes_of_ops os).
Proof.
  induction os as [|o os IH]; cbn; [constructor|].
  destruct o as [ai s b|pnl]; cbn; [exact IH|].
  constructor; [|exact IH]. unfold outcome_of. destruct (Qgtb pnl 0); auto.
Qed.

(** X1.  In every session that starts from [__init__] the outcome window
    holds exactly the outcomes of the last throttle_window trades reported
    through [update_trade_history], oldest first; it never grows beyond
    throttle_window and holds nothing but 0 and 1.  [approve_trade] calls in
    between do not touch it. *)
Theorem outcome_window_holds_latest (c : Config.t) (os : list op) :
  trade_history (run_ops os (__init__ c))
  = lastn (Config.throttle_window c) (outcomes_of_ops os)
  /\ (List.length (trade_history (run_ops os (__init__ c)))
      <= Config.throttle_window c)%nat
  /\ Forall (fun x => x = 0%Z \/ x = 1%Z) (trade_history (run_ops os (__init__ c))).
Proof.
  assert (E : trade_history (run_ops os (__init__ c))
              = lastn (Config.throttle_window c) (outcomes_of_ops os)).
  { apply (run_ops_window os (__init__ c) []). cbn. unfold lastn.
    destruct (0 - Config.throttle_window c)%nat; reflexivity. }
  rewrite E. split; [reflexivity|]. split.
  - apply lastn_length.
  - apply Forall_lastn. apply outcomes_of_ops_binary.
Qed.

(** X2.  [update_trade_history] never raises the throttle flag.  With a
    window of at least one outcome it returns normally, and the flag after
    the call is set exactly when it was set before and the mean of the new
    window is still below the threshold.  With a window of capacity zero,
    an empty history and the flag set, the mean divides by zero: the call
    raises ZeroDivisionError and the manager is unchanged. *)
Theorem update_trade_history_outcomes (pnl : Q) (rm : t) :
  ((1 <= Config.throttle_window (cfg rm))%nat ->
     snd (update_trade_history pnl rm) = Ok tt
     /\ trading_paused_throttle (fst (update_trade_history pnl rm))
        = trading_paused_throttle rm
          && Qltb (mean_outcome (trade_history (fst (update_trade_history pnl rm))))
                  (Config.throttle_threshold_pct (cfg rm)))
  /\ (Config.throttle_window (cfg rm) = 0%nat -> trade_history rm = [] ->
      trading_paused_throttle rm = true ->
      update_trade_history pnl rm = (rm, Raise ZeroDivisionError))
  /\ (trading_paused_throttle rm = false ->
      update_trade_history pnl rm
      = (set_trade_history
           (deque_append (Config.throttle_window (cfg rm)) (trade_history rm)
                         (outcome_of pnl)) rm, Ok tt)).
Proof.
  split; [|split].
  - intros HW.
    destruct (update_trade_history_throttle pnl rm HW) as [Hok Hflag].
    split; [exact Hok|]. rewrite Hflag, update_trade_history_window.
    unfold Qltb, Qgeb. reflexivity.
  - intros HW Hh Hf.
    unfold update_trade_history, win_rate_of, truediv, bind, get, ret, raise, modify.
    cbn. rewrite HW, Hh, Hf. cbn.
    destruct rm as [c sb dd h th lg]. cbn in *. subst. reflexivity.
  - intros Hf.
    unfold update_trade_history, bind, get, ret, modify. cbn. rewrite Hf. reflexivity.
Qed.

(** Window 2, threshold 1/2, flag set after two losses: one win brings
    the mean to 1/2 and the flag goes down. *)
Lemma update_trade_history_outcomes_witness :
  let rm := set_trading_paused_throttle true manager_after_two_losses in
  snd (update_trade_history 5 rm) = Ok tt
  /\ trading_paused_throttle (fst (update_trade_history 5 rm)) = false.
Proof.
  intros rm.
  assert (HW : (1 <= Config.throttle_window (cfg rm))%nat) by (vm_compute; lia).
  destruct (proj1 (update_trade_history_outcomes 5 rm) HW) as [H1 H2].
  split; [exact H1|]. rewrite H2. vm_compute. reflexivity.
Defined.

(** X3.  [approve_trade] is a check: whatever the signal, the budget and
    the sentiment, and whether it returns or raises, it leaves the
    configuration, the starting budget, the outcome window and the logger
    as they were, and a pause flag that was set is still set afterwards. *)
Theorem approve_trade_only_raises_flags
    (ai : AI_Analyzer.t) (signal : SignalArg) (cb : Q) (rm : t) :
  cfg (fst (approve_trade ai signal cb rm)) = cfg rm
  /\ starting_budget (fst (approve_trade ai signal cb rm)) = starting_budget rm
  /\ trade_history (fst (approve_trade ai signal cb rm)) = trade_history rm
  /\ log (fst (approve_trade ai signal cb rm)) = log rm
  /\ implb (trading_paused_drawdown rm)
           (trading_paused_drawdown (fst (approve_trade ai signal cb rm))) = true
  /\ implb (trading_paused_throttle rm)
           (trading_paused_throttle (fst (approve_trade ai signal cb rm))) = true.
Proof.
  destruct (approve_trade_frame ai signal cb rm) as (H1 & H2 & H3 & H4 & H5 & H6).
  cbv zeta in *. repeat split; try assumption.
  - destruct (trading_paused_drawdown rm); [rewrite H5; reflexivity|reflexivity].
  - destruct (trading_paused_throttle rm); [rewrite H6; reflexivity|reflexivity].
Qed.

End RiskGateSessions.

(** ** The execution engine over a session *)

Section EngineSessions.

Import ExecutionEngine.

Lemma getattr_pos_setattr_pos (p : option Position) (st : Strategy.t) :
  Strategy.getattr_pos (Strategy.setattr_pos p st) = p.
Proof. destruct st; reflexivity. Qed.

Lemma exit_price_of_setattr_pos (p : option Position) (st : Strategy.t) (d : Signal) :
  exit_price_of (Strategy.setattr_pos p st) d = exit_price_of st d.
Proof. destruct st; reflexivity. Qed.

Lemma getattr_latest_ask_exit_price (st : Strategy.t) (d : Signal) :
  Strategy.getattr_latest_ask (price d) st = exit_price_of st d.
Proof. destruct st; reflexivity. Qed.

Lemma ledger_state_snoc (acts : list string) (a : string) :
  ledger_state (acts ++ [a]) = ledger_step (ledger_state acts) a.
Proof. unfold ledger_state. rewrite fold_left_app. reflexivity. Qed.

(** A positive order size comes from a positive price. *)
Lemma order_size_positive_price (p : Q) (e : t) :
  0 < _order_size (Some p) e -> 0 < p.
Proof.
  unfold _order_size. destruct (Qleb p 0) eqn:Hp.
  - intros H. discriminate.
  - intros _. apply Qleb_false. exact Hp.
Qed.

(** A positive order size is the risked notional divided by the price. *)
Lemma order_size_positive_value (p : Q) (e : t) :
  0 < _order_size (Some p) e ->
  _order_size (Some p) e = budget e * Config.risk_per_trade_pct (cfg e) / p.
Proof.
  intros H. pose proof (order_size_positive_price p e H) as Hp.
  unfold _order_size, py_max in *. apply Qleb_false in Hp. rewrite Hp in *.
  destruct (Qgtb 0 (budget e * Config.risk_per_trade_pct (cfg e) / p));
    [discriminate|reflexivity].
Qed.

(** An entry from a flat engine with a positive size. *)
Lemma enter_long_branch_fill (e : t) (d : Signal) (p : Q) :
  Strategy.getattr_pos (strat e) = None ->
  Strategy.getattr_latest_bid (price d) (strat e) = Some p ->
  0 < _order_size (Some p) e ->
  exists r,
    enter_long_branch d e =
      (mk (cfg e)
          (Strategy.setattr_pos
             (Some (mkPosition "LONG" (_order_size (Some p) e) p)) (strat e))
          (risk_manager e) (budget e)
          (trades e ++ [mkTrade (Config.symbol_ccxt (cfg e)) "ENTER" "LONG" p
                                (_order_size (Some p) e) r None])%list,
       Ok tt).
Proof.
  intros Hpos Hbid Hq.
  unfold enter_long_branch, bind, get. rewrite Hpos, Hbid.
  apply Qleb_false in Hq.
  destruct ((lower (Config.execution_mode (cfg e)) =? "auto")%string
            && Qgtb (_order_size (Some p) e * p)
                    (Config.large_order_threshold_usdt (cfg e))
            || (lower (Config.execution_mode (cfg e)) =? "twap")%string);
    rewrite Hq; eexists; reflexivity.
Qed.

Lemma mean_defined_update (pnl : Q) (rm : RiskManager.t) :
  mean_defined rm ->
  snd (RiskManager.update_trade_history pnl rm) = Ok tt
  /\ mean_defined (fst (RiskManager.update_trade_history pnl rm)).
Proof.
  intros [Hf|HW].
  - unfold RiskManager.update_trade_history, bind, get, ret, modify. cbn.
    rewrite Hf. cbn. split; [reflexivity|]. left. exact Hf.
  - destruct (update_trade_history_throttle pnl rm HW) as [Hok _].
    split; [exact Hok|]. right.
    destruct (update_trade_history_frame pnl rm) as (Hc & _). cbv zeta in Hc.
    rewrite Hc. exact HW.
Qed.

Lemma act_effects (d : SignalArg) (e : t) : act_effect e (fst (act d e)).
Proof.
  destruct d as [[|]|d]; cbn [act]; try (apply effect_none; reflexivity).
  destruct (action d =? "exit")%string.
  - unfold exit_branch, bind, get.
    destruct (Strategy.getattr_pos (strat e)) as [pos|] eqn:Hpos;
      [|apply effect_none; cbn; auto].
    destruct (Strategy.getattr_latest_ask (price d) (strat e)) as [x|];
      [|apply effect_none; cbn; auto].
    destruct (Qleb (entry pos) 0 || Qleb (qty pos) 0) eqn:Hbad.
    + apply effect_cleared with (pos := pos); cbn; auto.
      * apply orb_true_iff in Hbad. destruct Hbad as [H|H]; apply Qleb_true in H; auto.
      * apply getattr_pos_setattr_pos.
    + unfold modify, zoom, ret. cbn -[RiskManager.update_trade_history].
      destruct (RiskManager.update_trade_history ((x - entry pos) * qty pos)
                  (risk_manager e)) as [rm' [[]|ex]] eqn:Hup.
      * apply effect_exit with (pos := pos) (x := x)
          (r := mkTrade (Config.symbol_ccxt (cfg e)) "EXIT" (side pos) x (qty pos)
                        (reason_or_empty d) (Some ((x - entry pos) * qty pos)));
          [exact Hpos | reflexivity | reflexivity | reflexivity | reflexivity
          | rewrite Hup; reflexivity | apply getattr_pos_setattr_pos].
      * apply effect_exit_raised with (pos := pos) (x := x);
          [exact Hpos | rewrite Hup; discriminate | reflexivity | reflexivity].
  - destruct (action d =? "enter_long")%string; [|apply effect_none; reflexivity].
    unfold enter_long_branch, bind, get.
    destruct (Strategy.getattr_pos (strat e)) as [pos|] eqn:Hpos;
      [apply effect_none; cbn; auto|].
    destruct (Strategy.getattr_latest_bid (price d) (strat e)) as [p|];
      [|apply effect_none; cbn; auto].
    destruct (Qleb (_order_size (Some p) e) 0) eqn:Hq.
    + destruct ((lower (Config.execution_mode (cfg e)) =? "auto")%string
                && Qgtb (_order_size (Some p) e * p)
                        (Config.large_order_threshold_usdt (cfg e))
                || (lower (Config.execution_mode (cfg e)) =? "twap")%string);
        apply effect_none; cbn; auto.
    + assert (Hpos' : 0 < _order_size (Some p) e) by (apply Qleb_false; exact Hq).
      destruct ((lower (Config.execution_mode (cfg e)) =? "auto")%string
                && Qgtb (_order_size (Some p) e * p)
                        (Config.large_order_threshold_usdt (cfg e))
                || (lower (Config.execution_mode (cfg e)) =? "twap")%string);
        (eapply effect_enter with (p := p); cbn -[_order_size]; try reflexivity; auto;
         [apply (order_size_positive_price p e Hpos') | apply getattr_pos_setattr_pos]).
Qed.

Lemma act_ledger_consistent (d : SignalArg) (e : t) :
  ledger_consistent e -> ledger_consistent (fst (act d e)).
Proof.
  intros [Hl Hp]. unfold ledger_consistent.
  destruct (act_effects d e)
    as [Ht Hb Hr Hs
       |pos Hpos Hbad Ht Hb Hr Hs
       |pos x r Hpos Ha Hpnl Ht Hb Hr Hs
       |pos x Hpos Hup Ht Hs
       |p r Hpos Hprice Hq Ha Hpnl Ht Hb Hr Hs].
  - rewrite Ht, Hs. split; assumption.
  - exfalso. destruct (Hp pos Hpos) as [He Hqty].
    destruct Hbad as [H|H]; [apply (Qlt_not_le _ _ He H)|apply (Qlt_not_le _ _ Hqty H)].
  - rewrite Ht, Hs, map_app. cbn [map]. rewrite ledger_state_snoc, Hl, Hpos, Ha.
    split; [reflexivity|]. intros p Hp'. discriminate.
  - rewrite Ht, Hs. split; assumption.
  - rewrite Ht, Hs, map_app. cbn [map]. rewrite ledger_state_snoc, Hl, Hpos, Ha.
    split; [reflexivity|]. intros p' Hp'. injection Hp' as <-. cbn. split; assumption.
Qed.

(** X5.  The trade log and the position stay in step.  From an engine
    whose log is consistent (in particular a fresh engine: empty log, no
    position), after any sequence of decisions handed to [act] the log
    still alternates ENTER, EXIT, ENTER, ... from its start, its last
    record is an ENTER exactly when a position is open, and an open
    position has a positive entry price and a positive quantity. *)
Theorem trade_log_alternates (ds : list SignalArg) (e : t) :
  ledger_consistent e -> ledger_consistent (run_acts ds e).
Proof.
  revert e. induction ds as [|d ds IH]; intros e H; cbn; [exact H|].
  apply IH. apply act_ledger_consistent. exact H.
Qed.

Lemma realized_pnl_snoc (l : list TradeRecord) (r : TradeRecord) :
  realized_pnl (l ++ [r])
  == realized_pnl l + match tr_pnl r with Some x => x | None => 0 end.
Proof.
  induction l as [|a l IH]; cbn.
  - destruct (tr_pnl r); lra.
  - fold (realized_pnl (l ++ [r])). fold (realized_pnl l).
    destruct (tr_pnl a); rewrite IH; lra.
Qed.

Lemma act_books (d : SignalArg) (e : t) :
  mean_defined (risk_manager e) ->
  mean_defined (risk_manager (fst (act d e)))
  /\ (exists new, trades (fst (act d e)) = (trades e ++ new)%list
                  /\ (List.length new <= 1)%nat)
  /\ budget (fst (act d e)) - realized_pnl (trades (fst (act d e)))
     == budget e - realized_pnl (trades e).
Proof.
  intros Hm.
  destruct (act_effects d e)
    as [Ht Hb Hr Hs
       |pos Hpos Hbad Ht Hb Hr Hs
       |pos x r Hpos Ha Hpnl Ht Hb Hr Hs
       |pos x Hpos Hup Ht Hs
       |p r Hpos Hprice Hq Ha Hpnl Ht Hb Hr Hs].
  - rewrite Ht, Hb, Hr. split; [exact Hm|]. split; [|reflexivity].
    exists []. rewrite app_nil_r. split; [reflexivity|cbn; lia].
  - rewrite Ht, Hb, Hr. split; [exact Hm|]. split; [|reflexivity].
    exists []. rewrite app_nil_r. split; [reflexivity|cbn; lia].
  - rewrite Ht, Hb, Hr. split; [apply mean_defined_update; exact Hm|].
    split; [exists [r]; split; [reflexivity|cbn; lia]|].
    rewrite realized_pnl_snoc, Hpnl. lra.
  - exfalso. apply Hup. apply mean_defined_update. exact Hm.
  - rewrite Ht, Hb, Hr. split; [exact Hm|].
    split; [exists [r]; split; [reflexivity|cbn; lia]|].
    rewrite realized_pnl_snoc, Hpnl. lra.
Qed.

(** X6.  The books balance.  On an engine whose risk manager can take the
    mean of its window (throttle flag down, or a window of at least one
    outcome), after any sequence of decisions handed to [act] the trade
    log is the old log with records appended, and the budget has moved by
    exactly the sum of the pnl of the appended records: budget minus
    realized pnl is the same before and after. *)
Theorem budget_tracks_realized_pnl (ds : list SignalArg) (e : t) :
  mean_defined (risk_manager e) ->
  (exists new, trades (run_acts ds e) = (trades e ++ new)%list)
  /\ budget (run_acts ds e) - realized_pnl (trades (run_acts ds e))
     == budget e - realized_pnl (trades e).
Proof.
  revert e. induction ds as [|d ds IH]; intros e Hm; cbn [run_acts fold_left].
  - split; [exists []; rewrite app_nil_r; reflexivity|reflexivity].
  - destruct (act_books d e Hm) as (Hm' & (new1 & Ht1 & _) & Hb1).
    destruct (IH (fst (act d e)) Hm') as ((new2 & Ht2) & Hb2).
    fold (run_acts ds (fst (act d e))). split.
    + exists (new1 ++ new2)%list. rewrite Ht2, Ht1, app_assoc. reflexivity.
    + rewrite Hb2. exact Hb1.
Qed.

(** X7.  One call of [act], whatever the decision and whether it returns
    or raises, appends at most one record to the trade log and never
    rewrites or drops the records already there. *)
Theorem act_appends_at_most_one_record (d : SignalArg) (e : t) :
  exists new, trades (fst (act d e)) = (trades e ++ new)%list
              /\ (List.length new <= 1)%nat.
Proof.
  destruct (act_effects d e)
    as [Ht Hb Hr Hs
       |pos Hpos Hbad Ht Hb Hr Hs
       |pos x r Hpos Ha Hpnl Ht Hb Hr Hs
       |pos x Hpos Hup Ht Hs
       |p r Hpos Hprice Hq Ha Hpnl Ht Hb Hr Hs];
    rewrite Ht;
    first [ exists []; rewrite app_nil_r; split; [reflexivity|cbn; lia]
          | exists [r]; split; [reflexivity|cbn; lia] ].
Qed.

(** X8.  A round trip.  From a flat engine, an entry that fills at price
    p with a positive size q = [_order_size(p)], followed by an exit that
    fills at price x: the budget ends at budget + (x - p) * q, the log
    gains one ENTER record without pnl and one EXIT record with pnl
    (x - p) * q, the position is closed, and the risk manager has been
    given the outcome of that pnl, which is a loss whenever x is not above
    p (a break-even trade is recorded as a loss). *)
Theorem entry_then_exit_settles (e : t) (d1 d2 : Signal) (p x : Q) :
  action d1 = "enter_long"%string ->
  action d2 = "exit"%string ->
  Strategy.getattr_pos (strat e) = None ->
  Strategy.getattr_latest_bid (price d1) (strat e) = Some p ->
  exit_price_of (strat e) d2 = Some x ->
  0 < _order_size (Some p) e ->
  mean_defined (risk_manager e) ->
  let q := _order_size (Some p) e in
  let e2 := run_acts [SigDict d1; SigDict d2] e in
  budget e2 = budget e + (x - p) * q
  /\ map tr_action (trades e2) = (map tr_action (trades e) ++ ["ENTER"; "EXIT"])%list%string
  /\ map tr_pnl (trades e2) = (map tr_pnl (trades e) ++ [None; Some ((x - p) * q)])%list
  /\ Strategy.getattr_pos (strat e2) = None
  /\ RiskManager.trade_history (risk_manager e2)
     = deque_append (Config.throttle_window (RiskManager.cfg (risk_manager e)))
                    (RiskManager.trade_history (risk_manager e))
                    (outcome_of ((x - p) * q))
  /\ (x <= p -> outcome_of ((x - p) * q) = 0%Z).
Proof.
  intros Ha1 Ha2 Hflat Hbid Hask Hq0 Hm q e2.
  pose proof (order_size_positive_price p e Hq0) as Hp.
  destruct (enter_long_branch_fill e d1 p Hflat Hbid Hq0) as (r & Hent).
  assert (Hqdef : q = _order_size (Some p) e) by reflexivity.
  assert (Hq : 0 < q) by exact Hq0.
  clearbody q. rewrite <- Hqdef in Hent.
  assert (E1 : act (SigDict d1) e
               = (mk (cfg e)
                     (Strategy.setattr_pos (Some (mkPosition "LONG" q p)) (strat e))
                     (risk_manager e) (budget e)
                     (trades e ++ [mkTrade (Config.symbol_ccxt (cfg e)) "ENTER" "LONG" p
                                           q r None])%list, Ok tt)).
  { cbn [act]. rewrite Ha1. cbn [String.eqb Ascii.eqb Bool.eqb]. exact Hent. }
  set (e1 := mk (cfg e)
                (Strategy.setattr_pos (Some (mkPosition "LONG" q p)) (strat e))
                (risk_manager e) (budget e)
                (trades e ++ [mkTrade (Config.symbol_ccxt (cfg e)) "ENTER" "LONG" p
                                      q r None])%list) in *.
  assert (HW : snd (RiskManager.update_trade_history ((x - p) * q) (risk_manager e))
               = Ok tt) by (apply mean_defined_update; exact Hm).
  assert (E2 : act (SigDict d2) e1
               = (mk (cfg e) (Strategy.setattr_pos None (strat e1))
                     (fst (RiskManager.update_trade_history ((x - p) * q) (risk_manager e)))
                     (budget e + (x - p) * q)
                     (trades e1 ++ [mkTrade (Config.symbol_ccxt (cfg e)) "EXIT" "LONG" x
                                            q (reason_or_empty d2) (Some ((x - p) * q))])%list,
                  Ok tt)).
  { cbn [act]. rewrite Ha2. cbn [String.eqb Ascii.eqb Bool.eqb].
    unfold exit_branch, bind, get.
    assert (Hp1 : Strategy.getattr_pos (strat e1) = Some (mkPosition "LONG" q p))
      by apply getattr_pos_setattr_pos.
    assert (Ha : Strategy.getattr_latest_ask (price d2) (strat e1) = Some x).
    { rewrite getattr_latest_ask_exit_price. unfold e1. cbn [strat].
      rewrite exit_price_of_setattr_pos. exact Hask. }
    rewrite Hp1, Ha. cbn [entry qty side].
    assert (Hpb : Qleb p 0 = false) by (apply Qleb_false; exact Hp).
    assert (Hqb : Qleb q 0 = false) by (apply Qleb_false; exact Hq).
    rewrite Hpb, Hqb. cbn [orb].
    unfold modify, zoom, ret. cbn -[RiskManager.update_trade_history].
    destruct (RiskManager.update_trade_history ((x - p) * q) (risk_manager e))
      as [rm' res]. cbn in HW. subst res. reflexivity. }
  assert (E : e2 = fst (act (SigDict d2) e1)).
  { unfold e2, run_acts. cbn [fold_left]. rewrite E1. reflexivity. }
  rewrite E, E2. cbn [fst budget trades strat risk_manager].
  split; [reflexivity|].
  split; [unfold e1; cbn [trades]; rewrite !map_app, <- app_assoc; reflexivity|].
  split; [unfold e1; cbn [trades]; rewrite !map_app, <- app_assoc; reflexivity|].
  split; [apply getattr_pos_setattr_pos|].
  split; [rewrite update_trade_history_window; reflexivity|].
  intros Hxp. unfold outcome_of.
  assert (Hloss : Qgtb ((x - p) * q) 0 = false).
  { apply Qgtb_false. setoid_replace 0 with (0 * q) by ring.
    apply Qmult_le_compat_r; [lra|apply Qlt_le_weak; exact Hq]. }
  rewrite Hloss. reflexivity.
Qed.

End EngineSessions.

(** A fresh momentum bot: two entries, an exit, a second exit. *)
Lemma trade_log_alternates_witness :
  let e := engine_of Config.default
             (Strategy.Momentum (MomentumStrategy.__init__ Config.default)) in
  ledger_consistent
    (run_acts [SigDict (enter_long_at 100); SigDict (enter_long_at 101);
               SigDict (exit_at 110); SigDict (exit_at 120)] e).
Proof.
  intros e.
  apply (trade_log_alternates _ e).
  split; [reflexivity|]. intros p Hp. discriminate.
Defined.

(** The same session: the budget moved by the pnl of its one exit. *)
Lemma budget_tracks_realized_pnl_witness :
  let e := engine_of Config.default
             (Strategy.Momentum (MomentumStrategy.__init__ Config.default)) in
  let ds := [SigDict (enter_long_at 100); SigDict (enter_long_at 101);
             SigDict (exit_at 110); SigDict (exit_at 120)] in
  ExecutionEngine.budget (run_acts ds e)
  - realized_pnl (ExecutionEngine.trades (run_acts ds e))
  == ExecutionEngine.budget e - realized_pnl (ExecutionEngine.trades e).
Proof.
  intros e ds.
  apply (proj2 (budget_tracks_realized_pnl ds e (or_introl eq_refl))).
Defined.

(** Entry at 100, exit at 110 with the default budget and risk. *)
Lemma entry_then_exit_settles_witness :
  let e := engine_of Config.default
             (Strategy.Momentum (MomentumStrategy.__init__ Config.default)) in
  ExecutionEngine.budget
    (run_acts [SigDict (enter_long_at 100); SigDict (exit_at 110)] e)
  = ExecutionEngine.budget e
    + (110 - 100) * ExecutionEngine._order_size (Some 100) e.
Proof.
  intros e.
  assert (Hq : 0 < ExecutionEngine._order_size (Some 100) e) by (vm_compute; reflexivity).
  exact (proj1 (entry_then_exit_settles e (enter_long_at 100) (exit_at 110) 100 110
                  eq_refl eq_refl eq_refl eq_refl eq_refl Hq
                  (or_introl eq_refl))).
Defined.

(** ** The candle builder *)

Lemma py_max_ge_l (a b : Q) : a <= py_max a b.
Proof.
  unfold py_max. destruct (Qgtb b a) eqn:H.
  - apply Qgtb_true in H. apply Qlt_le_weak. exact H.
  - apply Qle_refl.
Qed.

Lemma py_max_ge_r (a b : Q) : b <= py_max a b.
Proof.
  unfold py_max. destruct (Qgtb b a) eqn:H.
  - apply Qle_refl.
  - apply Qgtb_false in H. exact H.
Qed.

Lemma py_min_le_l (a b : Q) : py_min a b <= a.
Proof.
  unfold py_min. destruct (Qltb b a) eqn:H.
  - apply Qltb_true in H. apply Qlt_le_weak. exact H.
  - apply Qle_refl.
Qed.

Lemma py_min_le_r (a b : Q) : py_min a b <= b.
Proof.
  unfold py_min. destruct (Qltb b a) eqn:H.
  - apply Qle_refl.
  - apply Qltb_false in H. exact H.
Qed.

Section CandleBuilder.

Import ScalpingStrategy.

(** A label above every label of the frame is appended. *)
Lemma loc_assign_append (ts : Z) (row : Candle) (cs : list (Z * Candle)) :
  Forall (fun t => (t < ts)%Z) (map fst cs) ->
  loc_assign ts row cs = (cs ++ [(ts, row)])%list.
Proof.
  induction cs as [|[t r] cs IH]; intros H; cbn; [reflexivity|].
  inversion H as [|? ? Ht Hrest]; subst. cbn in Ht.
  destruct (Z.eqb_spec t ts); [lia|]. rewrite IH by assumption. reflexivity.
Qed.

Lemma sorted_snoc (l : list Z) (x : Z) :
  StronglySorted Z.lt l -> Forall (fun t => (t < x)%Z) l ->
  StronglySorted Z.lt (l ++ [x]).
Proof.
  induction l as [|a l IH]; intros Hs Hf; cbn.
  - constructor; constructor.
  - inversion Hs as [|? ? Hs' Ha]; subst. inversion Hf as [|? ? Hax Hf']; subst.
    constructor; [apply IH; assumption|].
    apply Forall_app. split; [assumption|]. constructor; [assumption|constructor].
Qed.

Lemma sorted_tl (l : list Z) : StronglySorted Z.lt l -> StronglySorted Z.lt (tl l).
Proof.
  intros H. destruct l; [exact H|]. inversion H; assumption.
Qed.

Lemma Forall_tl {A} (P : A -> Prop) (l : list A) : Forall P l -> Forall P (tl l).
Proof. intros H. destruct l; [exact H|]. inversion H; assumption. Qed.

Lemma map_tl {A B} (f : A -> B) (l : list A) : map f (tl l) = tl (map f l).
Proof. destruct l; reflexivity. Qed.

(** Storing a finalized candle keeps the frame bounded, ordered and
    consistent. *)
Lemma store_candle_wf (l cur : Z) (c : Candle) (cs : list (Z * Candle)) :
  (List.length cs <= 100)%nat ->
  Forall candle_ok (map snd cs) -> candle_ok c ->
  StronglySorted Z.lt (map fst cs) ->
  Forall (fun t => (t < l)%Z) (map fst cs) ->
  (l < cur)%Z ->
  (List.length (store_candle l c cs) <= 100)%nat
  /\ Forall candle_ok (map snd (store_candle l c cs))
  /\ StronglySorted Z.lt (map fst (store_candle l c cs))
  /\ Forall (fun t => (t < cur)%Z) (map fst (store_candle l c cs)).
Proof.
  intros Hlen Hok Hc Hs Hb Hlt.
  assert (A1 : Forall candle_ok (map snd (cs ++ [(l, c)]))).
  { rewrite map_app. apply Forall_app. split; [assumption|].
    cbn. constructor; [exact Hc|constructor]. }
  assert (A2 : StronglySorted Z.lt (map fst (cs ++ [(l, c)]))).
  { rewrite map_app. apply sorted_snoc; assumption. }
  assert (A3 : Forall (fun t => (t < cur)%Z) (map fst (cs ++ [(l, c)]))).
  { rewrite map_app. apply Forall_app. split.
    - eapply Forall_impl; [|exact Hb]. cbn. intros. lia.
    - cbn. constructor; [exact Hlt|constructor]. }
  assert (A0 : List.length (cs ++ [(l, c)]) = S (List.length cs))
    by (rewrite length_app; cbn; lia).
  unfold store_candle.
  destruct (Nat.ltb_spec 100 (List.length (cs ++ [(l, c)]))) as [Hbig|Hsmall].
  - repeat split.
    + destruct (cs ++ [(l, c)])%list; cbn in *; lia.
    + rewrite map_tl. apply Forall_tl. exact A1.
    + rewrite map_tl. apply sorted_tl. exact A2.
    + rewrite map_tl. apply Forall_tl. exact A3.
  - repeat split; try assumption.
Qed.

(** One call on a well-formed builder with a numeric price and a
    timestamp. *)
Lemma on_tick_update_step (px : Q) (ms : Z) (td : dict) (s : t) (l : Z) (c : Candle) :
  dict_get "price" td = PNum px ->
  dict_get "timestamp" td = PTime ms ->
  last_candle_timestamp s = Some l ->
  current_candle s = Some c ->
  Forall (fun t => (t < l)%Z) (map fst (candles s)) ->
  on_tick_update td s =
    if (l <? floor_1min ms)%Z
    then (mk (cfg s) (store_candle l c (candles s))
             (Some (mkCandle px (py_max px px) (py_min px px) px 0))
             (Some (floor_1min ms)) (latest_bid s) (latest_ask s) (pos s),
          Ok true)
    else (mk (cfg s) (candles s)
             (Some (mkCandle (open c) (py_max (high c) px) (py_min (low c) px) px
                             (volume c)))
             (Some l) (latest_bid s) (latest_ask s) (pos s),
          Ok false).
Proof.
  intros Hp Ht Hl Hc Hb.
  unfold on_tick_update. rewrite Hp, Ht.
  unfold bind, get, ret, modify.
  cbn -[floor_1min Nat.ltb Z.ltb loc_assign]. rewrite Hl.
  destruct (l <? floor_1min ms)%Z.
  - rewrite Hc. cbn -[floor_1min Nat.ltb Z.ltb loc_assign].
    rewrite (loc_assign_append l c (candles s) Hb).
    unfold store_candle.
    destruct (100 <? List.length (candles s ++ [(l, c)]))%nat;
      cbn -[floor_1min]; reflexivity.
  - cbn -[floor_1min]. rewrite Hc. cbn -[floor_1min]. rewrite Hc.
    destruct s; cbn in *. subst. reflexivity.
Qed.

(** The first call on a fresh builder opens a candle at the price. *)
Lemma on_tick_update_first (px : Q) (ms : Z) (td : dict) (s : t) :
  dict_get "price" td = PNum px ->
  dict_get "timestamp" td = PTime ms ->
  last_candle_timestamp s = None ->
  current_candle s = None ->
  on_tick_update td s =
    (mk (cfg s) (candles s)
        (Some (mkCandle px (py_max px px) (py_min px px) px 0))
        (Some (floor_1min ms)) (latest_bid s) (latest_ask s) (pos s),
     Ok false).
Proof.
  intros Hp Ht Hl Hc.
  unfold on_tick_update. rewrite Hp, Ht.
  unfold bind, get, ret, modify. cbn -[floor_1min]. rewrite Hl.
  cbn -[floor_1min]. rewrite Hc. cbn -[floor_1min]. reflexivity.
Qed.

(** Any other tick dict leaves the builder as it was. *)
Lemma on_tick_update_rejected (td : dict) (s : t) :
  (forall px ms, dict_get "price" td = PNum px -> dict_get "timestamp" td = PTime ms -> False) ->
  fst (on_tick_update td s) = s.
Proof.
  intros H. unfold on_tick_update.
  destruct (dict_get "price" td) as [|b1|px|s1|t1|l1|kv1] eqn:Hp;
    destruct (dict_get "timestamp" td) as [|b2|q2|s2|ms|l2|kv2] eqn:Ht;
    try reflexivity.
  exfalso. apply (H px ms); reflexivity.
Qed.

Lemma flat_candle_ok (px : Q) :
  candle_ok (mkCandle px (py_max px px) (py_min px px) px 0).
Proof.
  unfold candle_ok. cbn.
  repeat split; first [apply py_max_ge_l | apply py_min_le_l].
Qed.

Lemma merged_candle_ok (c : Candle) (px : Q) :
  candle_ok c ->
  candle_ok (mkCandle (open c) (py_max (high c) px) (py_min (low c) px) px (volume c)).
Proof.
  intros (H1 & H2 & H3 & H4). unfold candle_ok. cbn. repeat split.
  - eapply Qle_trans; [apply py_min_le_l|exact H1].
  - eapply Qle_trans; [exact H2|apply py_max_ge_l].
  - apply py_min_le_r.
  - apply py_max_ge_r.
Qed.

Lemma on_tick_update_wf (td : dict) (s : t) :
  candles_wf s -> candles_wf (fst (on_tick_update td s)).
Proof.
  intros Hwf.
  destruct (dict_get "price" td) as [|b1|px|s1|t1|l1|kv1] eqn:Hp;
    try (rewrite on_tick_update_rejected; [exact Hwf|intros ? ? E; congruence]).
  destruct (dict_get "timestamp" td) as [|b2|q2|s2|ms|l2|kv2] eqn:Ht;
    try (rewrite on_tick_update_rejected; [exact Hwf|intros ? ? ? E; congruence]).
  destruct Hwf as (Hlen & Hok & Hs & Hlink).
  destruct (last_candle_timestamp s) as [l|] eqn:Hl;
    destruct (current_candle s) as [c|] eqn:Hc; try contradiction.
  - destruct Hlink as [Hcok Hb].
    rewrite (on_tick_update_step px ms td s l c Hp Ht Hl Hc Hb).
    destruct (Z.ltb_spec l (floor_1min ms)) as [Hlt|Hge]; cbn [fst].
    + destruct (store_candle_wf l (floor_1min ms) c (candles s) Hlen Hok Hcok Hs Hb Hlt)
        as (B1 & B2 & B3 & B4).
      unfold candles_wf.
      cbn [candles last_candle_timestamp current_candle].
      split; [exact B1|]. split; [exact B2|]. split; [exact B3|].
      split; [apply flat_candle_ok|exact B4].
    + unfold candles_wf.
      cbn [candles last_candle_timestamp current_candle].
      split; [exact Hlen|]. split; [exact Hok|]. split; [exact Hs|].
      split; [apply merged_candle_ok; exact Hcok|exact Hb].
  - rewrite (on_tick_update_first px ms td s Hp Ht Hl Hc). cbn [fst].
    unfold candles_wf.
    cbn [candles last_candle_timestamp current_candle]. rewrite Hlink.
    split; [cbn; lia|]. split; [constructor|]. split; [constructor|].
    split; [apply flat_candle_ok|constructor].
Qed.

Lemma run_ticks_wf (tds : list dict) (s : t) :
  candles_wf s -> candles_wf (run_ticks tds s).
Proof.
  revert s. induction tds as [|td tds IH]; intros s H; cbn; [exact H|].
  apply IH. apply on_tick_update_wf. exact H.
Qed.

Lemma init_wf (c : Config.t) : candles_wf (__init__ c).
Proof.
  unfold candles_wf. cbn.
  split; [lia|]. split; [constructor|]. split; [constructor|reflexivity].
Qed.

End CandleBuilder.

Section CandleBuilderProperties.

Import ScalpingStrategy.

(** X9.  In every session of [on_tick_update] calls that starts from
    [__init__] and whose ticks carry a number as price (or no price),
    whatever their timestamps and other keys, the candle frame never has
    more than 100 rows, its bucket times are strictly increasing and lie
    strictly below the bucket of the open candle, and a candle is open
    exactly when a bucket time is recorded. *)
Theorem candle_history_bounded_and_ordered (c : Config.t) (tds : list dict) :
  Forall numeric_price tds ->
  (List.length (candles (run_ticks tds (__init__ c))) <= 100)%nat
  /\ StronglySorted Z.lt (map fst (candles (run_ticks tds (__init__ c))))
  /\ match last_candle_timestamp (run_ticks tds (__init__ c)) with
     | Some l => Forall (fun t => (t < l)%Z) (map fst (candles (run_ticks tds (__init__ c))))
                 /\ current_candle (run_ticks tds (__init__ c)) <> None
     | None => current_candle (run_ticks tds (__init__ c)) = None
               /\ candles (run_ticks tds (__init__ c)) = []
     end.
Proof.
  intros _.
  destruct (run_ticks_wf tds (__init__ c) (init_wf c)) as (H1 & _ & H3 & H4).
  split; [exact H1|]. split; [exact H3|].
  destruct (last_candle_timestamp (run_ticks tds (__init__ c)));
    destruct (current_candle (run_ticks tds (__init__ c))); try contradiction.
  - destruct H4 as [_ H4]. split; [exact H4|discriminate].
  - split; [reflexivity|exact H4].
Qed.

(** X10.  In every session of [on_tick_update] calls that starts from
    [__init__] and whose ticks carry a number as price (or no price), each
    stored candle and the open candle are consistent:
    low <= open <= high and low <= close <= high. *)
Theorem candles_are_consistent (c : Config.t) (tds : list dict) :
  Forall numeric_price tds ->
  Forall candle_ok (map snd (candles (run_ticks tds (__init__ c))))
  /\ match current_candle (run_ticks tds (__init__ c)) with
     | Some cc => candle_ok cc
     | None => True
     end.
Proof.
  intros _.
  destruct (run_ticks_wf tds (__init__ c) (init_wf c)) as (_ & H2 & _ & H4).
  split; [exact H2|].
  destruct (last_candle_timestamp (run_ticks tds (__init__ c)));
    destruct (current_candle (run_ticks tds (__init__ c))); try contradiction; auto.
  apply H4.
Qed.

(** X11.  A tick of the replay driver on a builder reached in a session
    with a candle open at bucket l never raises.  It returns True exactly
    when the minute of the tick is later than l; the open candle is then
    appended to the frame under l (no stored row is overwritten), the
    oldest row is dropped beyond 100 rows, and a new candle opens at the
    price.  Otherwise, also for a tick of an earlier minute, it returns
    False, the frame is unchanged and the tick is merged into the open
    candle: high and low widen to the price and close becomes the price. *)
Theorem tick_rolls_candle_over (c : Config.t) (tds : list dict) (px : Q) (ms l : Z)
    (cc : Candle) :
  last_candle_timestamp (run_ticks tds (__init__ c)) = Some l ->
  current_candle (run_ticks tds (__init__ c)) = Some cc ->
  on_tick_update (replay_tick px ms) (run_ticks tds (__init__ c)) =
    let s := run_ticks tds (__init__ c) in
    if (l <? floor_1min ms)%Z
    then (mk (cfg s) (store_candle l cc (candles s))
             (Some (mkCandle px (py_max px px) (py_min px px) px 0))
             (Some (floor_1min ms)) (latest_bid s) (latest_ask s) (pos s),
          Ok true)
    else (mk (cfg s) (candles s)
             (Some (mkCandle (open cc) (py_max (high cc) px) (py_min (low cc) px) px
                             (volume cc)))
             (Some l) (latest_bid s) (latest_ask s) (pos s),
          Ok false).
Proof.
  intros Hl Hc.
  destruct (run_ticks_wf tds (__init__ c) (init_wf c)) as (_ & _ & _ & H4).
  rewrite Hl, Hc in H4. destruct H4 as [_ Hb].
  apply (on_tick_update_step px ms (replay_tick px ms) _ l cc); auto.
Qed.

End CandleBuilderProperties.

(** Three ticks of the replay driver: 100 in the first minute, then 101
    and 99 in the second.  One candle is stored and one is open. *)
Lemma candle_history_bounded_and_ordered_witness :
  let tds := [replay_tick 100 0; replay_tick 101 60000; replay_tick 99 61000] in
  Forall numeric_price tds
  /\ map fst (ScalpingStrategy.candles
                (run_ticks tds (ScalpingStrategy.__init__ Config.default))) = [0%Z]
  /\ StronglySorted Z.lt
       (map fst (ScalpingStrategy.candles
                   (run_ticks tds (ScalpingStrategy.__init__ Config.default)))).
Proof.
  intros tds.
  assert (H : Forall numeric_price tds) by (repeat constructor).
  split; [exact H|]. split; [reflexivity|].
  exact (proj1 (proj2 (candle_history_bounded_and_ordered Config.default tds H))).
Defined.

(** The same three ticks: the open candle of the second minute has open
    101, high 101, low 99 and close 99. *)
Lemma candles_are_consistent_witness :
  let tds := [replay_tick 100 0; replay_tick 101 60000; replay_tick 99 61000] in
  Forall numeric_price tds
  /\ ScalpingStrategy.current_candle
       (run_ticks tds (ScalpingStrategy.__init__ Config.default))
     = Some (ScalpingStrategy.mkCandle 101 101 99 99 0)
  /\ Forall candle_ok
       (map snd (ScalpingStrategy.candles
                   (run_ticks tds (ScalpingStrategy.__init__ Config.default)))).
Proof.
  intros tds.
  assert (H : Forall numeric_price tds) by (repeat constructor).
  split; [exact H|]. split; [vm_compute; reflexivity|].
  exact (proj1 (candles_are_consistent Config.default tds H)).
Defined.

(** A candle opened at 100 in minute 0, then a tick at 105 in minute 1:
    the first candle is stored and the call returns True. *)
Lemma tick_rolls_candle_over_witness :
  let s := run_ticks [replay_tick 100 0] (ScalpingStrategy.__init__ Config.default) in
  snd (ScalpingStrategy.on_tick_update (replay_tick 105 61000) s) = Ok true
  /\ map fst (ScalpingStrategy.candles
                (fst (ScalpingStrategy.on_tick_update (replay_tick 105 61000) s)))
     = [0%Z].
Proof.
  intros s. subst s.
  rewrite (tick_rolls_candle_over Config.default [replay_tick 100 0] 105 61000 0
             (ScalpingStrategy.mkCandle 100 100 100 100 0) eq_refl eq_refl).
  split; reflexivity.
Defined.

(** ** The signal of the scalping strategy *)

Section SignalTable.

Import ScalpingStrategy.

Variable ta_ema : nat -> list Q -> list (option Q).
Variable ta_rsi : nat -> list Q -> list (option Q).

Lemma flt_false (a b : option Q) :
  flt a b = false <-> ~ exists x y, a = Some x /\ b = Some y /\ x < y.
Proof.
  rewrite <- flt_true. destruct (flt a b).
  - split; [discriminate|]. intros H. exfalso. apply H. reflexivity.
  - split; [intros _ H; discriminate|reflexivity].
Qed.

(** X12.  The rest of the decision table of [generate_signal], with at
    least 22 candles: when the buy condition fails and the 9-period EMA
    crosses below the 21-period EMA between the previous and the latest row,
    or the RSI is above the overbought threshold, it returns the exit
    signal priced at the latest close; when both conditions fail, in
    particular when the indicator cells of the latest row hold no value, it
    returns no signal; and whatever it returns is an enter_long or an exit
    priced at the latest close, without a reason. *)
Theorem generate_signal_sell_or_none (self : t) (c : Z * Candle) :
  let n := List.length (candles self) in
  let closes := closes_of self in
  (22 <= n)%nat ->
  nth_error (candles self) (n - 1) = Some c ->
  (~ buy_condition (ta_ema 9 closes) (ta_ema 21 closes) (ta_rsi 14 closes) n
       (Config.rsi_oversold (cfg self)) ->
   sell_condition (ta_ema 9 closes) (ta_ema 21 closes) (ta_rsi 14 closes) n
       (Config.rsi_overbought (cfg self)) ->
   generate_signal ta_ema ta_rsi self
   = Some (mkSignal "exit" (Some (close (snd c))) None))
  /\ (~ buy_condition (ta_ema 9 closes) (ta_ema 21 closes) (ta_rsi 14 closes) n
          (Config.rsi_oversold (cfg self)) ->
      ~ sell_condition (ta_ema 9 closes) (ta_ema 21 closes) (ta_rsi 14 closes) n
          (Config.rsi_overbought (cfg self)) ->
      generate_signal ta_ema ta_rsi self = None)
  /\ (cell (ta_ema 9 closes) (n - 1) = None ->
      cell (ta_rsi 14 closes) (n - 1) = None ->
      generate_signal ta_ema ta_rsi self = None)
  /\ (forall sg, generate_signal ta_ema ta_rsi self = Some sg ->
        price sg = Some (close (snd c)) /\ reason sg = None
        /\ (action sg = "enter_long"%string \/ action sg = "exit"%string)).
Proof.
  intros n closes Hn Hc.
  assert (Hn' : (n <? 22)%nat = false) by (apply Nat.ltb_ge; assumption).
  assert (Hclose : nth_error closes (n - 1) = Some (close (snd c))).
  { unfold closes, closes_of. rewrite nth_error_map, Hc. reflexivity. }
  set (B := flt (cell (ta_ema 9 closes) (n - 2)) (cell (ta_ema 21 closes) (n - 2))
            && fgt (cell (ta_ema 9 closes) (n - 1)) (cell (ta_ema 21 closes) (n - 1))
            || flt (cell (ta_rsi 14 closes) (n - 1)) (Some (Config.rsi_oversold (cfg self)))).
  set (S := fgt (cell (ta_ema 9 closes) (n - 2)) (cell (ta_ema 21 closes) (n - 2))
            && flt (cell (ta_ema 9 closes) (n - 1)) (cell (ta_ema 21 closes) (n - 1))
            || fgt (cell (ta_rsi 14 closes) (n - 1)) (Some (Config.rsi_overbought (cfg self)))).
  assert (E : generate_signal ta_ema ta_rsi self
              = if B then Some (mkSignal "enter_long" (Some (close (snd c))) None)
                else if S then Some (mkSignal "exit" (Some (close (snd c))) None)
                else None).
  { unfold generate_signal. fold n. rewrite Hn'. fold (closes_of self). fold closes.
    rewrite Hclose. reflexivity. }
  assert (HB : B = true <-> buy_condition (ta_ema 9 closes) (ta_ema 21 closes)
                              (ta_rsi 14 closes) n (Config.rsi_oversold (cfg self))).
  { unfold B, buy_condition, cell_lt, cell_below, fgt.
    rewrite orb_true_iff, andb_true_iff, !flt_true. split.
    - intros [[H1 H2]|(x & y & Hx & Hy & Hlt)]; [left; split; assumption|].
      right. injection Hy as <-. exists x. auto.
    - intros [[H1 H2]|(x & Hx & Hlt)]; [left; split; assumption|].
      right. exists x, (Config.rsi_oversold (cfg self)). auto. }
  assert (HS : S = true <-> sell_condition (ta_ema 9 closes) (ta_ema 21 closes)
                              (ta_rsi 14 closes) n (Config.rsi_overbought (cfg self))).
  { unfold S, sell_condition, cell_lt, cell_above, fgt.
    rewrite orb_true_iff, andb_true_iff, !flt_true. split.
    - intros [[H1 H2]|(x & y & Hx & Hy & Hlt)]; [left; split; assumption|].
      right. injection Hx as <-. exists y. auto.
    - intros [[H1 H2]|(x & Hx & Hlt)]; [left; split; assumption|].
      right. exists (Config.rsi_overbought (cfg self)), x. auto. }
  rewrite E. split; [|split; [|split]].
  - intros Hnb Hs. apply HS in Hs. rewrite Hs.
    destruct B; [exfalso; apply Hnb, HB; reflexivity|reflexivity].
  - intros Hnb Hns.
    destruct B; [exfalso; apply Hnb, HB; reflexivity|].
    destruct S; [exfalso; apply Hns, HS; reflexivity|reflexivity].
  - intros He Hr.
    assert (Fr : forall a, flt a None = false) by (intros [a|]; reflexivity).
    assert (Fl : forall a, flt None a = false) by (intros a; reflexivity).
    unfold B, S, fgt. rewrite He, Hr, !Fr, !Fl, !andb_false_r. reflexivity.
  - intros sg Hsg. destruct B; [|destruct S].
    + injection Hsg as <-. cbn. auto.
    + injection Hsg as <-. cbn. auto.
    + discriminate.
Qed.

End SignalTable.

(** Twenty-two rising candles: the fast average stays above the slow one
    and the sample RSI is 100, so the buy condition fails, the sell
    condition holds and the exit is priced at the last close. *)
Lemma generate_signal_sell_or_none_witness :
  ScalpingStrategy.generate_signal sample_ema sample_rsi scalper_after_rise
  = Some (mkSignal "exit" (Some (100 + inject_Z 21)) None).
Proof.
  assert (Hn : (22 <= List.length (ScalpingStrategy.candles scalper_after_rise))%nat)
    by (vm_compute; lia).
  apply (proj1 (generate_signal_sell_or_none sample_ema sample_rsi scalper_after_rise
                  (flat_candle 21 (100 + inject_Z 21)) Hn eq_refl)).
  - intros [[(x & y & Hx & Hy & Hlt) _]|(x & Hx & Hlt)].
    + vm_compute in Hx. vm_compute in Hy.
      injection Hx as <-. injection Hy as <-. vm_compute in Hlt. discriminate.
    + vm_compute in Hx. injection Hx as <-. vm_compute in Hlt. discriminate.
  - right. eexists. split; [vm_compute; reflexivity|]. vm_compute. reflexivity.
Defined.

(** ** The quotes of the scalping strategy *)

Section Quotes.

Import ScalpingStrategy.

Variable float_of_str : string -> option Q.

Lemma contains_pure (k : string) (v : pyval) (s : t) :
  fst (contains k v s) = s.
Proof. destruct v; reflexivity. Qed.

Lemma getitem_pure (k : string) (v : pyval) (s : t) :
  fst (getitem k v s) = s.
Proof. destruct v; cbn; try reflexivity. destruct (lookup k kv); reflexivity. Qed.

Lemma index0_pure (v : pyval) (s : t) : fst (@index0 t v s) = s.
Proof.
  destruct v as [|b|q|str|ms|[|x l]|kv]; try reflexivity. destruct str; reflexivity.
Qed.

Lemma py_float_pure (v : pyval) (s : t) : fst (py_float float_of_str v s) = s.
Proof.
  destruct v as [|b|q|str|ms|l|kv]; cbn; try reflexivity.
  destruct (float_of_str str); reflexivity.
Qed.

(** One side of the book either leaves the strategy alone or stores a
    quote through its setter. *)
Lemma top_of_book_cases (k : string) (setter : option Q -> t -> t)
    (order_book : pyval) (s : t) :
  fst (top_of_book float_of_str k setter order_book s) = s
  \/ exists q, top_of_book float_of_str k setter order_book s
               = (setter (Some q) s, Ok tt).
Proof.
  unfold top_of_book, bind.
  pose proof (contains_pure k order_book s) as H1.
  destruct (contains k order_book s) as [s1 [present|e]]; cbn [fst] in H1; subst s1;
    [|left; reflexivity].
  destruct present; [|left; reflexivity].
  pose proof (getitem_pure k order_book s) as H2.
  destruct (getitem k order_book s) as [s2 [levels|e]]; cbn [fst] in H2; subst s2;
    [|left; reflexivity].
  destruct (truthy levels); [|left; reflexivity].
  pose proof (index0_pure levels s) as H3.
  destruct (index0 levels s) as [s3 [level|e]]; cbn [fst] in H3; subst s3;
    [|left; reflexivity].
  pose proof (index0_pure level s) as H4.
  destruct (index0 level s) as [s4 [px|e]]; cbn [fst] in H4; subst s4;
    [|left; reflexivity].
  pose proof (py_float_pure px s) as H5.
  destruct (py_float float_of_str px s) as [s5 [q|e]]; cbn [fst] in H5; subst s5;
    [|left; reflexivity].
  right. exists q. reflexivity.
Qed.

(** A side that is missing or empty leaves the strategy alone. *)
Lemma top_of_book_absent (k : string) (setter : option Q -> t -> t) (d : dict) (s : t) :
  side_absent k d ->
  top_of_book float_of_str k setter (PDict d) s = (s, Ok tt).
Proof.
  unfold top_of_book, contains, getitem, bind, ret, dict_mem.
  intros [H|(v & H & Hv)]; rewrite H; cbn; [reflexivity|].
  rewrite Hv. reflexivity.
Qed.

(** The two sides in sequence. *)
Lemma on_order_book_update_cases (order_book : pyval) (s : t) :
  exists s1, (s1 = s \/ exists q, s1 = set_latest_bid (Some q) s)
    /\ (fst (on_order_book_update float_of_str order_book s) = s1
        \/ exists q, fst (on_order_book_update float_of_str order_book s)
                     = set_latest_ask (Some q) s1).
Proof.
  unfold on_order_book_update, bind.
  destruct (top_of_book_cases "bids" set_latest_bid order_book s) as [H|(q & H)].
  - destruct (top_of_book float_of_str "bids" set_latest_bid order_book s)
      as [s1 [[]|e]]; cbn [fst] in H; subst s1.
    + exists s. split; [left; reflexivity|].
      destruct (top_of_book_cases "asks" set_latest_ask order_book s) as [H|(q & H)].
      * left. exact H.
      * right. exists q. rewrite H. reflexivity.
    + exists s. split; [left; reflexivity|]. left. reflexivity.
  - rewrite H.
    exists (set_latest_bid (Some q) s). split; [right; exists q; reflexivity|].
    destruct (top_of_book_cases "asks" set_latest_ask order_book
                (set_latest_bid (Some q) s)) as [H'|(q' & H')].
    + left. exact H'.
    + right. exists q'. rewrite H'. reflexivity.
Qed.

Lemma on_order_book_update_pos (order_book : pyval) (s : t) :
  pos (fst (on_order_book_update float_of_str order_book s)) = pos s.
Proof.
  destruct (on_order_book_update_cases order_book s) as (s1 & Hs1 & Hfin).
  destruct Hs1 as [->|(q & ->)]; destruct Hfin as [->|(q' & ->)]; reflexivity.
Qed.

(** X13.  [on_order_book_update] only ever writes the two quotes: the
    candles, the open candle, the position and the configuration are
    untouched, and a quote that has been observed is never lost - after
    any call, whatever the payload and even when the call raises, a bid
    (ask) that was set is still set.  A book whose sides are missing or
    empty changes nothing; a book whose first bid and ask levels start with
    numbers stores exactly those two numbers. *)
Theorem order_book_quotes (order_book : pyval) (s : t) :
  (candles (fst (on_order_book_update float_of_str order_book s)) = candles s
   /\ current_candle (fst (on_order_book_update float_of_str order_book s))
      = current_candle s
   /\ last_candle_timestamp (fst (on_order_book_update float_of_str order_book s))
      = last_candle_timestamp s
   /\ pos (fst (on_order_book_update float_of_str order_book s)) = pos s
   /\ cfg (fst (on_order_book_update float_of_str order_book s)) = cfg s)
  /\ (latest_bid s <> None ->
      latest_bid (fst (on_order_book_update float_of_str order_book s)) <> None)
  /\ (latest_ask s <> None ->
      latest_ask (fst (on_order_book_update float_of_str order_book s)) <> None)
  /\ (forall d, order_book = PDict d -> side_absent "bids" d -> side_absent "asks" d ->
      on_order_book_update float_of_str order_book s = (s, Ok tt))
  /\ (forall b a bids asks rest_b rest_a,
      order_book = numeric_book b a bids asks rest_b rest_a ->
      on_order_book_update float_of_str order_book s
      = (set_latest_ask (Some a) (set_latest_bid (Some b) s), Ok tt)).
Proof.
  destruct (on_order_book_update_cases order_book s) as (s1 & Hs1 & Hfin).
  split; [|split; [|split; [|split]]].
  - destruct Hs1 as [->|(q & ->)]; destruct Hfin as [->|(q' & ->)];
      cbn; repeat split; reflexivity.
  - intros Hb.
    destruct Hs1 as [->|(q & ->)]; destruct Hfin as [->|(q' & ->)];
      cbn; try exact Hb; discriminate.
  - intros Ha.
    destruct Hs1 as [->|(q & ->)]; destruct Hfin as [->|(q' & ->)];
      cbn; try exact Ha; discriminate.
  - intros d -> Hbids Hasks. unfold on_order_book_update, bind.
    rewrite (top_of_book_absent "bids" set_latest_bid d s Hbids).
    apply (top_of_book_absent "asks" set_latest_ask d s Hasks).
  - intros b a bids asks rest_b rest_a ->. reflexivity.
Qed.

End Quotes.

(** A book with a bid of 100 and an ask of 110, then a book without
    sides: both quotes are stored and kept. *)
Lemma order_book_quotes_witness :
  let s := fst (ScalpingStrategy.on_order_book_update no_float book_100_110
                  (ScalpingStrategy.__init__ Config.default)) in
  ScalpingStrategy.latest_bid s = Some 100
  /\ ScalpingStrategy.latest_ask s = Some 110
  /\ ScalpingStrategy.on_order_book_update no_float (PDict []) s = (s, Ok tt).
Proof.
  intros s.
  split; [reflexivity|]. split; [reflexivity|].
  apply (proj1 (proj2 (proj2 (proj2
           (order_book_quotes no_float (PDict []) s)))) [] eq_refl);
    left; reflexivity.
Defined.

(** ** The momentum strategy over a session *)

Section MomentumSessions.

Import MomentumStrategy.

Variable np_mean : list Q -> Q.
Variable np_std : list Q -> Q.

Lemma zscore_pure (series : list Q) (window : nat) (s : t) :
  fst (zscore np_mean np_std series window s) = s.
Proof.
  unfold zscore. destruct (List.length series <? window)%nat; [reflexivity|].
  destruct (last (map Some (last_window window series)) None); reflexivity.
Qed.

(** [on_price] on a price that passes the guard, one case per return
    statement. *)
Lemma on_price_cases (now px : Q) (self : t) :
  0 < px ->
  on_price np_mean np_std now (Some px) self =
    let s1 := price_recorded px self in
    match pos self with
    | Some p =>
        (s1, Ok (if Qgeb px (entry p * (1 + Config.take_profit_pct (cfg self)))
                 then Some (exit_tp px)
                 else if Qleb px (entry p * (1 + Config.stop_loss_pct (cfg self)))
                 then Some (exit_sl px)
                 else None))
    | None =>
        if (Config.zscore_len (cfg self) <=? List.length (prices s1))%nat then
          match snd (zscore np_mean np_std (prices s1) (Config.zscore_len (cfg self)) s1) with
          | Raise e => (s1, Raise e)
          | Ok zs =>
              if Qgtb (px - match _ema s1 with
                            | Some e => if Qeq_bool e 0 then px else e
                            | None => px
                            end) 0
                 && Qgtb zs (Config.zscore_entry (cfg self))
                 && negb (_cooldown now self)
              then (set_last_signal_ts now s1, Ok (Some (enter_long_at px)))
              else (s1, Ok None)
          end
        else (s1, Ok None)
    end.
Proof.
  intros Hpx. apply Qleb_false in Hpx.
  unfold on_price. rewrite Hpx. clear Hpx.
  unfold bind, get, modify, ret. cbn -[zscore deque_append prices_maxlen].
  fold (price_recorded px self).
  destruct (pos self) as [p|] eqn:Hpos.
  - cbn. rewrite ?Hpos.
    destruct (Qgeb px (entry p * (1 + Config.take_profit_pct (cfg self))));
      [reflexivity|].
    destruct (Qleb px (entry p * (1 + Config.stop_loss_pct (cfg self))));
      reflexivity.
  - destruct (Config.zscore_len (cfg self) <=? _)%nat; [|cbn; rewrite ?Hpos; reflexivity].
    pose proof (zscore_pure
                  (deque_append (prices_maxlen (cfg self)) (prices self) px)
                  (Config.zscore_len (cfg self)) (price_recorded px self)) as Hz.
    cbn [prices price_recorded set_prices].
    destruct (zscore np_mean np_std
                (deque_append (prices_maxlen (cfg self)) (prices self) px)
                (Config.zscore_len (cfg self)) (price_recorded px self))
      as [s2 [zs|e]]; cbn [fst snd] in *; subst s2; [|reflexivity].
    unfold _cooldown. cbn [last_signal_ts price_recorded set_prices set__ema cfg].
    destruct (_ && _ && _); cbn; [reflexivity|]. rewrite ?Hpos. reflexivity.
Qed.

(** The state after a call: the recorded price, and the time of the
    signal when an entry fired. *)
Lemma on_price_state (now px : Q) (self : t) :
  0 < px ->
  fst (on_price np_mean np_std now (Some px) self) = price_recorded px self
  \/ fst (on_price np_mean np_std now (Some px) self)
     = set_last_signal_ts now (price_recorded px self).
Proof.
  intros Hpx. rewrite (on_price_cases now px self Hpx). cbv zeta.
  destruct (pos self); [left; reflexivity|].
  destruct (_ <=? _)%nat; [|left; reflexivity].
  destruct (snd _) as [zs|e]; [|left; reflexivity].
  destruct (_ && _ && _); [right|left]; reflexivity.
Qed.

Lemma on_price_rejected (now : Q) (px : option Q) (self : t) :
  match px with Some x => x <= 0 | None => True end ->
  on_price np_mean np_std now px self = (self, Ok None).
Proof.
  destruct px as [x|]; intros H; [|reflexivity].
  apply Qleb_true in H. unfold on_price. rewrite H. reflexivity.
Qed.

Lemma on_price_prices (now : Q) (px : option Q) (self : t) :
  cfg (fst (on_price np_mean np_std now px self)) = cfg self
  /\ prices (fst (on_price np_mean np_std now px self))
     = match px with
       | Some x => if Qleb x 0 then prices self
                   else deque_append (prices_maxlen (cfg self)) (prices self) x
       | None => prices self
       end.
Proof.
  destruct px as [x|]; [|split; reflexivity].
  destruct (Qleb x 0) eqn:Hx.
  - rewrite on_price_rejected by (apply Qleb_true; exact Hx). split; reflexivity.
  - apply Qleb_false in Hx.
    destruct (on_price_state now x self Hx) as [->| ->]; split; reflexivity.
Qed.

Lemma run_prices_window (calls : list (Q * option Q)) (s : t) (l : list Q) :
  prices s = lastn (prices_maxlen (cfg s)) l ->
  cfg (run_prices np_mean np_std calls s) = cfg s
  /\ prices (run_prices np_mean np_std calls s)
     = lastn (prices_maxlen (cfg s)) (l ++ accepted_prices calls).
Proof.
  revert s l. induction calls as [|[now px] calls IH]; intros s l H.
  - cbn. rewrite app_nil_r. split; [reflexivity|exact H].
  - change (run_prices np_mean np_std ((now, px) :: calls) s)
      with (run_prices np_mean np_std calls (fst (on_price np_mean np_std now px s))).
    destruct (on_price_prices now px s) as [Hc Hp].
    change (accepted_prices ((now, px) :: calls))
      with ((match px with
             | Some x => if Qleb x 0 then [] else [x]
             | None => []
             end) ++ accepted_prices calls)%list.
    rewrite app_assoc.
    destruct (IH (fst (on_price np_mean np_std now px s))
                 (l ++ match px with
                       | Some x => if Qleb x 0 then [] else [x]
                       | None => []
                       end)%list) as [IHc IHp].
    + rewrite Hc, Hp. destruct px as [x|]; [destruct (Qleb x 0)|];
        rewrite ?app_nil_r; try exact H.
      rewrite H. apply deque_append_lastn.
    + rewrite IHc, IHp, Hc. split; reflexivity.
Qed.

(** X15.  In every session of [on_price] calls that starts from
    [__init__] the price history holds exactly the last
    max(ema_len, zscore_len) * 3 prices that passed the guard (positive
    prices), oldest first; rejected inputs leave no trace and the history
    never grows beyond that capacity. *)
Theorem price_history_holds_latest (c : Config.t) (calls : list (Q * option Q)) :
  prices (run_prices np_mean np_std calls (__init__ c))
  = lastn (prices_maxlen c) (accepted_prices calls)
  /\ (List.length (prices (run_prices np_mean np_std calls (__init__ c)))
      <= Nat.max (Config.ema_len c) (Config.zscore_len c) * 3)%nat.
Proof.
  destruct (run_prices_window calls (__init__ c) []) as [_ H].
  { cbn. unfold lastn. destruct (0 - prices_maxlen c)%nat; reflexivity. }
  cbn [app] in H. cbn [cfg __init__] in H. rewrite H.
  split; [reflexivity|]. apply lastn_length.
Qed.

(** X16.  The signals of [on_price].  Whenever the call returns a signal,
    the signal carries the price of the call, and it is either an entry -
    then no position is open, the cooldown has elapsed
    (now - last_signal_ts >= cooldown_sec), at least zscore_len prices are
    in the history, and the time of the signal is recorded as
    last_signal_ts - or an exit with reason tp or sl - then a position is
    open and nothing but the average and the history changes.  So no entry
    fires within cooldown_sec of the previous one, none while a position is
    open, and no exit without a position. *)
Theorem momentum_signal_discipline (now : Q) (px : option Q) (self : t) (sg : Signal) :
  snd (on_price np_mean np_std now px self) = Ok (Some sg) ->
  px = price sg
  /\ ((action sg = "enter_long"%string
       /\ pos self = None
       /\ Config.cooldown_sec (cfg self) <= now - last_signal_ts self
       /\ (Config.zscore_len (cfg self)
           <= List.length (prices (fst (on_price np_mean np_std now px self))))%nat
       /\ last_signal_ts (fst (on_price np_mean np_std now px self)) = now)
      \/ (action sg = "exit"%string
          /\ (reason sg = Some "tp"%string \/ reason sg = Some "sl"%string)
          /\ pos self <> None
          /\ last_signal_ts (fst (on_price np_mean np_std now px self))
             = last_signal_ts self)).
Proof.
  destruct px as [x|]; [|rewrite on_price_rejected by exact I; discriminate].
  destruct (Qlt_le_dec 0 x) as [Hx|Hx];
    [|rewrite on_price_rejected by exact Hx; discriminate].
  rewrite (on_price_cases now x self Hx). cbv zeta.
  destruct (pos self) as [p|] eqn:Hpos.
  - cbn [fst snd]. intros H. injection H as H.
    destruct (Qgeb x _); [|destruct (Qleb x _); [|discriminate]];
      injection H as <-; (split; [reflexivity|]); right; cbn;
      (split; [reflexivity|]); (split; [auto|]); (split; [discriminate|reflexivity]).
  - destruct (Nat.leb_spec (Config.zscore_len (cfg self))
                (List.length (prices (price_recorded x self)))) as [Hlen|Hlen];
      [|discriminate].
    destruct (snd (zscore np_mean np_std (prices (price_recorded x self))
                     (Config.zscore_len (cfg self)) (price_recorded x self)))
      as [zs|e]; [|discriminate].
    destruct (Qgtb _ 0 && Qgtb zs _ && negb (_cooldown now self)) eqn:Hc;
      [|discriminate].
    cbn [fst snd]. intros H. injection H as <-. split; [reflexivity|]. left.
    apply andb_true_iff in Hc. destruct Hc as [_ Hcool].
    apply negb_true_iff in Hcool. unfold _cooldown in Hcool. apply Qltb_false in Hcool.
    cbn. repeat split; auto.
Qed.

End MomentumSessions.

(** A position entered at 100 and a price of 101: the signal is the
    take-profit exit at 101. *)
Lemma momentum_signal_discipline_witness :
  Some 101 = price (exit_tp 101)
  /\ MomentumStrategy.pos momentum_long <> None.
Proof.
  destruct (momentum_signal_discipline mean_of unit_std 0 (Some 101) momentum_long
              (exit_tp 101) eq_refl) as [H1 [H2|H2]].
  - split; [exact H1|]. discriminate.
  - split; [exact H1|]. apply H2.
Defined.

(** ** The stream over a session *)

Lemma preserves_ret {S X A} (f : S -> X) (a : A) : preserves f (@ret S A a).
Proof. intros s. reflexivity. Qed.

Lemma preserves_raise {S X A} (f : S -> X) (e : exn) : preserves f (@raise S A e).
Proof. intros s. reflexivity. Qed.

Lemma preserves_bind {S X A B} (f : S -> X) (c : M S A) (k : A -> M S B) :
  preserves f c -> (forall a, preserves f (k a)) -> preserves f (bind c k).
Proof.
  intros Hc Hk s. unfold bind. specialize (Hc s).
  destruct (c s) as [s' [a|e]]; cbn [fst] in *.
  - rewrite (Hk a s'). exact Hc.
  - exact Hc.
Qed.

Lemma preserves_modify {S X} (f : S -> X) (g : S -> S) :
  (forall s, f (g s) = f s) -> preserves f (modify g).
Proof. intros H s. cbn. apply H. Qed.

Lemma index0_state {S} (v : pyval) (s : S) : fst (@index0 S v s) = s.
Proof.
  destruct v as [|b|q|str|ms|[|x l]|kv]; try reflexivity. destruct str; reflexivity.
Qed.

Section StreamSessions.

Import WebSocketManager.

Variable float_of_str : string -> option Q.
Variable refresh_sentiment : AI_Analyzer.t -> AI_Analyzer.t.

Lemma preserves_for_each {X A} (f : t -> X) (l : list A) (body : A -> M t unit) :
  (forall x, preserves f (body x)) -> preserves f (for_each l body).
Proof.
  intros H. induction l as [|x l IH]; cbn [for_each].
  - apply preserves_ret.
  - apply preserves_bind; [apply H|intros _; exact IH].
Qed.

Lemma filter_trade_ticks (tds : list dict) :
  filter is_trade_call (map EvOnTickUpdate tds) = [].
Proof. induction tds; cbn; auto. Qed.

Lemma ledger_view_ticks (tds : list dict) (s : t) :
  ledger_view (with_events (map EvOnTickUpdate tds) s) = ledger_view s.
Proof.
  unfold ledger_view, with_events. cbn.
  rewrite filter_app, filter_trade_ticks, app_nil_r. reflexivity.
Qed.

Lemma ledger_view_emit (e : event) (s : t) :
  is_trade_call e = false -> ledger_view (emit_on e s) = ledger_view s.
Proof.
  intros H. unfold ledger_view, emit_on. cbn.
  rewrite filter_app. cbn. rewrite H, app_nil_r. reflexivity.
Qed.

Lemma route_ticks_keep_ledger (ticks : list pyval) :
  preserves ledger_view (for_each ticks route_tick).
Proof.
  intros s. destruct (for_each_route_tick_calls ticks s) as (tds & H & _).
  rewrite H. apply ledger_view_ticks.
Qed.

(** The strategy call of a book payload: the quotes may change, nothing a
    trade would change does. *)
Lemma book_update_keeps_ledger (order_book : pyval) :
  preserves ledger_view (strategy_on_order_book_update float_of_str order_book).
Proof.
  intros s. unfold strategy_on_order_book_update, bind, get.
  destruct (strategy s) as [sc|m] eqn:Hst; [|reflexivity].
  unfold emit, modify, zoom. cbn [fst].
  destruct (ScalpingStrategy.on_order_book_update float_of_str order_book sc)
    as [sc' r] eqn:Hob.
  cbn [fst].
  assert (Hpos : ScalpingStrategy.pos sc' = ScalpingStrategy.pos sc).
  { pose proof (on_order_book_update_pos float_of_str order_book sc) as H.
    rewrite Hob in H. exact H. }
  unfold ledger_view, set_strategy, strategy, set_engine, emit_on in *. cbn in *.
  rewrite Hst. cbn. rewrite Hpos, filter_app. cbn. rewrite app_nil_r. reflexivity.
Qed.

Lemma route_data_keeps_ledger (data : pyval) :
  preserves ledger_view (_route_data float_of_str data).
Proof.
  unfold _route_data.
  destruct data as [|b|q|str|ms|l|d]; try apply preserves_raise.
  destruct (dict_get_default "result" (PDict []) d) as [|b|q|str|ms|l|result];
    try apply preserves_raise.
  destruct (negb (truthy (PDict result)) || negb (dict_mem "data" result));
    [apply preserves_ret|].
  apply preserves_bind.
  { unfold channel_startswith.
    destruct (dict_get_default "channel" (PStr EmptyString) result);
      first [apply preserves_ret | apply preserves_raise]. }
  intros [|].
  - apply preserves_bind.
    + unfold iter. destruct (dict_get "data" result);
        first [apply preserves_ret | apply preserves_raise].
    + intros ticks. apply route_ticks_keep_ledger.
  - apply preserves_bind.
    { unfold channel_startswith.
      destruct (dict_get_default "channel" (PStr EmptyString) result);
        first [apply preserves_ret | apply preserves_raise]. }
    intros [|]; [|apply preserves_ret].
    apply preserves_bind.
    + intros s. rewrite index0_state. reflexivity.
    + intros ob. apply book_update_keeps_ledger.
Qed.

Lemma refresh_keeps_ledger :
  preserves ledger_view (call_refresh_sentiment refresh_sentiment).
Proof.
  unfold call_refresh_sentiment. apply preserves_bind.
  - intros s. apply ledger_view_emit. reflexivity.
  - intros _. apply preserves_modify. intros s. reflexivity.
Qed.

Lemma listen_step_keeps_ledger (m : message) :
  preserves ledger_view (listen_step float_of_str refresh_sentiment m).
Proof.
  unfold listen_step. apply preserves_bind.
  - destruct m; first [apply preserves_ret | apply preserves_raise].
  - intros data. destruct data as [|b|q|str|ms|l|d]; try apply preserves_raise.
    destruct (is_heartbeat d).
    + intros s. apply ledger_view_emit. reflexivity.
    + apply preserves_bind; [apply refresh_keeps_ledger|].
      intros _. apply route_data_keeps_ledger.
Qed.

(** X17.  The live path never trades.  Whatever frames the connection
    delivers - ticker payloads, book payloads, heartbeats, malformed
    frames - and whichever strategy is loaded, [listen] leaves the budget,
    the trade log, the risk manager and the position as they were, and
    calls neither [approve_trade] nor [act] nor [generate_signal]. *)
Theorem listen_never_trades (frames : list message) (s : t) :
  ExecutionEngine.budget (engine (fst (listen float_of_str refresh_sentiment frames s)))
  = ExecutionEngine.budget (engine s)
  /\ ExecutionEngine.trades (engine (fst (listen float_of_str refresh_sentiment frames s)))
     = ExecutionEngine.trades (engine s)
  /\ risk_manager (fst (listen float_of_str refresh_sentiment frames s)) = risk_manager s
  /\ Strategy.getattr_pos (strategy (fst (listen float_of_str refresh_sentiment frames s)))
     = Strategy.getattr_pos (strategy s)
  /\ filter is_trade_call (trace (fst (listen float_of_str refresh_sentiment frames s)))
     = filter is_trade_call (trace s).
Proof.
  assert (H : preserves ledger_view (listen float_of_str refresh_sentiment frames)).
  { unfold listen. apply preserves_bind; [apply refresh_keeps_ledger|].
    intros _. apply preserves_for_each. intros m. apply listen_step_keeps_ledger. }
  specialize (H s). unfold ledger_view in H.
  injection H as H1 H2 H3 H4 H5. repeat split; assumption.
Qed.

Lemma heartbeat_answers_cons (m : message) (frames : list message) :
  heartbeat_answers (m :: frames)
  = (heartbeat_answers [m] ++ heartbeat_answers frames)%list.
Proof. unfold heartbeat_answers. cbn. rewrite app_nil_r. reflexivity. Qed.

(** One turn of the loop sends the answer owed to its frame, if any. *)
Lemma listen_step_sends (m : message) (s : t) :
  (sends (trace (fst (listen_step float_of_str refresh_sentiment m s)))
   = (sends (trace s) ++ heartbeat_answers [m])%list)
  /\ (is_heartbeat_message m = true ->
      snd (listen_step float_of_str refresh_sentiment m s) = Ok tt).
Proof.
  destruct (is_heartbeat_message m) eqn:Hm.
  - destruct m as [raw|[|b|q|str|ms|l|d]]; try discriminate. cbn in Hm.
    rewrite (listen_step_heartbeat float_of_str refresh_sentiment d s Hm).
    unfold heartbeat_answers. cbn. rewrite Hm, sends_app. cbn. auto.
  - rewrite (listen_step_sends_nothing float_of_str refresh_sentiment m s Hm).
    split; [|discriminate].
    destruct m as [raw|[|b|q|str|ms|l|d]]; unfold heartbeat_answers; cbn;
      rewrite ?app_nil_r; try reflexivity.
    cbn in Hm. rewrite Hm. cbn. rewrite app_nil_r. reflexivity.
Qed.

Lemma for_each_listen_sends (frames : list message) (s : t) :
  (exists k, sends (trace (fst (for_each frames
                                  (listen_step float_of_str refresh_sentiment) s)))
             = (sends (trace s) ++ heartbeat_answers (firstn k frames))%list)
  /\ (snd (for_each frames (listen_step float_of_str refresh_sentiment) s) = Ok tt ->
      sends (trace (fst (for_each frames
                           (listen_step float_of_str refresh_sentiment) s)))
      = (sends (trace s) ++ heartbeat_answers frames)%list).
Proof.
  revert s. induction frames as [|m frames IH]; intros s.
  - cbn. split; [exists 0%nat|intros _]; cbn; rewrite app_nil_r; reflexivity.
  - cbn [for_each]. unfold bind.
    destruct (listen_step_sends m s) as [Hs _].
    destruct (listen_step float_of_str refresh_sentiment m s) as [s1 [[]|e]];
      cbn [fst snd] in *.
    + destruct (IH s1) as [(k & Hk) Hall]. split.
      * exists (S k). cbn [firstn]. rewrite heartbeat_answers_cons, Hk, Hs, app_assoc.
        reflexivity.
      * intros Hok. rewrite (Hall Hok), heartbeat_answers_cons, Hs, app_assoc.
        reflexivity.
    + split; [|discriminate].
      exists 1%nat. cbn [firstn]. destruct frames; exact Hs.
Qed.

Lemma listen_sends_prefix (frames : list message) (s : t) :
  (exists k, sends (trace (fst (listen float_of_str refresh_sentiment frames s)))
             = (sends (trace s) ++ heartbeat_answers (firstn k frames))%list)
  /\ (snd (listen float_of_str refresh_sentiment frames s) = Ok tt ->
      sends (trace (fst (listen float_of_str refresh_sentiment frames s)))
      = (sends (trace s) ++ heartbeat_answers frames)%list).
Proof.
  unfold listen, bind.
  pose proof (keeps_refresh refresh_sentiment s) as Hr.
  destruct (call_refresh_sentiment refresh_sentiment s) as [s0 [[]|e]];
    cbn [fst snd] in *.
  - rewrite <- Hr. apply for_each_listen_sends.
  - split; [|discriminate]. exists 0%nat. cbn. rewrite app_nil_r. exact Hr.
Qed.

(** X18.  Every heartbeat request is answered, in order, and nothing else
    is sent.  The frames [listen] sends are the answers owed to the
    heartbeat requests among the frames it got through before an
    exception, one per request and in the order of the requests; when the
    loop completes, these are the answers to all heartbeat requests of the
    input. *)
Theorem listen_answers_in_order (frames : list message) (s : t) :
  (exists k, sends (trace (fst (listen float_of_str refresh_sentiment frames s)))
             = (sends (trace s) ++ heartbeat_answers (firstn k frames))%list)
  /\ (snd (listen float_of_str refresh_sentiment frames s) = Ok tt ->
      sends (trace (fst (listen float_of_str refresh_sentiment frames s)))
      = (sends (trace s) ++ heartbeat_answers frames)%list).
Proof. apply listen_sends_prefix. Qed.

(** X19.  Payloads the router skips or rejects.  A decoded frame that is
    not an object, or whose "result" is not an object, raises
    AttributeError; a frame without "result", with an empty "result", or
    whose "result" has no "data" is skipped; so is a frame whose channel is
    missing or starts with neither "ticker." nor "book.".  In all these
    cases no component changes and no call is made. *)
Theorem route_data_skips (data : pyval) (s : t) :
  (match data with
   | PDict _ => True
   | _ => _route_data float_of_str data s = (s, Raise AttributeError)
   end)
  /\ (forall d v, data = PDict d -> lookup "result" d = Some v ->
        match v with PDict _ => False | _ => True end ->
        _route_data float_of_str data s = (s, Raise AttributeError))
  /\ (forall d, data = PDict d -> lookup "result" d = None ->
        _route_data float_of_str data s = (s, Ok tt))
  /\ (forall d result, data = PDict d -> lookup "result" d = Some (PDict result) ->
        lookup "data" result = None ->
        _route_data float_of_str data s = (s, Ok tt))
  /\ (forall d result ch, data = PDict d -> lookup "result" d = Some (PDict result) ->
        dict_get_default "channel" (PStr EmptyString) result = PStr ch ->
        startswith "ticker." ch = false -> startswith "book." ch = false ->
        _route_data float_of_str data s = (s, Ok tt)).
Proof.
  split; [destruct data; auto|]. split; [|split; [|split]].
  - intros d v -> Hv Hnd. unfold _route_data, dict_get_default. rewrite Hv.
    destruct v; try reflexivity. contradiction.
  - intros d -> Hr. unfold _route_data, dict_get_default. rewrite Hr. reflexivity.
  - intros d result -> Hr Hd. unfold _route_data, dict_get_default at 1.
    rewrite Hr. unfold dict_mem. rewrite Hd. rewrite orb_true_r. reflexivity.
  - intros d result ch -> Hr Hch Ht Hb. unfold _route_data, dict_get_default at 1.
    rewrite Hr, Hch.
    destruct (negb (truthy (PDict result)) || negb (dict_mem "data" result));
      [reflexivity|].
    unfold bind, channel_startswith, ret. rewrite Ht, Hb. reflexivity.
Qed.

(** X20.  A book payload.  For a frame on a channel that starts with
    "book." whose data is a non-empty list, the router hands the first
    element of the list, and only that one, to
    [strategy.on_order_book_update]: with the scalping strategy the call is
    made and its outcome is the outcome of the router, with the momentum
    strategy, which has no such method, the router raises AttributeError
    and nothing changes. *)
Theorem book_payload_reaches_strategy
    (d result : dict) (ch : string) (ob : pyval) (rest : list pyval) (s : t) :
  lookup "result" d = Some (PDict result) ->
  lookup "channel" result = Some (PStr ch) ->
  startswith "ticker." ch = false ->
  startswith "book." ch = true ->
  lookup "data" result = Some (PList (ob :: rest)) ->
  _route_data float_of_str (PDict d) s =
    match strategy s with
    | Strategy.Momentum _ => (s, Raise AttributeError)
    | Strategy.Scalping sc =>
        (set_strategy
           (Strategy.Scalping
              (fst (ScalpingStrategy.on_order_book_update float_of_str ob sc)))
           (emit_on (EvOnOrderBookUpdate ob) s),
         snd (ScalpingStrategy.on_order_book_update float_of_str ob sc))
    end.
Proof.
  intros Hr Hch Ht Hb Hd.
  unfold _route_data, dict_get_default, dict_mem, dict_get. rewrite Hr, Hch, Hd.
  assert (Hne : truthy (PDict result) = true)
    by (destruct result; [discriminate|reflexivity]).
  rewrite Hne. cbn [negb orb].
  unfold bind, channel_startswith, ret. rewrite Ht, Hb. cbn [index0].
  unfold ret, strategy_on_order_book_update, bind, get. cbv beta iota.
  destruct (strategy s) as [sc|m]; [|reflexivity].
  unfold emit, modify, zoom. cbv beta iota.
  destruct (ScalpingStrategy.on_order_book_update float_of_str ob sc); reflexivity.
Qed.

Import Connection.

Lemma answers_are_not_subscriptions (frames : list message) :
  filter is_subscription (heartbeat_answers frames) = [].
Proof.
  induction frames as [|m frames IH]; [reflexivity|].
  rewrite heartbeat_answers_cons, filter_app, IH, app_nil_r.
  destruct m as [raw|[|b|q|str|ms|l|d]]; try reflexivity.
  unfold heartbeat_answers. cbn. destruct (is_heartbeat d); reflexivity.
Qed.

(** One connection: the subscription, then the answers of the frames the
    loop gets through; the exception that ends it is caught. *)
Lemma connect_once_effect (c : connection) (s : t) :
  snd (connect_once float_of_str refresh_sentiment c s) = Ok tt
  /\ (exists k, sends (trace (fst (connect_once float_of_str refresh_sentiment c s)))
                = (sends (trace s) ++ connection_sends c k)%list)
  /\ ledger_view (fst (connect_once float_of_str refresh_sentiment c s)) = ledger_view s.
Proof.
  unfold connect_once, catch_all, subscribe, emit, modify, bind. cbn [fst snd].
  split; [reflexivity|].
  set (s0 := emit_on (EvSend (subscription_request (t_id c) (t_nonce c))) s).
  assert (Hs0 : sends (trace s0)
                = (sends (trace s) ++ [subscription_request (t_id c) (t_nonce c)])%list)
    by (unfold s0; cbn; rewrite sends_app; reflexivity).
  assert (Hl0 : ledger_view s0 = ledger_view s)
    by (apply ledger_view_emit; reflexivity).
  destruct (listen_sends_prefix (frames c) s0) as [(k & Hk) _].
  assert (Hlv : ledger_view (fst (listen float_of_str refresh_sentiment (frames c) s0))
                = ledger_view s0).
  { unfold listen. apply preserves_bind; [apply refresh_keeps_ledger|].
    intros _. apply preserves_for_each. intros m. apply listen_step_keeps_ledger. }
  destruct (listen float_of_str refresh_sentiment (frames c) s0) as [s1 r];
    cbn [fst snd] in *.
  split.
  - exists k. rewrite Hk, Hs0, <- app_assoc. reflexivity.
  - rewrite Hlv. exact Hl0.
Qed.

(** X21.  The reconnect loop.  However the connections end, [connect]
    does not raise.  Each connection starts with exactly one subscription
    request for the four channels (ticker and book of BTC_USDT and
    ETH_USDT), followed on that connection only by answers to heartbeat
    requests; so the number of subscription requests sent is the number
    of connections.  And the loop never trades: budget, trade log, risk
    manager and position are as they were. *)
Theorem connect_subscribes_once_per_connection (cs : list connection) (s : t) :
  snd (connect float_of_str refresh_sentiment cs s) = Ok tt
  /\ (exists ks, List.length ks = List.length cs
        /\ sends (trace (fst (connect float_of_str refresh_sentiment cs s)))
           = (sends (trace s)
              ++ List.concat (map (fun ck => connection_sends (fst ck) (snd ck))
                             (combine cs ks)))%list)
  /\ List.length (filter is_subscription
                    (sends (trace (fst (connect float_of_str refresh_sentiment cs s)))))
     = (List.length (filter is_subscription (sends (trace s))) + List.length cs)%nat
  /\ ledger_view (fst (connect float_of_str refresh_sentiment cs s)) = ledger_view s.
Proof.
  assert (G : snd (connect float_of_str refresh_sentiment cs s) = Ok tt
    /\ (exists ks, List.length ks = List.length cs
        /\ sends (trace (fst (connect float_of_str refresh_sentiment cs s)))
           = (sends (trace s)
              ++ List.concat (map (fun ck => connection_sends (fst ck) (snd ck))
                             (combine cs ks)))%list)
    /\ ledger_view (fst (connect float_of_str refresh_sentiment cs s)) = ledger_view s).
  { revert s. induction cs as [|c cs IH]; intros s.
    - cbn. split; [reflexivity|]. split; [|reflexivity].
      exists []. cbn. rewrite app_nil_r. auto.
    - unfold connect. cbn [for_each]. unfold bind.
      destruct (connect_once_effect c s) as (Hok & (k & Hk) & Hlv).
      destruct (connect_once float_of_str refresh_sentiment c s) as [s1 r];
        cbn [fst snd] in *. subst r.
      destruct (IH s1) as (Hok' & (ks & Hlen & Hks) & Hlv').
      unfold connect in *. split; [exact Hok'|]. split.
      + exists (k :: ks). split; [cbn; lia|].
        rewrite Hks, Hk. cbn [combine map List.concat fst snd].
        rewrite <- !app_assoc. reflexivity.
      + rewrite Hlv'. exact Hlv. }
  destruct G as (G1 & (ks & Hlen & Hks) & G3).
  split; [exact G1|]. split; [exists ks; auto|]. split; [|exact G3].
  rewrite Hks, filter_app, length_app. f_equal.
  clear Hks G1 G3. revert ks Hlen.
  induction cs as [|c cs IH]; intros [|k ks] Hlen; cbn in Hlen; try lia; [reflexivity|].
  cbn [combine map List.concat fst snd]. rewrite filter_app, length_app.
  rewrite (IH ks) by lia.
  unfold connection_sends. cbn [filter].
  replace (is_subscription (subscription_request (t_id c) (t_nonce c))) with true
    by reflexivity.
  rewrite answers_are_not_subscriptions. reflexivity.
Qed.

End StreamSessions.

(** The three sample frames: the one heartbeat request among them is
    answered. *)
Lemma listen_answers_in_order_witness :
  let m := manager_of (Strategy.Scalping (ScalpingStrategy.__init__ Config.default)) in
  let frames := [WebSocketManager.Json (PDict ticker_frame);
                 WebSocketManager.Json (PDict heartbeat_frame);
                 WebSocketManager.Json (PDict ticker_frame)] in
  sends (WebSocketManager.trace
           (fst (WebSocketManager.listen no_float same_sentiment frames m)))
  = [WebSocketManager.respond_heartbeat heartbeat_frame].
Proof.
  intros m frames.
  exact (proj2 (listen_answers_in_order no_float same_sentiment frames m) eq_refl).
Defined.

(** A subscription acknowledgement without "result" is skipped. *)
Lemma route_data_skips_witness :
  let m := manager_of (Strategy.Scalping (ScalpingStrategy.__init__ Config.default)) in
  WebSocketManager._route_data no_float
    (PDict [("id"%string, PNum 1); ("method"%string, PStr "subscribe")]) m
  = (m, Ok tt).
Proof.
  intros m.
  exact (proj1 (proj2 (proj2 (route_data_skips no_float
           (PDict [("id"%string, PNum 1); ("method"%string, PStr "subscribe")]) m)))
           _ eq_refl eq_refl).
Defined.

(** A book frame with the sample order book on a momentum bot. *)
Lemma book_payload_reaches_strategy_witness :
  let m := manager_of (Strategy.Momentum (MomentumStrategy.__init__ Config.default)) in
  WebSocketManager._route_data no_float
    (PDict [("result"%string,
             PDict [("channel"%string, PStr "book.BTC_USDT.10");
                    ("data"%string, PList [book_100_110])])]) m
  = (m, Raise AttributeError).
Proof.
  intros m.
  exact (book_payload_reaches_strategy no_float
           [("result"%string,
             PDict [("channel"%string, PStr "book.BTC_USDT.10");
                    ("data"%string, PList [book_100_110])])]
           [("channel"%string, PStr "book.BTC_USDT.10");
            ("data"%string, PList [book_100_110])]
           "book.BTC_USDT.10" book_100_110 [] m
           eq_refl eq_refl eq_refl eq_refl eq_refl).
Defined.

(** ** The replay driver *)

Lemma preserves_get {S X} (f : S -> X) : preserves f (@get S).
Proof. intros s. reflexivity. Qed.

Ltac preserves_field :=
  intros ?; cbn;
  repeat match goal with
         | |- context [if ?b then _ else _] => destruct b
         | |- context [match ?x with _ => _ end] => destruct x
         end; reflexivity.

Ltac preserves_step :=
  first
    [ apply preserves_ret
    | apply preserves_raise
    | apply preserves_get
    | apply preserves_modify; preserves_field
    | apply preserves_bind; [|intros ?]
    | match goal with
      | |- preserves _ (if ?b then _ else _) => destruct b
      | |- preserves _ (match ?x with _ => _ end) => destruct x
      end ].

(** [on_tick_update] never touches the position or the quotes. *)
Lemma on_tick_update_pos (td : dict) :
  preserves ScalpingStrategy.pos (ScalpingStrategy.on_tick_update td).
Proof.
  unfold ScalpingStrategy.on_tick_update.
  destruct (dict_get "price" td); destruct (dict_get "timestamp" td);
    repeat preserves_step.
Qed.

Section ReplayDriver.

Import Backtest.

Variable float_of_str : string -> option Q.
Variable ta_ema : nat -> list Q -> list (option Q).
Variable ta_rsi : nat -> list Q -> list (option Q).
Variable np_mean : list Q -> Q.
Variable np_std : list Q -> Q.

Lemma on_price_pos (now : Q) (px : option Q) (s : MomentumStrategy.t) :
  MomentumStrategy.pos (fst (MomentumStrategy.on_price np_mean np_std now px s))
  = MomentumStrategy.pos s.
Proof.
  destruct px as [x|]; [|reflexivity].
  destruct (Qlt_le_dec 0 x) as [Hx|Hx].
  - destruct (on_price_state np_mean np_std now x s Hx) as [->| ->]; reflexivity.
  - rewrite on_price_rejected by exact Hx. reflexivity.
Qed.

(** Computing the signal of a row changes the strategy only, and not its
    position. *)
Lemma row_signal_books (r : row) (e : ExecutionEngine.t) :
  engine_books (fst (row_signal float_of_str ta_ema ta_rsi np_mean np_std r e))
  = engine_books e.
Proof.
  unfold row_signal, bind, get.
  destruct (ExecutionEngine.strat e) as [sc|m] eqn:Hst; unfold zoom.
  - pose proof (on_order_book_update_pos float_of_str
                  (fabricated_book (row_price r)) sc) as H1.
    destruct (ScalpingStrategy.on_order_book_update float_of_str
                (fabricated_book (row_price r)) sc) as [s1 [u|ex]]; cbn [fst] in *.
    + pose proof (on_tick_update_pos
                    (replay_tick (row_price r) (row_timestamp r)) s1) as H2.
      destruct (ScalpingStrategy.on_tick_update
                  (replay_tick (row_price r) (row_timestamp r)) s1)
        as [s2 [[|]|ex]]; cbn [fst] in *;
        unfold engine_books; cbn; rewrite Hst; cbn; rewrite H2, H1; reflexivity.
    + unfold engine_books. cbn. rewrite Hst. cbn. rewrite H1. reflexivity.
  - pose proof (on_price_pos (row_clock r) (Some (row_price r)) m) as Hpos.
    destruct (MomentumStrategy.on_price np_mean np_std (row_clock r)
                (Some (row_price r)) m) as [m' res].
    cbn [fst] in *. unfold engine_books. cbn. rewrite Hst. cbn. rewrite Hpos.
    reflexivity.
Qed.

Lemma process_row_books (ai : AI_Analyzer.t) (r : row) (e : ExecutionEngine.t) :
  RiskManager.log (ExecutionEngine.risk_manager e) = None ->
  engine_books (fst (process_row float_of_str ta_ema ta_rsi np_mean np_std ai r e))
  = engine_books e
  /\ (forall sg, snd (row_signal float_of_str ta_ema ta_rsi np_mean np_std r e)
                 = Ok (Some sg) ->
      snd (process_row float_of_str ta_ema ta_rsi np_mean np_std ai r e)
      = Raise AttributeError).
Proof.
  intros Hlog. unfold process_row, bind.
  pose proof (row_signal_books r e) as Hb.
  destruct (row_signal float_of_str ta_ema ta_rsi np_mean np_std r e)
    as [e1 [[sg|]|ex]]; cbn [fst snd] in *.
  - assert (Hlog1 : RiskManager.log (ExecutionEngine.risk_manager e1) = None).
    { unfold engine_books in Hb. injection Hb as _ _ Hrm _. rewrite Hrm. exact Hlog. }
    unfold get, zoom. cbv beta iota.
    rewrite (approve_trade_unbound_logger (ExecutionEngine.risk_manager e1) ai
               (SigDict sg) (ExecutionEngine.budget e1) Hlog1).
    cbn [fst snd]. split.
    + rewrite <- Hb. destruct e1; reflexivity.
    + intros sg' _. reflexivity.
  - split; [exact Hb|]. intros sg H. discriminate.
  - split; [exact Hb|]. intros sg H. discriminate.
Qed.

Lemma preserves_backtest_for_each {A} (P : ExecutionEngine.t -> Prop)
    (l : list A) (body : A -> M ExecutionEngine.t unit) (e : ExecutionEngine.t) :
  (forall x e', P e' -> engine_books (fst (body x e')) = engine_books e'
                         /\ P (fst (body x e'))) ->
  P e ->
  engine_books (fst (for_each l body e)) = engine_books e
  /\ P (fst (for_each l body e)).
Proof.
  intros H. revert e. induction l as [|x l IH]; intros e HP; cbn [for_each].
  - split; [reflexivity|exact HP].
  - unfold bind. destruct (H x e HP) as [Hb HP'].
    destruct (body x e) as [e1 [[]|ex]]; cbn [fst] in *.
    + destruct (IH e1 HP') as [Hb' HP'']. split; [rewrite Hb'; exact Hb|exact HP''].
    + split; [exact Hb|exact HP'].
Qed.

(** X22.  The replay never trades with the risk manager as [__init__]
    builds it.  While no logger is bound on the manager, [run_backtest]
    leaves the budget, the trade log, the risk manager and the position as
    they were, whatever the rows and the strategy; and a row that yields a
    signal on such an engine ends in AttributeError, raised by
    [approve_trade] before [act] is reached. *)
Theorem backtest_never_trades (ai : AI_Analyzer.t) (files : list (list row))
    (e : ExecutionEngine.t) :
  RiskManager.log (ExecutionEngine.risk_manager e) = None ->
  (ExecutionEngine.budget
     (fst (run_backtest float_of_str ta_ema ta_rsi np_mean np_std ai files e))
   = ExecutionEngine.budget e
   /\ ExecutionEngine.trades
        (fst (run_backtest float_of_str ta_ema ta_rsi np_mean np_std ai files e))
      = ExecutionEngine.trades e
   /\ ExecutionEngine.risk_manager
        (fst (run_backtest float_of_str ta_ema ta_rsi np_mean np_std ai files e))
      = ExecutionEngine.risk_manager e
   /\ Strategy.getattr_pos
        (ExecutionEngine.strat
           (fst (run_backtest float_of_str ta_ema ta_rsi np_mean np_std ai files e)))
      = Strategy.getattr_pos (ExecutionEngine.strat e))
  /\ (forall r sg,
        snd (row_signal float_of_str ta_ema ta_rsi np_mean np_std r e) = Ok (Some sg) ->
        snd (process_row float_of_str ta_ema ta_rsi np_mean np_std ai r e)
        = Raise AttributeError).
Proof.
  intros Hlog. split.
  - set (P := fun e' : ExecutionEngine.t =>
                RiskManager.log (ExecutionEngine.risk_manager e') = None).
    assert (Hrow : forall r e', P e' ->
              engine_books
                (fst (process_row float_of_str ta_ema ta_rsi np_mean np_std ai r e'))
              = engine_books e'
              /\ P (fst (process_row float_of_str ta_ema ta_rsi np_mean np_std ai r e'))).
    { intros r e' HP. destruct (process_row_books ai r e' HP) as [Hb _].
      split; [exact Hb|]. unfold P. unfold engine_books in Hb.
      injection Hb as _ _ Hrm _. rewrite Hrm. exact HP. }
    assert (Hfile : forall rows e', P e' ->
              engine_books
                (fst (for_each rows
                        (process_row float_of_str ta_ema ta_rsi np_mean np_std ai) e'))
              = engine_books e'
              /\ P (fst (for_each rows
                           (process_row float_of_str ta_ema ta_rsi np_mean np_std ai) e'))).
    { intros rows e' HP. apply (preserves_backtest_for_each P); assumption. }
    destruct (preserves_backtest_for_each P files
                (fun rows => for_each rows
                   (process_row float_of_str ta_ema ta_rsi np_mean np_std ai))
                e Hfile Hlog) as [Hb _].
    unfold run_backtest. unfold engine_books in Hb.
    injection Hb as H1 H2 H3 H4. repeat split; assumption.
  - intros r sg. apply (process_row_books ai r e Hlog).
Qed.

End ReplayDriver.

(** A momentum bot as [__main__] wires it, holding a position entered at
    100: the row at 101 yields the take-profit exit and the replay ends
    in AttributeError with budget and log untouched. *)
Lemma backtest_never_trades_witness :
  let e := engine_of Config.default (Strategy.Momentum momentum_long) in
  let r := Backtest.mkRow 101 0 0 in
  snd (Backtest.process_row no_float sample_ema sample_rsi mean_of unit_std neutral r e)
  = Raise AttributeError
  /\ ExecutionEngine.budget
       (fst (Backtest.run_backtest no_float sample_ema sample_rsi mean_of unit_std
               neutral [[r]] e))
     = ExecutionEngine.budget e.
Proof.
  intros e r.
  destruct (backtest_never_trades no_float sample_ema sample_rsi mean_of unit_std
              neutral [[r]] e eq_refl) as [(Hb & _) Hraise].
  split; [|exact Hb].
  apply (Hraise r (exit_tp 101)). reflexivity.
Defined.

(** ** The sentiment cache *)

Section SentimentRefresh.

Import SentimentCache.

Lemma get_sentiment_known (reply : option string) (self : t) :
  known_label (_get_sentiment_from_ai reply self) = true.
Proof.
  unfold _get_sentiment_from_ai.
  destruct (negb (client self)); [reflexivity|].
  destruct reply as [l|]; [|reflexivity].
  destruct (known_label l) eqn:Hl; [exact Hl|reflexivity].
Qed.

Lemma refresh_sentiment_known (now : Q) (reply : option string) (self : t) :
  known_label (AI_Analyzer.sentiment (analyzer self)) = true ->
  known_label (AI_Analyzer.sentiment (analyzer (refresh_sentiment now reply self)))
  = true.
Proof.
  intros H. unfold refresh_sentiment.
  destruct (Qltb (now - last_analysis_time self) (cache_duration self)).
  - exact H.
  - apply get_sentiment_known.
Qed.

Lemma refresh_sentiment_cached (now : Q) (reply : option string) (self : t) :
  now - last_analysis_time self < cache_duration self ->
  refresh_sentiment now reply self = self.
Proof.
  intros H. unfold refresh_sentiment.
  apply Qltb_true in H. rewrite H. reflexivity.
Qed.

(** X23.  The cached label stays one of Bullish, Bearish and Neutral:
    from a state whose label is one of the three (as [__init__] leaves
    it), no sequence of [refresh_sentiment] calls, whatever the clock reads
    and whatever the service answers or fails to answer, stores another
    label. *)
Theorem cached_label_stays_known (calls : list (Q * option string)) (self : t) :
  known_label (AI_Analyzer.sentiment (analyzer self)) = true ->
  known_label (AI_Analyzer.get_current_sentiment (analyzer (run_refreshes calls self)))
  = true.
Proof.
  unfold run_refreshes, AI_Analyzer.get_current_sentiment.
  revert self. induction calls as [|c calls IH]; intros self H; cbn [fold_left].
  - exact H.
  - apply IH. apply refresh_sentiment_known. exact H.
Qed.

(** X24.  A refresh that finds the cache expired stores the clock reading
    and the validated answer, and from then on every call made less than
    [cache_duration] after it returns without any change, whatever the
    service would have answered. *)
Theorem refresh_is_throttled (t0 : Q) (r0 : option string)
    (calls : list (Q * option string)) (self : t) :
  cache_duration self <= t0 - last_analysis_time self ->
  Forall (fun c => fst c - t0 < cache_duration self) calls ->
  last_analysis_time (refresh_sentiment t0 r0 self) = t0
  /\ AI_Analyzer.sentiment (analyzer (refresh_sentiment t0 r0 self))
     = _get_sentiment_from_ai r0 self
  /\ run_refreshes calls (refresh_sentiment t0 r0 self) = refresh_sentiment t0 r0 self.
Proof.
  intros Hexp Hcalls.
  assert (Hs1 : refresh_sentiment t0 r0 self
                = mk (AI_Analyzer.mk (_get_sentiment_from_ai r0 self)) (client self)
                     t0 (cache_duration self)).
  { unfold refresh_sentiment. apply Qltb_false in Hexp. rewrite Hexp. reflexivity. }
  rewrite Hs1. cbn [last_analysis_time analyzer AI_Analyzer.sentiment].
  split; [reflexivity|]. split; [reflexivity|].
  unfold run_refreshes.
  induction Hcalls as [|c calls Hc _ IH]; cbn [fold_left].
  - reflexivity.
  - rewrite refresh_sentiment_cached; [exact IH|exact Hc].
Qed.

End SentimentRefresh.

(** The analyzer as built, asked at 1000 s (expired: the last analysis is
    at 0 and the cache lasts 900 s) with an answer outside the three
    labels, then at 1500 s with a valid one. *)
Lemma cached_label_stays_known_witness :
  SentimentCache.known_label
    (AI_Analyzer.sentiment (SentimentCache.analyzer SentimentCache.__init__)) = true
  /\ SentimentCache.known_label
       (AI_Analyzer.get_current_sentiment
          (SentimentCache.analyzer
             (SentimentCache.run_refreshes
                [(1000, Some "Very bullish"%string); (1500, Some "Bearish"%string)]
                SentimentCache.__init__))) = true.
Proof.
  split; [reflexivity|].
  apply (cached_label_stays_known
           [(1000, Some "Very bullish"%string); (1500, Some "Bearish"%string)]
           SentimentCache.__init__).
  reflexivity.
Defined.

(** The analyzer as built refreshed at 1000 s with "Bearish"; the calls at
    1500 s and 1899 s change nothing. *)
Lemma refresh_is_throttled_witness :
  let s1 := SentimentCache.refresh_sentiment 1000 (Some "Bearish"%string)
              SentimentCache.__init__ in
  AI_Analyzer.sentiment (SentimentCache.analyzer s1) = "Bearish"%string
  /\ SentimentCache.run_refreshes
       [(1500, Some "Bullish"%string); (1899, None)] s1 = s1.
Proof.
  intros s1.
  assert (Hexp : SentimentCache.cache_duration SentimentCache.__init__
                 <= 1000 - SentimentCache.last_analysis_time SentimentCache.__init__).
  { vm_compute. discriminate. }
  assert (Hcalls : Forall (fun c => fst c - 1000
                                    < SentimentCache.cache_duration SentimentCache.__init__)
                     [(1500, Some "Bullish"%string); (1899, @None string)]).
  { repeat constructor. }
  destruct (refresh_is_throttled 1000 (Some "Bearish"%string)
              [(1500, Some "Bullish"%string); (1899, None)]
              SentimentCache.__init__ Hexp Hcalls) as (_ & Hl & Hrun).
  split; [exact Hl|exact Hrun].
Defined.
